(** * newsTTS: scraping, chunking and speech synthesis glue

    A shallow embedding of the Python sources of the repository
    (elevenlabs_tts.py, news_tts_app.py, news_tts_app_enhanced.py,
    scrape_dailysabah.py, scrape_riktpunkt.py, config.py) and the
    properties of its specification, stated and proved over it. *)

From Stdlib Require Import List Bool Arith ZArith NArith Lia.
From Stdlib Require Import Strings.String Strings.Ascii.
Import ListNotations.

Set Implicit Arguments.

(* ================================================================== *)
(** * Python strings *)
(* ================================================================== *)

(** A Python [str] is a sequence of Unicode code points.  Literals of the
    sources are written [py "..."]: the bytes of the literal, decoded as
    UTF-8, which is how Python reads its source files; the decoding is done
    once, where the literal stands. *)

Module Py.

Definition char := N.
Definition str := list char.

Fixpoint utf8_decode_aux (need : nat) (acc : N) (bs : list N) : str :=
  match bs with
  | [] => []
  | b :: bs' =>
      match need with
      | S k =>
          let acc' := (acc * 64 + b mod 64)%N in
          match k with
          | O => acc' :: utf8_decode_aux 0 0 bs'
          | S _ => utf8_decode_aux k acc' bs'
          end
      | O =>
          if (b <? 128)%N then b :: utf8_decode_aux 0 0 bs'
          else if (b <? 224)%N then utf8_decode_aux 1 (b mod 32)%N bs'
          else if (b <? 240)%N then utf8_decode_aux 2 (b mod 16)%N bs'
          else utf8_decode_aux 3 (b mod 8)%N bs'
      end
  end.

Definition decode (s : string) : str :=
  utf8_decode_aux 0 0 (map N_of_ascii (list_ascii_of_string s)).

(** [len(s)], a Python int. *)
Definition len (s : str) : Z := Z.of_nat (List.length s).

(** Truth value of a string: non-empty. *)
Definition truthy (s : str) : bool :=
  match s with [] => false | _ :: _ => true end.

Fixpoint str_eqb (a b : str) : bool :=
  match a, b with
  | [], [] => true
  | x :: a', y :: b' => N.eqb x y && str_eqb a' b'
  | _, _ => false
  end.

(** Whitespace as CPython's [_PyUnicode_IsWhitespace] has it; this one
    predicate serves both [str.strip()] and the class [\s] of [re] on
    [str] patterns. *)
Definition isspace (c : char) : bool :=
  ((9 <=? c) && (c <=? 13) || (28 <=? c) && (c <=? 32)
   || (c =? 133) || (c =? 160) || (c =? 5760)
   || (8192 <=? c) && (c <=? 8202)
   || (c =? 8232) || (c =? 8233) || (c =? 8239) || (c =? 8287)
   || (c =? 12288))%N.

Fixpoint lstrip (s : str) : str :=
  match s with
  | [] => []
  | c :: s' => if isspace c then lstrip s' else s
  end.

Definition rstrip (s : str) : str := rev (lstrip (rev s)).

(** [s.strip()] *)
Definition strip (s : str) : str := rstrip (lstrip s).

(** [sep.join(parts)] *)
Fixpoint join (sep : str) (parts : list str) : str :=
  match parts with
  | [] => []
  | [p] => p
  | p :: rest => p ++ sep ++ join sep rest
  end.

(** [s.startswith(prefix)] *)
Fixpoint startswith (s prefix : str) : bool :=
  match prefix, s with
  | [], _ => true
  | p :: prefix', c :: s' => N.eqb p c && startswith s' prefix'
  | _ :: _, [] => false
  end.

(** [s.endswith(suffix)] *)
Definition endswith (s suffix : str) : bool :=
  startswith (rev s) (rev suffix).

(** [needle in s] *)
Fixpoint contains (s needle : str) : bool :=
  startswith s needle ||
  match s with
  | [] => false
  | _ :: s' => contains s' needle
  end.

End Py.

Import Py.

Notation "'py' s" :=
  (ltac:(let v := eval vm_compute in (decode s) in exact v))
  (at level 9, s at level 0, only parsing).

(* ================================================================== *)
(** * The regular expression of the chunker *)
(* ================================================================== *)

(** [re.split(r'[.!?]+\s+', text)].  The two classes are disjoint, so at a
    given start the greedy match is the whole run of terminators followed by
    the whole run of whitespace, and giving terminators back never helps:
    the character after a shorter run is a terminator, not whitespace. *)

Module Re.

(** The class [[.!?]]. *)
Definition is_term (c : char) : bool :=
  ((c =? 46) || (c =? 33) || (c =? 63))%N.

Fixpoint run_length (p : char -> bool) (s : str) : nat :=
  match s with
  | [] => 0
  | c :: s' => if p c then S (run_length p s') else 0
  end.

(** Length of the match of the pattern at the head of [s], if any. *)
Definition match_sep (s : str) : option nat :=
  let t := run_length is_term s in
  let w := run_length isspace (skipn t s) in
  match t, w with
  | S _, S _ => Some (t + w)
  | _, _ => None
  end.

(** The scan of [re.split]: [cur] is the piece being collected (reversed),
    [skip] the number of characters of the current match still to pass. The
    search resumes where the last match ended and takes the leftmost match. *)
Fixpoint split_scan (cur : str) (skip : nat) (s : str) : list str :=
  match s with
  | [] => [rev cur]
  | c :: s' =>
      match skip with
      | S k => split_scan cur k s'
      | O =>
          match match_sep s with
          | Some n => rev cur :: split_scan [] (pred n) s'
          | None => split_scan (c :: cur) 0 s'
          end
      end
  end.

Definition split (text : str) : list str := split_scan [] 0 text.

End Re.

(* ================================================================== *)
(** * elevenlabs_tts.py: the text chunker *)
(* ================================================================== *)

Module ElevenlabsTts.

(** The body of the [for sentence in sentences] loop of [split_text], with
    the two variables it updates. *)
Fixpoint split_loop (max_length : Z) (sentences : list str)
    (chunks : list str) (current_chunk : str) : list str * str :=
  match sentences with
  | [] => (chunks, current_chunk)
  | sentence :: rest =>
      let sentence := strip sentence in
      if negb (truthy sentence) then
        split_loop max_length rest chunks current_chunk
      else if (len current_chunk + len sentence + 2 >? max_length)%Z
              && truthy current_chunk then
        split_loop max_length rest (chunks ++ [strip current_chunk]) sentence
      else
        split_loop max_length rest chunks
          (if truthy current_chunk
           then current_chunk ++ py ". " ++ sentence
           else current_chunk ++ sentence)
  end.

Definition split_text (text : str) (max_length : Z) : list str :=
  let sentences := Re.split text in
  let '(chunks, current_chunk) := split_loop max_length sentences [] [] in
  if truthy (strip current_chunk)
  then chunks ++ [strip current_chunk]
  else chunks.

(** The sentences the loop works on: the pieces of the split, stripped,
    the empty ones skipped. *)
Definition sentences_of (text : str) : list str :=
  filter truthy (map strip (Re.split text)).

End ElevenlabsTts.

Import ElevenlabsTts.


(* ================================================================== *)
(** * Exceptions *)
(* ================================================================== *)

Module Exn.

Inductive exn :=
| RequestException        (* requests: connection error, or bad status *)
| ParserRejectedMarkup    (* bs4: the parser gave up on the markup *)
| AttributeError          (* a method called on None *)
| KeyError                (* tag['href'] on a tag without href *)
| OSError.                (* a file could not be read or written *)

Inductive outcome (A : Type) :=
| Returned (a : A)
| Raised (e : exn).

Arguments Returned {A} a.
Arguments Raised {A} e.

Definition bind {A B} (m : outcome A) (k : A -> outcome B) : outcome B :=
  match m with
  | Returned a => k a
  | Raised e => Raised e
  end.

(** [try: body  except Exception: handler] where the handler returns. *)
Definition catch {A} (body : outcome A) (handler : exn -> A) : A :=
  match body with
  | Returned a => a
  | Raised e => handler e
  end.

End Exn.

Import Exn.

Notation "x <- m ;; k" := (bind m (fun x => k))
  (at level 61, m at next level, right associativity).

(* ================================================================== *)
(** * The parsed page, as BeautifulSoup shows it *)
(* ================================================================== *)

(** A page after parsing: text nodes and tags.  Of a tag the sources read
    the name, the list of classes and the [href] attribute.  The parser
    lowers tag names, and the selectors of the sources are lower case, so
    names are compared as they are. *)

Module Bs4.

#[local] Unset Elimination Schemes.

Inductive node :=
| Text (s : str)
| Tag (name : str) (classes : list str) (href : option str)
      (children : list node).

#[local] Set Elimination Schemes.

(** [tag.text]: the strings below the tag, concatenated. *)
Fixpoint text (n : node) : str :=
  match n with
  | Text s => s
  | Tag _ _ _ children => flat_map text children
  end.

(** The tags of a subtree, its root first, in document order. *)
Fixpoint tags (n : node) : list node :=
  match n with
  | Text _ => []
  | Tag _ _ _ children => n :: flat_map tags children
  end.

(** The tags strictly below [n], in document order. *)
Definition descendants (n : node) : list node :=
  match n with
  | Text _ => []
  | Tag _ _ _ children => flat_map tags children
  end.

Definition has_name (name : str) (n : node) : bool :=
  match n with
  | Text _ => false
  | Tag nm _ _ _ => str_eqb nm name
  end.

Definition has_class (class : str) (n : node) : bool :=
  match n with
  | Text _ => false
  | Tag _ classes _ _ => existsb (str_eqb class) classes
  end.

(** [tag.get('href')] *)
Definition get_href (n : node) : option str :=
  match n with
  | Text _ => None
  | Tag _ _ href _ => href
  end.

(** [tag.find_all(name)] *)
Definition find_all (name : str) (n : node) : list node :=
  filter (has_name name) (descendants n).

(** [tag.find_all(name, class_=class)] *)
Definition find_all_class (name class : str) (n : node) : list node :=
  filter (fun t => has_name name t && has_class class t) (descendants n).

(** [tag.find_all(name, href=True)] *)
Definition find_all_href (name : str) (n : node) : list node :=
  filter (fun t => has_name name t
                   && match get_href t with Some _ => true | None => false end)
         (descendants n).

(** [tag.find(name)] and [tag.find(name, class_=class)] *)
Definition find (name : str) (n : node) : option node :=
  hd_error (find_all name n).

Definition find_class (name class : str) (n : node) : option node :=
  hd_error (find_all_class name class n).

(** The selectors of the sources are a tag name, or a tag name and a class
    after a dot. *)
Fixpoint css (selector : str) : str * option str :=
  match selector with
  | [] => ([], None)
  | c :: rest =>
      if (c =? 46)%N then ([], Some rest)
      else let '(name, class) := css rest in (c :: name, class)
  end.

Definition matches (selector : str) (n : node) : bool :=
  let '(name, class) := css selector in
  has_name name n
  && match class with
     | None => true
     | Some c => has_class c n
     end.

(** [tag.select(selector)] and [tag.select_one(selector)] *)
Definition select (selector : str) (n : node) : list node :=
  filter (matches selector) (descendants n).

Definition select_one (selector : str) (n : node) : option node :=
  hd_error (select selector n).

End Bs4.

Import Bs4.

(* ================================================================== *)
(** * The world outside: the site, the clock, the speech service *)
(* ================================================================== *)

Module World.

(** What the markup of a response parses to. *)
Inductive markup :=
| Rejected              (* BeautifulSoup raises on it *)
| Html (soup : node).

(** What [requests.get(url)] comes back with. *)
Inductive response :=
| ConnectionFailed                               (* the call itself raises *)
| Response (status_ok : bool) (content : markup).

(** The surroundings of one run.  The site answers a URL the same way
    throughout the run and the clock is read as one instant; the pauses of
    [time.sleep] change nothing that is modelled. *)
Record world := {
  get : str -> response;         (* the site *)
  strftime : str -> str;         (* datetime.now().strftime(format) *)
  speech : str -> str -> bool;   (* does the speech request for this text
                                    and file succeed *)
  getsize : str -> option Z;     (* size of a file, if it exists *)
  writable : str -> bool;        (* can this file be opened for writing,
                                    this folder be made or found *)
  isalnum : char -> bool;        (* str.isalnum of the Unicode database *)
  isdecimal : char -> bool       (* the class \d of the Unicode database *)
}.

End World.

Import World.

(* ================================================================== *)
(** * config.py *)
(* ================================================================== *)

Module Config.

Definition NEWS_SOURCE_url : str := py "https://www.dailysabah.com/columns".
Definition selectors_article_cards : str := py "div.article-card".
Definition selectors_title : str := py "h3".
Definition selectors_author : str := py "div.author-info".
Definition selectors_link : str := py "a.card".
Definition selectors_content : list str :=
  [py "div.article-content"; py "div.content"; py "div.post-content";
   py "article"; py "div.entry-content"].

Definition TTS_CONFIG_output_format : str := py "wav".

Definition FILE_CONFIG_output_directory : str := py "audio_files".
Definition FILE_CONFIG_max_columns_per_day : Z := 5.

End Config.

(* ================================================================== *)
(** * Articles *)
(* ================================================================== *)

Record article := {
  title : str;
  author : str;
  url : str;
  content : str;
  date : str
}.

(** The text returned when no content was found. *)
Definition sentinel : str := py "Content could not be extracted".

Definition newline : str := [10%N].

(** Paragraphs of a container: [p.text.strip()] for each [p], the empty
    ones left out, joined by newlines. *)
Definition paragraphs_text (content_div : node) : str :=
  join newline
    (filter truthy
       (map (fun p => strip (text p)) (find_all (py "p") content_div))).

(** The loop over the content selectors, shared by both applications: the
    first selector that finds a tag decides, and the loop ends there. *)
Fixpoint content_loop (soup : node) (content_selectors : list str) : str :=
  match content_selectors with
  | [] => []
  | selector :: rest =>
      match select_one selector soup with
      | Some content_div => paragraphs_text content_div
      | None => content_loop soup rest
      end
  end.

(** The container the loop settles on: the first tag found by the first
    selector that finds one. *)
Fixpoint first_container (soup : node) (content_selectors : list str)
  : option node :=
  match content_selectors with
  | [] => None
  | selector :: rest =>
      match select_one selector soup with
      | Some content_div => Some content_div
      | None => first_container soup rest
      end
  end.

Definition full_url_of (link : str) : str :=
  if startswith link (py "http") then link
  else py "https://www.dailysabah.com" ++ link.

(* ================================================================== *)
(** * news_tts_app_enhanced.py: extraction and listing *)
(* ================================================================== *)

Module NewsTtsAppEnhanced.

(** [session.get], [raise_for_status] and the parse. *)
Definition fetch (w : world) (url : str) : outcome node :=
  match get w url with
  | ConnectionFailed => Raised RequestException
  | Response false _ => Raised RequestException
  | Response true Rejected => Raised ParserRejectedMarkup
  | Response true (Html soup) => Returned soup
  end.

(** The text of a fetched page. *)
Definition extract (soup : node) (content_selectors : list str) : str :=
  let content := content_loop soup content_selectors in
  if negb (truthy content) then sentinel else content.

(** Both handlers return [None]: no exception leaves the function. *)
Definition get_column_content (w : world) (url : str) : option str :=
  catch (soup <- fetch w url ;;
         Returned (Some (extract soup Config.selectors_content)))
        (fun _ => None).

(** [content and content != "Content could not be extracted"] *)
Definition accepted (content : option str) : bool :=
  match content with
  | None => false
  | Some c => truthy c && negb (str_eqb c sentinel)
  end.

Definition text_of (content : option str) : str :=
  match content with Some c => c | None => [] end.

(** The loop over the article cards. *)
Fixpoint cards_loop (w : world) (cap : Z) (article_cards : list node)
    (columns_data : list article) : outcome (list article) :=
  match article_cards with
  | [] => Returned columns_data
  | card :: rest =>
      let title_elem := select_one Config.selectors_title card in
      let author_elem := select_one Config.selectors_author card in
      let link_elem := select_one Config.selectors_link card in
      match title_elem, link_elem with
      | Some title_elem, Some link_elem =>
          let title := strip (text title_elem) in
          let author := match author_elem with
                        | Some a => strip (text a)
                        | None => py "Unknown"
                        end in
          match get_href link_elem with
          | None => Raised AttributeError      (* None.startswith *)
          | Some link =>
              let full_url := full_url_of link in
              let content := get_column_content w full_url in
              if accepted content then
                let columns_data :=
                  columns_data ++
                  [ {| title := title; author := author; url := full_url;
                       content := text_of content;
                       date := strftime w (py "%Y-%m-%d") |} ] in
                if (Z.of_nat (List.length columns_data) >=? cap)%Z
                then Returned columns_data
                else cards_loop w cap rest columns_data
              else cards_loop w cap rest columns_data
          end
      | _, _ => cards_loop w cap rest columns_data
      end
  end.

(** The loop over all anchors, taken when no card was found. *)
Fixpoint links_loop (w : world) (cap : Z) (column_links : list node)
    (columns_data : list article) : outcome (list article) :=
  match column_links with
  | [] => Returned columns_data
  | link :: rest =>
      let href := match get_href link with Some h => h | None => [] end in
      if truthy href && contains href (py "/columns/")
         && negb (endswith href (py "/columns")) then
        let title := strip (text link) in
        if (len title >? 10)%Z then
          let full_url := full_url_of href in
          let content := get_column_content w full_url in
          if accepted content then
            let columns_data :=
              columns_data ++
              [ {| title := title; author := py "Unknown"; url := full_url;
                   content := text_of content;
                   date := strftime w (py "%Y-%m-%d") |} ] in
            if (Z.of_nat (List.length columns_data) >=? cap)%Z
            then Returned columns_data
            else links_loop w cap rest columns_data
          else links_loop w cap rest columns_data
        else links_loop w cap rest columns_data
      else links_loop w cap rest columns_data
  end.

Definition listing_body (w : world) : outcome (list article) :=
  soup <- fetch w Config.NEWS_SOURCE_url ;;
  let article_cards := select Config.selectors_article_cards soup in
  match article_cards with
  | [] =>
      links_loop w Config.FILE_CONFIG_max_columns_per_day
        (find_all_href (py "a") soup) []
  | _ :: _ =>
      cards_loop w Config.FILE_CONFIG_max_columns_per_day article_cards []
  end.

(** Both handlers return the empty list. *)
Definition get_daily_sabah_columns (w : world) : list article :=
  catch (listing_body w) (fun _ => []).

End NewsTtsAppEnhanced.

(* ================================================================== *)
(** * news_tts_app.py: extraction and listing *)
(* ================================================================== *)

Module NewsTtsApp.

(** [requests.get] and the parse; the status is not looked at. *)
Definition fetch (w : world) (url : str) : outcome node :=
  match get w url with
  | ConnectionFailed => Raised RequestException
  | Response _ Rejected => Raised ParserRejectedMarkup
  | Response _ (Html soup) => Returned soup
  end.

Definition content_selectors : list str :=
  [py "div.article-content"; py "div.content"; py "div.post-content";
   py "article"; py "div.entry-content"].

Definition extract (soup : node) (content_selectors : list str) : str :=
  let content := content_loop soup content_selectors in
  if truthy content then content else sentinel.

Definition get_column_content (w : world) (url : str) : option str :=
  catch (soup <- fetch w url ;;
         Returned (Some (extract soup content_selectors)))
        (fun _ => None).

(** [if content:] *)
Definition accepted (content : option str) : bool :=
  match content with
  | None => false
  | Some c => truthy c
  end.

Fixpoint cards_loop (w : world) (article_cards : list node)
    (columns_data : list article) : outcome (list article) :=
  match article_cards with
  | [] => Returned columns_data
  | article_card :: rest =>
      let title_tag := find (py "h3") article_card in
      let author_tag := find_class (py "div") (py "author-info") article_card in
      let link_tag := find_class (py "a") (py "card") article_card in
      match title_tag, author_tag, link_tag with
      | Some title_tag, Some author_tag, Some link_tag =>
          match get_href link_tag with
          | None => Raised KeyError              (* link_tag['href'] *)
          | Some link =>
              let full_url := full_url_of link in
              let content := get_column_content w full_url in
              if accepted content then
                cards_loop w rest
                  (columns_data ++
                   [ {| title := strip (text title_tag);
                        author := strip (text author_tag);
                        url := full_url;
                        content := match content with
                                   | Some c => c
                                   | None => []
                                   end;
                        date := strftime w (py "%Y-%m-%d") |} ])
              else cards_loop w rest columns_data
          end
      | _, _, _ => cards_loop w rest columns_data
      end
  end.

Definition listing_body (w : world) : outcome (list article) :=
  soup <- fetch w (py "https://www.dailysabah.com/columns") ;;
  columns_data <-
    cards_loop w (find_all_class (py "div") (py "article-card") soup) [] ;;
  Returned (firstn 5 columns_data).

Definition get_daily_sabah_columns (w : world) : list article :=
  catch (listing_body w) (fun _ => []).

End NewsTtsApp.


(* ================================================================== *)
(** * What a run does: the trace of its effects *)
(* ================================================================== *)

Module Run.

(** An entry of the list a run returns and writes as metadata. *)
Inductive record :=
| Demo (demo : str)
| Produced (title author audio_file original_url date : str) (file_size : Z).

Inductive event :=
| Listing                               (* the listing step was run *)
| Speech (text filename : str)          (* a request to the speech service *)
| Audio (path : str)                    (* an audio file was written *)
| SpeechError (filename : str)          (* the error line of a failed request *)
| Error (line : str)                    (* another error line *)
| Warning (line : str)
| Metadata (path : str) (records : list record)   (* metadata written *)
| MetadataError (path : str).

(** A computation with its trace. *)
Definition M (A : Type) : Type := A * list event.

Definition ret {A} (a : A) : M A := (a, []).

Definition tell (es : list event) : M unit := (tt, es).

Definition bindM {A B} (m : M A) (k : A -> M B) : M B :=
  let '(a, t1) := m in
  let '(b, t2) := k a in
  (b, t1 ++ t2).

Definition trace {A} (m : M A) : list event := snd m.
Definition value {A} (m : M A) : A := fst m.

(** The requests to the speech service of a trace, in order. *)
Fixpoint speech_calls (t : list event) : list (str * str) :=
  match t with
  | [] => []
  | Speech text filename :: t' => (text, filename) :: speech_calls t'
  | _ :: t' => speech_calls t'
  end.

(** How often the listing step was run. *)
Fixpoint listing_calls (t : list event) : nat :=
  match t with
  | [] => 0
  | Listing :: t' => S (listing_calls t')
  | _ :: t' => listing_calls t'
  end.

(** The audio files written, in order. *)
Fixpoint audio_files (t : list event) : list str :=
  match t with
  | [] => []
  | Audio path :: t' => path :: audio_files t'
  | _ :: t' => audio_files t'
  end.

(** The error lines that are not the speech client's own. *)
Fixpoint error_lines (t : list event) : list str :=
  match t with
  | [] => []
  | Error line :: t' => line :: error_lines t'
  | _ :: t' => error_lines t'
  end.

(** [os.path.join(directory, name)] *)
Definition path_join (directory name : str) : str :=
  if startswith name (py "/") then name
  else if negb (truthy directory) || endswith directory (py "/")
       then directory ++ name
       else directory ++ py "/" ++ name.

(** [p[:p.rfind('/') + 1]], on the reversed path. *)
Fixpoint through_last_slash (reversed : str) : str :=
  match reversed with
  | [] => []
  | c :: rest => if (c =? 47)%N then reversed else through_last_slash rest
  end.

(** [head.rstrip('/')], on the reversed head. *)
Fixpoint without_slashes (reversed : str) : str :=
  match reversed with
  | [] => []
  | c :: rest => if (c =? 47)%N then without_slashes rest else reversed
  end.

(** [os.path.dirname(p)]: the path up to its last slash, without the
    slashes at its end unless it consists of slashes. *)
Definition dirname (p : str) : str :=
  let head := through_last_slash (rev p) in
  if forallb (fun c => (c =? 47)%N) head then rev head
  else rev (without_slashes head).

(** [str(n)] for a natural number. *)
Fixpoint decimal_aux (fuel n : nat) (acc : str) : str :=
  match fuel with
  | O => acc
  | S fuel' =>
      let acc' := (48 + N.of_nat (n mod 10))%N :: acc in
      if n <? 10 then acc' else decimal_aux fuel' (n / 10) acc'
  end.

Definition decimal (n : nat) : str := decimal_aux (S n) n [].

(** The format [:02d]. *)
Definition decimal02 (n : nat) : str :=
  if n <? 10 then py "0" ++ decimal n else decimal n.

End Run.

Import Run.

Notation "x <~ m ;; k" := (bindM m (fun x => k))
  (at level 61, m at next level, right associativity).

(* ================================================================== *)
(** * news_tts_app_enhanced.py: synthesis and the run *)
(* ================================================================== *)

Module Enhanced.
Import NewsTtsAppEnhanced.

(** Both handlers of [text_to_speech] log and return [None]. *)
Definition text_to_speech (w : world) (text filename : str) : M (option str) :=
  _ <~ tell [Speech text filename] ;;
  if speech w text filename then
    let audio_path := path_join Config.FILE_CONFIG_output_directory filename in
    _ <~ tell [Audio audio_path] ;;
    ret (Some audio_path)
  else
    _ <~ tell [SpeechError filename] ;;
    ret None.

Definition turkish_text : str := py "
        Merhaba! Bu, Türkçe metin okuma teknolojisinin bir demosu. 
        Yapay zeka teknolojisi sayesinde, yazılı metinleri doğal sesli konuşmaya dönüştürebiliyoruz. 
        Bu teknoloji, haber makalelerini sesli olarak dinlemek için kullanılabilir.
        Günlük haberler artık sesli olarak dinlenebilir.
        ".

Definition demo_turkish_tts (w : world) : M (option str) :=
  let filename :=
    py "turkish_demo_" ++ strftime w (py "%Y%m%d_%H%M%S") ++ py "."
    ++ Config.TTS_CONFIG_output_format in
  audio_path <~ text_to_speech w turkish_text filename ;;
  match audio_path with
  | Some p => ret (Some p)
  | None =>
      _ <~ tell [Error (py "✗ Turkish TTS demo failed")] ;;
      ret None
  end.

Definition create_safe_filename (w : world) (title : str) (index : nat)
    (date_str : str) : str :=
  let safe_title :=
    strip (filter (fun c => isalnum w c
                            || (c =? 32)%N || (c =? 45)%N || (c =? 95)%N)
                  title) in
  let safe_title :=
    firstn 30 (map (fun c => if (c =? 32)%N then 95%N else c) safe_title) in
  date_str ++ py "_" ++ decimal index ++ py "_" ++ safe_title ++ py "."
  ++ Config.TTS_CONFIG_output_format.

Definition produced (w : world) (column : article) (audio_path : str)
  : record :=
  Produced (title column) (author column) audio_path (url column)
    (date column)
    (match getsize w audio_path with Some n => n | None => 0%Z end).

(** The loop [for i, column in enumerate(columns, 1)]. *)
Fixpoint columns_loop (w : world) (i : nat) (columns : list article)
    (processed_files : list record) : M (list record) :=
  match columns with
  | [] => ret processed_files
  | column :: rest =>
      let filename :=
        create_safe_filename w (title column) i (strftime w (py "%Y%m%d")) in
      audio_path <~ text_to_speech w (content column) filename ;;
      match audio_path with
      | Some p =>
          columns_loop w (S i) rest (processed_files ++ [produced w column p])
      | None =>
          _ <~ tell [Error (py "✗ Failed to generate audio for: "
                            ++ title column)] ;;
          columns_loop w (S i) rest processed_files
      end
  end.

Definition process_daily_columns (w : world) : M (list record) :=
  _ <~ tell [Listing] ;;
  let columns := get_daily_sabah_columns w in
  match columns with
  | [] =>
      _ <~ tell
             [Warning
                (py "No columns found to process. Running TTS demo instead.")] ;;
      demo_result <~ demo_turkish_tts w ;;
      ret (match demo_result with
           | Some p => [Demo p]
           | None => []
           end)
  | _ :: _ =>
      processed_files <~ columns_loop w 1 columns [] ;;
      let metadata_file :=
        path_join Config.FILE_CONFIG_output_directory
          (py "metadata_" ++ strftime w (py "%Y%m%d") ++ py ".json") in
      _ <~ tell [if writable w metadata_file
                 then Metadata metadata_file processed_files
                 else MetadataError metadata_file] ;;
      ret processed_files
  end.

End Enhanced.

(* ================================================================== *)
(** * news_tts_app.py: synthesis and the run *)
(* ================================================================== *)

Module Basic.
Import NewsTtsApp.

Definition output_dir : str := py "audio_files".

Definition text_to_speech (w : world) (text filename : str) : M (option str) :=
  _ <~ tell [Speech text filename] ;;
  if speech w text filename then
    let audio_path := path_join output_dir filename in
    _ <~ tell [Audio audio_path] ;;
    ret (Some audio_path)
  else
    _ <~ tell [SpeechError filename] ;;
    ret None.

Definition turkish_text : str := py "
        Merhaba! Bu, Türkçe metin okuma teknolojisinin bir demosu. 
        Yapay zeka teknolojisi sayesinde, yazılı metinleri doğal sesli konuşmaya dönüştürebiliyoruz. 
        Bu teknoloji, haber makalelerini sesli olarak dinlemek için kullanılabilir.
        ".

Definition demo_turkish_tts (w : world) : M (option str) :=
  text_to_speech w turkish_text (py "turkish_demo.wav").

(** What [process_daily_columns] returns: the path of the demonstration
    (or None), or the list of the files produced. *)
Inductive result :=
| DemoPath (path : option str)
| Files (processed_files : list record).

Definition filename_of (w : world) (i : nat) (column : article) : str :=
  let safe_title :=
    rstrip (filter (fun c => isalnum w c
                             || (c =? 32)%N || (c =? 45)%N || (c =? 95)%N)
                   (title column)) in
  strftime w (py "%Y%m%d") ++ py "_" ++ decimal (i + 1) ++ py "_"
  ++ firstn 30 safe_title ++ py ".wav".

(** The loop [for i, column in enumerate(columns)]. *)
Fixpoint columns_loop (w : world) (i : nat) (columns : list article)
    (processed_files : list record) : M (list record) :=
  match columns with
  | [] => ret processed_files
  | column :: rest =>
      audio_path <~
        text_to_speech w (content column) (filename_of w i column) ;;
      match audio_path with
      | Some p =>
          columns_loop w (S i) rest
            (processed_files ++
             [Produced (title column) (author column) p (url column)
                (date column) 0])
      | None => columns_loop w (S i) rest processed_files
      end
  end.

(** Writing the metadata is not guarded: a failure leaves the function. *)
Definition process_daily_columns (w : world) : M (outcome result) :=
  _ <~ tell [Listing] ;;
  let columns := get_daily_sabah_columns w in
  match columns with
  | [] =>
      demo <~ demo_turkish_tts w ;;
      ret (Returned (DemoPath demo))
  | _ :: _ =>
      processed_files <~ columns_loop w 0 columns [] ;;
      let metadata_file :=
        path_join output_dir
          (py "metadata_" ++ strftime w (py "%Y%m%d") ++ py ".json") in
      if writable w metadata_file then
        _ <~ tell [Metadata metadata_file processed_files] ;;
        ret (Returned (Files processed_files))
      else ret (Raised OSError)
  end.

End Basic.

(* ================================================================== *)
(** * elevenlabs_tts.py: processing the scraped articles *)
(* ================================================================== *)

Module Elevenlabs.

(** A file of the articles folder: its stem and what reading it gives
    ([None] when it cannot be read). *)
Record text_file := {
  stem : str;
  read : option str
}.

(** What [f.read()] gives for a file opened in text mode that holds the
    text [s]: a carriage return, with or without a line feed after it, is
    read as a line feed.  (Writing in text mode leaves the line feeds as
    they are, as on POSIX.) *)
Fixpoint universal_newlines (s : str) : str :=
  match s with
  | [] => []
  | c :: rest =>
      if (c =? 13)%N then
        match rest with
        | [] => [10%N]
        | d :: rest' =>
            if (d =? 10)%N then 10%N :: universal_newlines rest'
            else 10%N :: universal_newlines rest
        end
      else c :: universal_newlines rest
  end.

(** [os.makedirs(path, exist_ok=True)]: the empty path is refused with
    [FileNotFoundError], another one when the folder is not there and
    cannot be made; both are [OSError]s. *)
Definition makedirs (w : world) (path : str) : outcome unit :=
  if truthy path && writable w path then Returned tt else Raised OSError.

(** [text_to_speech(text, voice_id, output_file)]: the request is made;
    when it is answered and a file is named, the folder of the file is
    made and the file written.  Every failure is caught and gives
    [False], and so does an answer without a file to put it in. *)
Definition text_to_speech (w : world) (text output_file : str) : M bool :=
  _ <~ tell [Speech text output_file] ;;
  if speech w text output_file && truthy output_file then
    match makedirs w (dirname output_file) with
    | Returned _ =>
        if writable w output_file then
          _ <~ tell [Audio output_file] ;;
          ret true
        else ret false                       (* except Exception *)
    | Raised _ => ret false                  (* except Exception *)
    end
  else ret false.

(** The loop over the parts of a long article, with the two counters. *)
Fixpoint parts_loop (w : world) (output_folder file_stem : str)
    (part_idx : nat) (parts : list str) (successful failed : nat)
  : M (nat * nat) :=
  match parts with
  | [] => ret (successful, failed)
  | part :: rest =>
      let audio_filename :=
        file_stem ++ py "_part" ++ decimal02 (part_idx + 1) ++ py ".mp3" in
      let audio_path := path_join output_folder audio_filename in
      success <~ text_to_speech w part audio_path ;;
      if success
      then parts_loop w output_folder file_stem (S part_idx) rest
             (S successful) failed
      else parts_loop w output_folder file_stem (S part_idx) rest
             successful (S failed)
  end.

(** The loop over the files. *)
Fixpoint files_loop (w : world) (output_folder : str) (max_length : Z)
    (text_files : list text_file) (successful failed : nat) : M (nat * nat) :=
  match text_files with
  | [] => ret (successful, failed)
  | text_file :: rest =>
      match read text_file with
      | None =>                              (* except Exception *)
          files_loop w output_folder max_length rest successful (S failed)
      | Some raw =>
          let content := strip raw in
          if negb (truthy content) then
            files_loop w output_folder max_length rest successful (S failed)
          else if (len content >? max_length)%Z then
            let parts := ElevenlabsTts.split_text content max_length in
            counts <~ parts_loop w output_folder (stem text_file) 0 parts
                        successful failed ;;
            files_loop w output_folder max_length rest (fst counts) (snd counts)
          else
            let audio_path :=
              path_join output_folder (stem text_file ++ py ".mp3") in
            success <~ text_to_speech w content audio_path ;;
            if success
            then files_loop w output_folder max_length rest
                   (S successful) failed
            else files_loop w output_folder max_length rest
                   successful (S failed)
      end
  end.

(** [process_news_articles]; [articles_folder] is the content of the
    folder, [None] when it does not exist.  The output folder is made
    first, outside every [try]: when that fails the exception leaves the
    function.  The counters it prints at the end are its result here. *)
Definition process_news_articles (w : world)
    (articles_folder : option (list text_file)) (output_folder : str)
    (max_length : Z) : M (outcome (nat * nat)) :=
  match makedirs w output_folder with
  | Raised e => ret (Raised e)
  | Returned _ =>
      match articles_folder with
      | None => ret (Returned (0, 0))
      | Some [] => ret (Returned (0, 0))
      | Some text_files =>
          counts <~ files_loop w output_folder max_length text_files 0 0 ;;
          ret (Returned counts)
      end
  end.

End Elevenlabs.

(* ================================================================== *)
(** * scrape_dailysabah.py *)
(* ================================================================== *)

Module ScrapeDailysabah.

Record column := {
  col_title : str;
  col_author : str;
  col_link : str;
  col_content : option str
}.

(** Nothing is caught in this script. *)
Definition get_column_content (w : world) (url : str) : outcome (option str) :=
  soup <- NewsTtsApp.fetch w url ;;
  match find_class (py "div") (py "article-content") soup with
  | Some content_div =>
      Returned (Some (join newline
                        (map (fun p => strip (text p))
                             (find_all (py "p") content_div))))
  | None => Returned None
  end.

Fixpoint cards_loop (w : world) (article_tags : list node)
    (columns_data : list column) : outcome (list column) :=
  match article_tags with
  | [] => Returned columns_data
  | article_tag :: rest =>
      let title_tag := find (py "h3") article_tag in
      let author_tag := find_class (py "div") (py "author-info") article_tag in
      let link_tag := find_class (py "a") (py "card") article_tag in
      match title_tag, author_tag, link_tag with
      | Some title_tag, Some author_tag, Some link_tag =>
          match get_href link_tag with
          | None => Raised KeyError
          | Some link =>
              full_content <- get_column_content w link ;;
              cards_loop w rest
                (columns_data ++
                 [ {| col_title := strip (text title_tag);
                      col_author := strip (text author_tag);
                      col_link := link;
                      col_content := full_content |} ])
          end
      | _, _, _ => cards_loop w rest columns_data
      end
  end.

Definition get_daily_sabah_columns (w : world) : outcome (list column) :=
  soup <- NewsTtsApp.fetch w (py "https://www.dailysabah.com/columns") ;;
  cards_loop w (find_all_class (py "div") (py "article-card") soup) [].

End ScrapeDailysabah.

(* ================================================================== *)
(** * scrape_riktpunkt.py: the listing and the loop over the articles *)
(* ================================================================== *)

Module ScrapeRiktpunkt.

Definition base_url : str := py "https://riktpunkt.nu/".

(** A match of [/\d{4}/\d{2}/] at the head of [s]. *)
Definition dated_here (w : world) (s : str) : bool :=
  match s with
  | a :: d1 :: d2 :: d3 :: d4 :: b :: e1 :: e2 :: c :: _ =>
      (a =? 47)%N && isdecimal w d1 && isdecimal w d2 && isdecimal w d3
      && isdecimal w d4 && (b =? 47)%N && isdecimal w e1 && isdecimal w e2
      && (c =? 47)%N
  | _ => false
  end.

(** [re.search(r'/\d{4}/\d{2}/', href)] *)
Fixpoint dated (w : world) (href : str) : bool :=
  dated_here w href
  || match href with
     | [] => false
     | _ :: rest => dated w rest
     end.

Fixpoint urls_loop (w : world) (article_links : list node)
    (article_urls : list str) : list str :=
  match article_links with
  | [] => article_urls
  | link :: rest =>
      let href := match get_href link with Some h => h | None => [] end in
      if truthy href && dated w href then
        let href := if startswith href (py "/")
                    then py "https://riktpunkt.nu" ++ href
                    else href in
        if existsb (str_eqb href) article_urls
        then urls_loop w rest article_urls
        else urls_loop w rest (article_urls ++ [href])
      else urls_loop w rest article_urls
  end.

Section Scrape.

(** The article record of [extract_article_content] and the writing of the
    results are left open: the loop below treats them the same way whatever
    they do. *)
Variable article_data : Type.
Variable extract_article_content : node -> str -> outcome (option article_data).
Variable save_results : list article_data -> outcome unit.

(** The loop over the first ten article addresses: both handlers of the
    inner [try] continue with the next address. *)
Fixpoint articles_loop (w : world) (urls : list str)
    (news_articles : list article_data) : list article_data :=
  match urls with
  | [] => news_articles
  | url :: rest =>
      match (article_soup <- NewsTtsAppEnhanced.fetch w url ;;
             extract_article_content article_soup url) with
      | Returned (Some data) => articles_loop w rest (news_articles ++ [data])
      | Returned None => articles_loop w rest news_articles
      | Raised _ => articles_loop w rest news_articles
      end
  end.

(** The outer [try] catches request errors only. *)
Definition scrape_news (w : world) : outcome (list article_data) :=
  match (soup <- NewsTtsAppEnhanced.fetch w base_url ;;
         let article_urls := urls_loop w (find_all_href (py "a") soup) [] in
         let news_articles := articles_loop w (firstn 10 article_urls) [] in
         _ <- save_results news_articles ;;
         Returned news_articles) with
  | Raised RequestException => Returned []
  | other => other
  end.

End Scrape.

End ScrapeRiktpunkt.


From Stdlib Require Import Sorting.Permutation Sorting.Sorted.

(* ================================================================== *)
(** * scrape_riktpunkt.py: the article page and the files saved *)
(* ================================================================== *)

Module RiktpunktArticle.
Import ScrapeRiktpunkt.

(** The dictionary [extract_article_content] returns. *)
Record article_data := {
  title : str;
  category : str;
  date : str;
  url : str;
  content : str;
  word_count : nat;
  scraped_at : str
}.

(** ** The title *)

(** The class [[-–|]]. *)
Definition is_bar (c : char) : bool :=
  ((c =? 45) || (c =? 8211) || (c =? 124))%N.

(** What [.*] leaves of [s]: it takes every character up to a newline. *)
Fixpoint after_line (s : str) : str :=
  match s with
  | [] => []
  | c :: rest => if (c =? 10)%N then s else after_line rest
  end.

(** [$]: the end of the string, or the place before a newline that ends
    the string. *)
Definition at_end (s : str) : bool :=
  match s with
  | [] => true
  | [c] => (c =? 10)%N
  | _ => false
  end.

(** A match of [\s*[-–|]\s*RiktpunKt.*$] at the head of [s], and what is
    left after it.  White space, the class and the letter R exclude each
    other, so the runs of white space are taken whole. *)
Definition site_name_here (s : str) : option str :=
  match lstrip s with
  | [] => None
  | c :: rest =>
      let rest := lstrip rest in
      if is_bar c && startswith rest (py "RiktpunKt") then
        let remainder := after_line (skipn 9 rest) in
        if at_end remainder then Some remainder else None
      else None
  end.

(** [re.sub(r'\s*[-–|]\s*RiktpunKt.*$', '', s)]: the leftmost match goes
    to the end, so there is at most one. *)
Fixpoint cut_site_name (s : str) : str :=
  match site_name_here s with
  | Some remainder => remainder
  | None =>
      match s with
      | [] => []
      | c :: rest => c :: cut_site_name rest
      end
  end.

Definition title_of (soup : node) : str :=
  match find (py "h1") soup with
  | Some title_tag => strip (text title_tag)
  | None =>
      match find (py "title") soup with
      | Some title_tag => cut_site_name (strip (text title_tag))
      | None => []
      end
  end.

(** ** The category and the date *)

Definition category_patterns : list str :=
  [py "UTRIKES"; py "INRIKES"; py "FACKLIGT"; py "EKONOMI"; py "KULTUR"].

Fixpoint first_category (page_text : str) (patterns : list str) : str :=
  match patterns with
  | [] => []
  | pattern :: rest =>
      if contains page_text pattern then pattern
      else first_category page_text rest
  end.

(** [re.search(r'/(\d{4})/(\d{2})/', url)] and the two groups, joined by a
    hyphen; empty without a match. *)
Fixpoint date_of_url (w : world) (url : str) : str :=
  if dated_here w url
  then firstn 4 (skipn 1 url) ++ py "-" ++ firstn 2 (skipn 6 url)
  else match url with
       | [] => []
       | _ :: rest => date_of_url w rest
       end.

(** ** The content *)

(** [re.compile(r"content|article|post")] searched in a class. *)
Definition content_class (class : str) : bool :=
  contains class (py "content") || contains class (py "article")
  || contains class (py "post").

Definition has_content_class (n : node) : bool :=
  match n with
  | Text _ => false
  | Tag _ classes _ _ => existsb content_class classes
  end.

(** [soup.find("div", class_=re.compile(...))] *)
Definition find_content_div (soup : node) : option node :=
  hd_error (filter (fun t => has_name (py "div") t && has_content_class t)
              (descendants soup)).

Definition removed_names : list str :=
  [py "nav"; py "header"; py "footer"; py "aside"; py "script"; py "style"].

Definition is_removed (n : node) : bool :=
  match n with
  | Text _ => false
  | Tag name _ _ _ => existsb (str_eqb name) removed_names
  end.

(** The tree after [decompose] was called on every tag of these names
    below its root. *)
Fixpoint decomposed (n : node) : node :=
  match n with
  | Text s => Text s
  | Tag name classes href children =>
      Tag name classes href
        (flat_map (fun child => if is_removed child then []
                                else [decomposed child]) children)
  end.

(** The paragraphs of more than fifty characters, trimmed. *)
Definition content_parts (soup : node) : list str :=
  filter (fun text => truthy text && (len text >? 50)%Z)
    (map (fun p => strip (text p)) (find_all (py "p") soup)).

Definition raw_content (soup : node) : str :=
  match find_content_div soup with
  | Some content_div => strip (text content_div)
  | None => join (newline ++ newline) (content_parts (decomposed soup))
  end.

(** [re.sub(r'\s+', ' ', s)]; [in_run] tells that the character before was
    white space, already replaced. *)
Fixpoint collapse_from (in_run : bool) (s : str) : str :=
  match s with
  | [] => []
  | c :: rest =>
      if isspace c
      then if in_run then collapse_from true rest
           else 32%N :: collapse_from true rest
      else c :: collapse_from false rest
  end.

Definition collapse (s : str) : str := collapse_from false s.

(** The length of the white space at the head of [s] up to its last
    newline, that newline counted; zero when it holds no newline. *)
Fixpoint through_last_newline (s : str) : nat :=
  match s with
  | [] => 0
  | c :: rest =>
      if isspace c then
        match through_last_newline rest with
        | O => if (c =? 10)%N then 1 else 0
        | S k => S (S k)
        end
      else 0
  end.

(** [re.sub(r'\n\s*\n', '\n\n', s)]; [skip] counts the characters of the
    current match still to pass. *)
Fixpoint squeeze (skip : nat) (s : str) : str :=
  match s with
  | [] => []
  | c :: rest =>
      match skip with
      | S k => squeeze k rest
      | O =>
          if (c =? 10)%N then
            match through_last_newline rest with
            | O => c :: squeeze 0 rest
            | S k => 10%N :: 10%N :: squeeze (S k) rest
            end
          else c :: squeeze 0 rest
      end
  end.

(** The two substitutions of the clean-up. *)
Definition clean_up (content : str) : str :=
  squeeze 0 (strip (collapse content)).

(** [len(s.split())] *)
Fixpoint words_from (in_word : bool) (s : str) : nat :=
  match s with
  | [] => 0
  | c :: rest =>
      if isspace c then words_from false rest
      else (if in_word then 0 else 1) + words_from true rest
  end.

Definition words (s : str) : nat := words_from false s.

(** [extract_article_content]; [now] is [datetime.now().isoformat()].
    Nothing in the body raises here, so the handler that returns [None] is
    not reached. *)
Definition extract_article_content (w : world) (now : str) (soup : node)
    (url : str) : option article_data :=
  let title := title_of soup in
  let category := first_category (text soup) category_patterns in
  let date := date_of_url w url in
  let content := clean_up (raw_content soup) in
  if negb (truthy title) || (len content <? 100)%Z then None
  else Some {| title := title; category := category; date := date;
               url := url; content := content;
               word_count := words content; scraped_at := now |}.

(** ** The files saved *)

(** The class of [sanitize_filename]: the characters < > : / \ | ? and
    the asterisk, and the double quote. *)
Definition is_invalid (c : char) : bool :=
  ((c =? 60) || (c =? 62) || (c =? 58) || (c =? 34) || (c =? 47)
   || (c =? 92) || (c =? 124) || (c =? 63) || (c =? 42))%N.

(** [re.sub] of that class by an underscore. *)
Definition sanitize_filename (filename : str) : str :=
  map (fun c => if is_invalid c then 95%N else c) filename.

(** A file written: the dump of the list as JSON, or a text. *)
Inductive written :=
| JsonFile (path : str) (articles : list article_data)
| TextFile (path : str) (text : str).

Definition path_of (f : written) : str :=
  match f with
  | JsonFile path _ => path
  | TextFile path _ => path
  end.

Definition rule : str := repeat 61%N 80.

(** What the loop over the articles writes to [scraped_news.txt]. *)
Fixpoint report_loop (i : nat) (articles : list article_data) : str :=
  match articles with
  | [] => []
  | article :: rest =>
      py "=== ARTICLE " ++ decimal i ++ py " ===" ++ newline
      ++ py "Title: " ++ title article ++ newline
      ++ py "Category: " ++ category article ++ newline
      ++ py "Date: " ++ date article ++ newline
      ++ py "URL: " ++ url article ++ newline
      ++ py "Word Count: " ++ decimal (word_count article) ++ newline
      ++ newline ++ py "Content:" ++ newline ++ content article ++ newline
      ++ newline ++ rule ++ newline ++ newline
      ++ report_loop (S i) rest
  end.

Definition report (articles : list article_data) : str :=
  match articles with
  | [] => py "No articles found with the current scraping method." ++ newline
  | _ :: _ => report_loop 1 articles
  end.

Definition tts_filename (i : nat) (article : article_data) : str :=
  py "articles_for_tts/article_" ++ decimal02 i ++ py "_" ++ date article
  ++ py "_" ++ sanitize_filename (firstn 50 (title article)) ++ py ".txt".

Definition tts_text (article : article_data) : str :=
  title article ++ newline ++ newline ++ content article.

(** The loop over the articles that writes the files for the speech
    script; it ends where a file cannot be opened. *)
Fixpoint tts_loop (w : world) (i : nat) (articles : list article_data)
  : list written * outcome unit :=
  match articles with
  | [] => ([], Returned tt)
  | article :: rest =>
      let filename := tts_filename i article in
      if writable w filename then
        let '(files, result) := tts_loop w (S i) rest in
        (TextFile filename (tts_text article) :: files, result)
      else ([], Raised OSError)
  end.

(** [save_results]: the files written, in order, and how it ends.
    Nothing is caught: the first file or folder that cannot be written
    ends it with [OSError]. *)
Definition save_results (w : world) (articles : list article_data)
  : list written * outcome unit :=
  if negb (writable w (py "scraped_news.json")) then ([], Raised OSError)
  else
    let json := JsonFile (py "scraped_news.json") articles in
    if negb (writable w (py "scraped_news.txt")) then ([json], Raised OSError)
    else
      let txt := TextFile (py "scraped_news.txt") (report articles) in
      if negb (writable w (py "articles_for_tts"))   (* os.makedirs *)
      then ([json; txt], Raised OSError)
      else
        let '(files, result) := tts_loop w 1 articles in
        (json :: txt :: files, result).

(** [scrape_news] with the two functions above in their places. *)
Definition scrape (w : world) (now : str) : outcome (list article_data) :=
  scrape_news
    (fun soup url => Returned (extract_article_content w now soup url))
    (fun articles => snd (save_results w articles))
    w.

End RiktpunktArticle.

(* ================================================================== *)
(** * elevenlabs_tts.py: the playlist *)
(* ================================================================== *)

Module Playlist.

(** A file of the audio folder that [glob("*.mp3")] gives: its name and
    its stem. *)
Record audio_file := {
  name : str;
  stem : str
}.

(** [a < b] on strings: by code points, the shorter first among
    prefixes. *)
Fixpoint str_ltb (a b : str) : bool :=
  match a, b with
  | _, [] => false
  | [], _ :: _ => true
  | x :: a', y :: b' =>
      if (x <? y)%N then true
      else if (y <? x)%N then false
      else str_ltb a' b'
  end.

(** The paths of one folder compare as their names do. *)
Fixpoint insert (f : audio_file) (l : list audio_file) : list audio_file :=
  match l with
  | [] => [f]
  | g :: rest =>
      if str_ltb (name g) (name f) then g :: insert f rest
      else f :: l
  end.

(** [sorted(files)]: stable, as Python's sort is. *)
Fixpoint sorted (files : list audio_file) : list audio_file :=
  match files with
  | [] => []
  | f :: rest => insert f (sorted rest)
  end.

Definition entry (f : audio_file) : str :=
  py "#EXTINF:-1," ++ stem f ++ newline ++ name f ++ newline.

(** [s.split('/')]; [cur] is the piece being collected, reversed. *)
Fixpoint split_slash (cur s : str) : list str :=
  match s with
  | [] => [rev cur]
  | c :: rest =>
      if (c =? 47)%N then rev cur :: split_slash [] rest
      else split_slash (c :: cur) rest
  end.

Fixpoint leading_slashes (s : str) : nat :=
  match s with
  | [] => 0
  | c :: rest => if (c =? 47)%N then S (leading_slashes rest) else 0
  end.

(** The root of a path as [pathlib] reads it on POSIX: one slash for any
    number of slashes at the head, except for exactly two. *)
Definition root (s : str) : str :=
  match leading_slashes s with
  | 0 => []
  | 2 => py "//"
  | _ => py "/"
  end.

(** The parts of a path as [pathlib] keeps them: not the empty ones, nor
    the ones that are a single dot. *)
Definition parts (s : str) : list str :=
  filter (fun part => truthy part && negb (str_eqb part (py ".")))
         (split_slash [] s).

(** [str(Path(folder) / file_name)], for a file name without slash. *)
Definition path_div (folder file_name : str) : str :=
  root folder ++ join (py "/") (parts folder ++ [file_name]).

(** [create_playlist]: [folder] is what the glob gives, [None] when the
    folder does not exist.  The result is the path and the text of the
    playlist written, if one is. *)
Definition create_playlist (w : world) (audio_folder : str)
    (folder : option (list audio_file)) : outcome (option (str * str)) :=
  match folder with
  | None => Returned None
  | Some files =>
      let audio_files := sorted files in
      match audio_files with
      | [] => Returned None
      | _ :: _ =>
          let playlist_path :=
            path_div audio_folder (py "news_playlist.m3u") in
          if writable w playlist_path
          then Returned
                 (Some (playlist_path,
                        py "#EXTM3U" ++ newline
                        ++ flat_map entry audio_files))
          else Raised OSError
      end
  end.

End Playlist.

(* ================================================================== *)
(** * Sample pages and worlds *)
(* ================================================================== *)

Module Sample.

Definition document (children : list node) : node :=
  Tag (py "[document]") [] None children.

Definition p (s : str) : node := Tag (py "p") [] None [Text s].

Definition div (class : str) (children : list node) : node :=
  Tag (py "div") [class] None children.

(** An article card: a title, an author line when given, and a link with
    the address when given. *)
Definition card (title_text : str) (author_text : option str)
    (address : option str) : node :=
  div (py "article-card")
    ([Tag (py "h3") [] None [Text title_text]]
     ++ match author_text with
        | Some a => [div (py "author-info") [Text a]]
        | None => []
        end
     ++ [Tag (py "a") [py "card"] address [Text (py "Read more")]]).

(** An article page whose body is in [div.article-content]. *)
Definition article_page (paragraphs : list str) : node :=
  document [div (py "article-content") (map p paragraphs)].

(** A page without any of the content containers. *)
Definition bare_page : node :=
  document [div (py "sidebar") [p (py "Menu")]].

(** The first content container is empty, a later one holds a paragraph. *)
Definition empty_first_page : node :=
  document [div (py "article-content") []; div (py "content") [p (py "Hi")]].

Fixpoint lookup (pages : list (str * response)) (url : str) : response :=
  match pages with
  | [] => ConnectionFailed
  | (u, r) :: rest => if str_eqb u url then r else lookup rest url
  end.

Definition ok (soup : node) : response := Response true (Html soup).

Definition ascii_alnum (c : char) : bool :=
  ((48 <=? c) && (c <=? 57) || (65 <=? c) && (c <=? 90)
   || (97 <=? c) && (c <=? 122))%N.

Definition ascii_digit (c : char) : bool := ((48 <=? c) && (c <=? 57))%N.

Definition clock (format : str) : str :=
  if str_eqb format (py "%Y-%m-%d") then py "2024-05-01"
  else if str_eqb format (py "%Y%m%d") then py "20240501"
  else py "20240501_090000".

(** A world from the pages of the site and the answers of the speech
    service; addresses not listed cannot be reached. *)
Definition world_of (pages : list (str * response))
    (speech_ok : str -> str -> bool) : world :=
  {| get := lookup pages;
     strftime := clock;
     speech := speech_ok;
     getsize := fun _ => Some 5%Z;
     writable := fun _ => true;
     isalnum := ascii_alnum;
     isdecimal := ascii_digit |}.

(** A speech service that always answers, and one that fails on the text
    of the second article. *)
Definition always (text filename : str) : bool := true.

Definition fails_on_two (text filename : str) : bool :=
  negb (str_eqb text (py "Two.")).

Definition site_url (path : str) : str :=
  py "https://www.dailysabah.com" ++ path.

Definition listing (cards : list node) : str * response :=
  (Config.NEWS_SOURCE_url, ok (document cards)).

Definition test_page : str * response :=
  (site_url (py "/columns/test"), ok (article_page [py "Hello."; py "World."])).

(** The scenario of the specification: one card, one article. *)
Definition one_card_site : list (str * response) :=
  [ listing [card (py "Test Column") (Some (py "J. Doe"))
               (Some (py "/columns/test"))];
    test_page ].

(** A card without author line. *)
Definition no_author_site : list (str * response) :=
  [ listing [card (py "Test Column") None (Some (py "/columns/test"))];
    test_page ].

(** A card whose article cannot be reached. *)
Definition unreachable_site : list (str * response) :=
  [ listing [card (py "Test Column") (Some (py "J. Doe"))
               (Some (py "/columns/gone"))] ].


(** Six cards and their articles, [/columns/1] to [/columns/6]. *)
Definition six_articles : list (str * response) :=
  [ (site_url (py "/columns/1"), ok (article_page [py "One."]));
    (site_url (py "/columns/2"), ok (article_page [py "Two."]));
    (site_url (py "/columns/3"), ok (article_page [py "Three."]));
    (site_url (py "/columns/4"), ok (article_page [py "Four."]));
    (site_url (py "/columns/5"), ok (article_page [py "Five."]));
    (site_url (py "/columns/6"), ok (article_page [py "Six."])) ].

Definition six_cards : list node :=
  [ card (py "Column 1") (Some (py "A")) (Some (py "/columns/1"));
    card (py "Column 2") (Some (py "B")) (Some (py "/columns/2"));
    card (py "Column 3") (Some (py "C")) (Some (py "/columns/3"));
    card (py "Column 4") (Some (py "D")) (Some (py "/columns/4"));
    card (py "Column 5") (Some (py "E")) (Some (py "/columns/5"));
    card (py "Column 6") (Some (py "F")) (Some (py "/columns/6")) ].

(** Two cards to put before the six: one whose link has no address, one
    whose address is [/columns/0]. *)
Definition teaser_card : node := card (py "Teaser") (Some (py "Z")) None.

Definition card0 : node :=
  card (py "Column 0") (Some (py "Z")) (Some (py "/columns/0")).

(** The link of the first card has no address. *)
Definition missing_href_site : list (str * response) :=
  listing (teaser_card :: six_cards) :: six_articles.

(** The article of the first card has none of the content containers. *)
Definition bare_first_site : list (str * response) :=
  listing (card0 :: six_cards)
  :: (site_url (py "/columns/0"), ok bare_page)
  :: six_articles.

(** The article of the first card cannot be reached. *)
Definition gone_first_site : list (str * response) :=
  listing (card0 :: six_cards) :: six_articles.

(** Three cards, three articles. *)
Definition three_site : list (str * response) :=
  [ listing [ card (py "Column 1") (Some (py "A")) (Some (py "/columns/1"));
              card (py "Column 2") (Some (py "B")) (Some (py "/columns/2"));
              card (py "Column 3") (Some (py "C")) (Some (py "/columns/3")) ];
    (site_url (py "/columns/1"), ok (article_page [py "One."]));
    (site_url (py "/columns/2"), ok (article_page [py "Two."]));
    (site_url (py "/columns/3"), ok (article_page [py "Three."])) ].

End Sample.


(* ================================================================== *)
(** * The listing loops, one turn at a time *)
(* ================================================================== *)

Module ListerNotions.
Import NewsTtsAppEnhanced.

(** What one turn of a listing loop leaves: the list to go on with, or the
    end of the loop ([break], or an exception). *)
Inductive step :=
| Continue (columns_data : list article)
| Stop (result : outcome (list article)).

Definition resume (loop : list article -> outcome (list article)) (s : step)
  : outcome (list article) :=
  match s with
  | Continue columns_data => loop columns_data
  | Stop result => result
  end.

(** Appending an article, and the test of the cap after it. *)
Definition append_step (cap : Z) (columns_data : list article) (a : article)
  : step :=
  if (Z.of_nat (List.length (columns_data ++ [a])) >=? cap)%Z
  then Stop (Returned (columns_data ++ [a]))
  else Continue (columns_data ++ [a]).

(** The link of the card, when the card has a title and a link, carries an
    address. *)
Definition has_address (card : node) : bool :=
  match select_one Config.selectors_title card,
        select_one Config.selectors_link card with
  | Some _, Some link_elem =>
      match get_href link_elem with Some _ => true | None => false end
  | _, _ => true
  end.

(** The article a card stands for, if it has a title, a link with an
    address, and an accepted content. *)
Definition article_of_card (w : world) (card : node) : option article :=
  match select_one Config.selectors_title card,
        select_one Config.selectors_link card with
  | Some title_elem, Some link_elem =>
      match get_href link_elem with
      | Some link =>
          let content := get_column_content w (full_url_of link) in
          if accepted content then
            Some {| title := strip (text title_elem);
                    author :=
                      match select_one Config.selectors_author card with
                      | Some a => strip (text a)
                      | None => py "Unknown"
                      end;
                    url := full_url_of link;
                    content := text_of content;
                    date := strftime w (py "%Y-%m-%d") |}
          else None
      | None => None
      end
  | _, _ => None
  end.

Definition card_step (w : world) (cap : Z) (card : node)
    (columns_data : list article) : step :=
  if has_address card then
    match article_of_card w card with
    | Some a => append_step cap columns_data a
    | None => Continue columns_data
    end
  else Stop (Raised AttributeError).

(** The title and address of an anchor the fallback path keeps. *)
Definition candidate (link : node) : option (str * str) :=
  let href := match get_href link with Some h => h | None => [] end in
  if truthy href && contains href (py "/columns/")
     && negb (endswith href (py "/columns")) then
    if (len (strip (text link)) >? 10)%Z
    then Some (strip (text link), href)
    else None
  else None.

Definition article_of_link (w : world) (link : node) : option article :=
  match candidate link with
  | Some (title, href) =>
      let content := get_column_content w (full_url_of href) in
      if accepted content then
        Some {| title := title; author := py "Unknown";
                url := full_url_of href; content := text_of content;
                date := strftime w (py "%Y-%m-%d") |}
      else None
  | None => None
  end.

Definition link_step (w : world) (cap : Z) (link : node)
    (columns_data : list article) : step :=
  match article_of_link w link with
  | Some a => append_step cap columns_data a
  | None => Continue columns_data
  end.

(** The elements [f] maps to something, mapped. *)
Fixpoint collect {A B : Type} (f : A -> option B) (l : list A) : list B :=
  match l with
  | [] => []
  | x :: l' =>
      match f x with
      | Some y => y :: collect f l'
      | None => collect f l'
      end
  end.

(** An article whose content is a text of its own. *)
Definition genuine (a : article) : Prop :=
  content a <> [] /\ content a <> sentinel.

End ListerNotions.


(* ================================================================== *)
(** * The work of a run, item by item *)
(* ================================================================== *)

Module RunNotions.

(** [enumerate(l, i)] *)
Fixpoint numbered {A : Type} (i : nat) (l : list A) : list (nat * A) :=
  match l with
  | [] => []
  | x :: l' => (i, x) :: numbered (S i) l'
  end.

(** The speech request the enhanced run makes for a numbered column. *)
Definition request (w : world) (ic : nat * article) : str * str :=
  (content (snd ic),
   Enhanced.create_safe_filename w (title (snd ic)) (fst ic)
     (strftime w (py "%Y%m%d"))).

Definition succeeds (w : world) (ic : nat * article) : bool :=
  speech w (fst (request w ic)) (snd (request w ic)).

Definition audio_path_of (w : world) (ic : nat * article) : str :=
  path_join Config.FILE_CONFIG_output_directory (snd (request w ic)).

Definition failure_line (ic : nat * article) : str :=
  py "✗ Failed to generate audio for: " ++ title (snd ic).

(** The speech requests for the parts of a long article. *)
Definition part_requests (output_folder file_stem : str) (i : nat)
    (parts : list str) : list (str * str) :=
  map (fun ip =>
         (snd ip,
          path_join output_folder
            (file_stem ++ py "_part" ++ decimal02 (fst ip + 1) ++ py ".mp3")))
      (numbered i parts).

(** The speech requests for a file of the articles folder. *)
Definition file_requests (output_folder : str) (max_length : Z)
    (f : Elevenlabs.text_file) : list (str * str) :=
  match Elevenlabs.read f with
  | None => []
  | Some raw =>
      let content := strip raw in
      if negb (truthy content) then []
      else if (len content >? max_length)%Z then
        part_requests output_folder (Elevenlabs.stem f) 0
          (ElevenlabsTts.split_text content max_length)
      else [(content, path_join output_folder (Elevenlabs.stem f ++ py ".mp3"))]
  end.

(** A file that cannot be read, or is empty. *)
Definition unusable (f : Elevenlabs.text_file) : bool :=
  match Elevenlabs.read f with
  | None => true
  | Some raw => negb (truthy (strip raw))
  end.

(** The folder can be made, or is there. *)
Definition folder_ok (w : world) (folder : str) : bool :=
  truthy folder && writable w folder.

(** The request gives an audio file: the service answers, a file is
    named, its folder can be made and the file written. *)
Definition answered (w : world) (r : str * str) : bool :=
  speech w (fst r) (snd r) && truthy (snd r)
  && folder_ok w (dirname (snd r)) && writable w (snd r).

(** The trace a numbered column leaves in the enhanced run. *)
Definition column_events (w : world) (ic : nat * article) : list event :=
  if succeeds w ic
  then [Speech (fst (request w ic)) (snd (request w ic));
        Audio (audio_path_of w ic)]
  else [Speech (fst (request w ic)) (snd (request w ic));
        SpeechError (snd (request w ic));
        Error (failure_line ic)].

(** The trace a request leaves in the ElevenLabs script. *)
Definition request_events (w : world) (r : str * str) : list event :=
  if answered w r
  then [Speech (fst r) (snd r); Audio (snd r)]
  else [Speech (fst r) (snd r)].

End RunNotions.


(* ================================================================== *)
(** * Notions about strings, sentences and chunks *)
(* ================================================================== *)

Module PyNotions.

(** First character is not whitespace (false on the empty string). *)
Definition starts_ok (s : str) : bool :=
  match s with [] => false | c :: _ => negb (isspace c) end.

(** Last character is not whitespace (false on the empty string). *)
Definition ends_ok (s : str) : bool := starts_ok (rev s).

End PyNotions.

Module ReNotions.
Import Re.

(** No terminator of [s] is directly followed by whitespace: the pattern
    matches nowhere inside [s]. *)
Fixpoint no_sep (s : str) : bool :=
  match s with
  | [] => true
  | c :: s' =>
      match s' with
      | [] => true
      | d :: _ => negb (is_term c && isspace d) && no_sep s'
      end
  end.

(** The last character of [s] is a terminator. *)
Definition ends_term (s : str) : bool :=
  match rev s with [] => false | c :: _ => is_term c end.

(** After the terminators at the head of [s] comes no whitespace. *)
Fixpoint blocked (s : str) : bool :=
  match s with
  | [] => true
  | c :: s' => if is_term c then blocked s' else negb (isspace c)
  end.

(** [P] holds of every element but the last. *)
Fixpoint all_but_last {A : Type} (P : A -> Prop) (l : list A) : Prop :=
  match l with
  | [] => True
  | x :: l' =>
      match l' with
      | [] => True
      | _ :: _ => P x /\ all_but_last P l'
      end
  end.

(** The pattern [[.!?]+\s+] read as a specification: [t] terminators and
    then [w] whitespace characters stand at the head of [s]. *)
Definition is_match (s : str) (t w : nat) : Prop :=
  1 <= t /\ 1 <= w
  /\ List.length (firstn t s) = t
  /\ forallb is_term (firstn t s) = true
  /\ List.length (firstn w (skipn t s)) = w
  /\ forallb isspace (firstn w (skipn t s)) = true.

(** The pieces with the separators put back between them. *)
Fixpoint weave (pieces seps : list str) : str :=
  match pieces with
  | [] => []
  | piece :: pieces' =>
      match seps with
      | [] => piece
      | sep :: seps' => piece ++ sep ++ weave pieces' seps'
      end
  end.

(** A string that is, as a whole, a match of the pattern. *)
Definition whole_match (m : str) : Prop :=
  exists t w, is_match m t w /\ List.length m = t + w.

End ReNotions.

Module ChunkerNotions.
Import PyNotions.

(** A chunk is its sentences joined by [". "]. *)
Definition J (g : list str) : str := join (py ". ") g.

Definition clean (s : str) : Prop :=
  starts_ok s = true /\ ends_ok s = true.

(** The loop of [split_text] seen on groups of sentences. *)
Fixpoint group_loop (max_length : Z) (sents : list str)
    (groups : list (list str)) (cur : list str)
  : list (list str) * list str :=
  match sents with
  | [] => (groups, cur)
  | s :: rest =>
      if (len (J cur) + len s + 2 >? max_length)%Z
         && match cur with [] => false | _ :: _ => true end
      then group_loop max_length rest (groups ++ [cur]) [s]
      else group_loop max_length rest groups (cur ++ [s])
  end.

(** What the chunker promises of a group: one sentence, or within bound. *)
Definition okg (max_length : Z) (g : list str) : Prop :=
  g <> [] /\ ((len (J g) <= max_length)%Z \/ exists s, g = [s]).

End ChunkerNotions.


(* ================================================================== *)
(** * Notions for the further properties *)
(* ================================================================== *)

Module GreedyNotions.
Import ChunkerNotions.

(** No group could have taken the first sentence of the next one: with the
    separator before it, the chunk would have gone over the bound. *)
Fixpoint greedy (max_length : Z) (groups : list (list str)) : Prop :=
  match groups with
  | [] => True
  | g :: rest =>
      match rest with
      | [] => True
      | h :: _ =>
          (len (J g) + len (hd [] h) + 2 > max_length)%Z
          /\ greedy max_length rest
      end
  end.

End GreedyNotions.

Module BasicListerNotions.

(** The three tags the basic lister and the script of scrape_dailysabah.py
    want of a card: title, author line and link. *)
Definition complete (card : node) : option (node * node * node) :=
  match find (py "h3") card,
        find_class (py "div") (py "author-info") card,
        find_class (py "a") (py "card") card with
  | Some title_tag, Some author_tag, Some link_tag =>
      Some (title_tag, author_tag, link_tag)
  | _, _, _ => None
  end.

(** The link of a complete card carries an address. *)
Definition basic_has_address (card : node) : bool :=
  match complete card with
  | Some (_, _, link_tag) =>
      match get_href link_tag with Some _ => true | None => false end
  | None => true
  end.

(** The article the basic lister makes of a card, if it is complete, its
    link has an address, and the content is accepted. *)
Definition basic_article_of_card (w : world) (card : node) : option article :=
  match complete card with
  | Some (title_tag, author_tag, link_tag) =>
      match get_href link_tag with
      | Some link =>
          let content := NewsTtsApp.get_column_content w (full_url_of link) in
          if NewsTtsApp.accepted content then
            Some {| title := strip (text title_tag);
                    author := strip (text author_tag);
                    url := full_url_of link;
                    content := match content with Some c => c | None => [] end;
                    date := strftime w (py "%Y-%m-%d") |}
          else None
      | None => None
      end
  | None => None
  end.

End BasicListerNotions.

(** More samples: a listing page without cards, with anchors only; a
    world in which no file can be opened for writing. *)
Module MoreSample.
Import Sample.

Definition anchor (address : option str) (label : str) : node :=
  Tag (py "a") [] address [Text label].

Definition anchors_site : list (str * response) :=
  [ (Config.NEWS_SOURCE_url,
     ok (document
           [ anchor (Some (py "/columns")) (py "All of the columns");
             anchor (Some (py "/columns/1")) (py "A long column title");
             anchor (Some (py "/columns/2")) (py "Short") ]));
    (site_url (py "/columns/1"), ok (article_page [py "One."]));
    (site_url (py "/columns/2"), ok (article_page [py "Two."])) ].

(** The main page of riktpunkt.nu: two links to one article, one relative
    and one absolute, and a link to a page that is no article. *)
Definition article_address : str :=
  py "https://riktpunkt.nu/2024/05/strejk-i-hamnen/".

(** An article page without a container for the content: a menu, and
    three paragraphs, the second too short to count. *)
Definition riktpunkt_page : node :=
  document
    [ Tag (py "title") [] None [Text (py "Strejk i hamnen - RiktpunKt")];
      Tag (py "nav") [] None
        [p (py "Meny med en rad som har mer text, fler ord, femtio tecken")];
      div (py "main")
        [ Text (py "INRIKES");
          p (py "  Hamnarbetarna har lagt ned arbetet   i dag efter veckor av förhandlingar. ");
          p (py "Kort stycke.");
          p (py "Facket kräver nu ett nytt avtal och arbetsgivarna har kallat till möte på måndag.") ] ].

Definition riktpunkt_site : list (str * response) :=
  [ (py "https://riktpunkt.nu/",
     ok (document
           [ anchor (Some (py "/2024/05/strejk-i-hamnen/")) (py "Strejk");
             anchor (Some (py "/om-oss/")) (py "Om oss");
             anchor (Some article_address) (py "Läs mer") ]));
    (article_address, ok riktpunkt_page) ].

Definition locked (w : world) : world :=
  {| get := get w; strftime := strftime w; speech := speech w;
     getsize := getsize w; writable := fun _ => false;
     isalnum := isalnum w; isdecimal := isdecimal w |}.

End MoreSample.

Module RunMoreNotions.

(** The audio file a record of a run stands for. *)
Definition audio_of (r : record) : str :=
  match r with
  | Demo demo => demo
  | Produced _ _ audio_file _ _ _ => audio_file
  end.

(** The lists of records written as metadata, in order. *)
Fixpoint metadata_written (t : list event) : list (list record) :=
  match t with
  | [] => []
  | Metadata _ records :: t' => records :: metadata_written t'
  | _ :: t' => metadata_written t'
  end.

(** The speech request the basic run makes for a numbered column. *)
Definition basic_request (w : world) (ic : nat * article) : str * str :=
  (content (snd ic), Basic.filename_of w (fst ic) (snd ic)).

(** A decimal digit of ASCII. *)
Definition is_digit (c : char) : bool := ((48 <=? c) && (c <=? 57))%N.

(** [int(s)] for a string of such digits. *)
Definition number_of (s : str) : nat :=
  fold_left (fun v c => 10 * v + (N.to_nat c - 48)) s 0.

(** A character [create_safe_filename] lets through: alphanumeric, hyphen
    or underscore (spaces become underscores). *)
Definition safe_char (w : world) (c : char) : Prop :=
  c <> 32%N /\ (isalnum w c = true \/ c = 45%N \/ c = 95%N).

End RunMoreNotions.

Module ScriptNotions.
Import BasicListerNotions.

(** The address on the link of a complete card. *)
Definition card_link (card : node) : option str :=
  match complete card with
  | Some (_, _, link_tag) => get_href link_tag
  | None => None
  end.

End ScriptNotions.

Module ArticleNotions.

(** Every white space character is a space, and no two stand together. *)
Fixpoint single_spaced (s : str) : bool :=
  match s with
  | [] => true
  | c :: rest =>
      (negb (isspace c) || (c =? 32)%N)
      && match rest with
         | [] => true
         | d :: _ => negb (isspace c && isspace d)
         end
      && single_spaced rest
  end.

(** The number of spaces of a string. *)
Definition spaces (s : str) : nat := List.length (filter (N.eqb 32) s).

(** The article of an address: its page fetched, and the extraction
    passed. *)
Definition article_at (w : world) (now : str) (url : str)
  : option RiktpunktArticle.article_data :=
  match NewsTtsAppEnhanced.fetch w url with
  | Returned soup => RiktpunktArticle.extract_article_content w now soup url
  | Raised _ => None
  end.

(** The file the scraper writes for the speech script, for a numbered
    article. *)
Definition tts_file (ia : nat * RiktpunktArticle.article_data)
  : RiktpunktArticle.written :=
  RiktpunktArticle.TextFile
    (RiktpunktArticle.tts_filename (fst ia) (snd ia))
    (RiktpunktArticle.tts_text (snd ia)).

(** The name of [f] is not after the name of [g]. *)
Definition name_le (f g : Playlist.audio_file) : Prop :=
  Playlist.str_ltb (Playlist.name g) (Playlist.name f) = false.

End ArticleNotions.

(* ================================================================== *)
(** * Facts about strings *)
(* ================================================================== *)

Module PyFacts.
Import PyNotions.

Lemma len_app (a b : str) : len (a ++ b) = (len a + len b)%Z.
Proof. unfold len. rewrite length_app. lia. Qed.

Lemma len_nonneg (a : str) : (0 <= len a)%Z.
Proof. unfold len. lia. Qed.

Lemma truthy_true (s : str) : truthy s = true <-> s <> [].
Proof. destruct s; simpl; split; congruence. Qed.

Lemma truthy_false (s : str) : truthy s = false <-> s = [].
Proof. destruct s; simpl; split; congruence. Qed.

Lemma str_eqb_eq (a b : str) : str_eqb a b = true <-> a = b.
Proof.
  revert b. induction a as [|x a IH]; intros [|y b]; simpl; split;
    try congruence; try reflexivity.
  - intros H. apply andb_true_iff in H as [H1 H2].
    apply N.eqb_eq in H1. apply IH in H2. congruence.
  - intros H. injection H as -> ->. rewrite N.eqb_refl. simpl.
    apply IH. reflexivity.
Qed.

Lemma str_eqb_refl (a : str) : str_eqb a a = true.
Proof. apply str_eqb_eq. reflexivity. Qed.

Lemma lstrip_decomp (s : str) :
  exists a, s = a ++ lstrip s /\ forallb isspace a = true.
Proof.
  induction s as [|c s [a [E F]]]; simpl.
  - exists []. split; reflexivity.
  - destruct (isspace c) eqn:W.
    + exists (c :: a). simpl. rewrite W, F. split; [congruence|reflexivity].
    + exists []. split; reflexivity.
Qed.

Lemma lstrip_starts (s : str) : lstrip s = [] \/ starts_ok (lstrip s) = true.
Proof.
  induction s as [|c s IH]; simpl; [now left|].
  destruct (isspace c) eqn:W; [exact IH|].
  right. simpl. now rewrite W.
Qed.

Lemma lstrip_id (s : str) : starts_ok s = true -> lstrip s = s.
Proof.
  destruct s as [|c s]; simpl; [congruence|].
  destruct (isspace c); simpl; congruence.
Qed.

Lemma strip_decomp (s : str) :
  exists a b, s = a ++ strip s ++ b
              /\ forallb isspace a = true /\ forallb isspace b = true.
Proof.
  unfold strip, rstrip.
  destruct (lstrip_decomp s) as [a [Ea Fa]].
  destruct (lstrip_decomp (rev (lstrip s))) as [b [Eb Fb]].
  exists a, (rev b). split; [|split].
  - rewrite Ea at 1. f_equal.
    apply (f_equal (@rev char)) in Eb.
    rewrite rev_involutive, rev_app_distr in Eb. exact Eb.
  - exact Fa.
  - rewrite forallb_forall in *. intros x Hx. apply Fb.
    now apply in_rev.
Qed.

Lemma strip_clean (s : str) :
  strip s <> [] -> starts_ok (strip s) = true /\ ends_ok (strip s) = true.
Proof.
  intros NE. unfold strip, rstrip, ends_ok in *.
  set (a := lstrip s) in *.
  destruct (lstrip_decomp (rev a)) as [p [Ep Fp]].
  set (b := lstrip (rev a)) in *.
  rewrite rev_involutive.
  assert (Hb : starts_ok b = true).
  { destruct (lstrip_starts (rev a)) as [E|E]; [|exact E].
    exfalso. apply NE. unfold b. now rewrite E. }
  split; [|exact Hb].
  assert (Ea : a = rev b ++ rev p).
  { rewrite <- (rev_involutive a), Ep. now rewrite rev_app_distr. }
  destruct (lstrip_starts s) as [E|E]; fold a in E.
  - rewrite E in Ea. destruct (rev b); [now elim NE|discriminate].
  - rewrite Ea in E. destruct (rev b); [now elim NE|exact E].
Qed.

Lemma strip_id (s : str) :
  starts_ok s = true -> ends_ok s = true -> strip s = s.
Proof.
  intros Hs He. unfold strip, rstrip. rewrite (lstrip_id _ Hs).
  rewrite (lstrip_id _ He). apply rev_involutive.
Qed.

Lemma starts_ok_app (a b : str) :
  starts_ok a = true -> starts_ok (a ++ b) = true.
Proof. destruct a; simpl; congruence. Qed.

Lemma ends_ok_app (a b : str) :
  ends_ok b = true -> ends_ok (a ++ b) = true.
Proof.
  unfold ends_ok. rewrite rev_app_distr. apply starts_ok_app.
Qed.

Lemma starts_ok_nonempty (s : str) : starts_ok s = true -> s <> [].
Proof. destruct s; simpl; congruence. Qed.

End PyFacts.

Import PyNotions PyFacts.

(* ================================================================== *)
(** * Facts about the split on sentence ends *)
(* ================================================================== *)

Module ReFacts.
Import Re ReNotions.

Lemma term_not_space (c : char) : is_term c = true -> isspace c = false.
Proof.
  unfold is_term, isspace. intros H.
  repeat (apply orb_true_iff in H; destruct H as [H|H]);
    apply N.eqb_eq in H; subst c; reflexivity.
Qed.

Lemma blocked_skipn (s : str) :
  blocked s = match skipn (run_length is_term s) s with
              | [] => true
              | d :: _ => negb (isspace d)
              end.
Proof.
  induction s as [|c s IH]; simpl; [reflexivity|].
  destruct (is_term c) eqn:T; simpl; [exact IH|reflexivity].
Qed.

Lemma run_length_skipn_space (s : str) :
  run_length isspace s = 0 <->
  match s with [] => true | d :: _ => negb (isspace d) end = true.
Proof.
  destruct s as [|d s]; simpl; [tauto|].
  destruct (isspace d); simpl; split; congruence.
Qed.

(** The pattern matches at the head of [c :: s] exactly when [c] is a
    terminator and the run it starts is followed by whitespace. *)
Lemma match_sep_None (c : char) (s : str) :
  match_sep (c :: s) = None <-> is_term c = false \/ blocked s = true.
Proof.
  unfold match_sep. simpl run_length.
  destruct (is_term c) eqn:T.
  - simpl skipn. rewrite blocked_skipn.
    pose proof (run_length_skipn_space (skipn (run_length is_term s) s)) as R.
    destruct (run_length isspace (skipn (run_length is_term s) s)) eqn:W.
    + split; [intros _; right; now apply R|reflexivity].
    + split; [discriminate|].
      intros [H|H]; [discriminate|]. apply R in H. discriminate.
  - split; [now left|reflexivity].
Qed.

Lemma match_sep_Some_term (c : char) (s : str) (n : nat) :
  match_sep (c :: s) = Some n -> is_term c = true /\ blocked s = false.
Proof.
  intros H. destruct (is_term c) eqn:T, (blocked s) eqn:B; auto;
    assert (N : match_sep (c :: s) = None) by (apply match_sep_None; auto);
    congruence.
Qed.

Lemma no_sep_cons2 (x y : char) (s : str) :
  no_sep (x :: y :: s) = negb (is_term x && isspace y) && no_sep (y :: s).
Proof. reflexivity. Qed.

Lemma no_sep_cons (c : char) (s : str) :
  no_sep (c :: s) = true -> no_sep s = true.
Proof.
  destruct s as [|d s]; [reflexivity|].
  rewrite no_sep_cons2. intros H. apply andb_true_iff in H. tauto.
Qed.

Lemma no_sep_app_r (a b : str) : no_sep (a ++ b) = true -> no_sep b = true.
Proof.
  induction a as [|c a IH]; simpl app; [tauto|].
  intros H. apply IH. exact (no_sep_cons _ _ H).
Qed.

Lemma ends_term_app (a b : str) :
  b <> [] -> ends_term (a ++ b) = ends_term b.
Proof.
  intros NE. unfold ends_term. rewrite rev_app_distr.
  destruct (rev b) eqn:E; [|reflexivity].
  apply (f_equal (@rev char)) in E. rewrite rev_involutive in E.
  now elim NE.
Qed.

Lemma no_sep_snoc (s : str) (c : char) :
  no_sep (s ++ [c]) = no_sep s && negb (ends_term s && isspace c).
Proof.
  induction s as [|x s IH]; [reflexivity|].
  destruct s as [|y s].
  - cbn. unfold ends_term. simpl. now rewrite andb_true_r.
  - change ((x :: y :: s) ++ [c]) with (x :: y :: (s ++ [c])).
    rewrite !no_sep_cons2.
    change (y :: s ++ [c]) with ((y :: s) ++ [c]). rewrite IH.
    assert (E : ends_term (x :: y :: s) = ends_term (y :: s)).
    { apply (ends_term_app [x]). discriminate. }
    rewrite E. now rewrite andb_assoc.
Qed.

Lemma no_sep_app_l (a b : str) : no_sep (a ++ b) = true -> no_sep a = true.
Proof.
  revert a. induction b as [|c b IH] using rev_ind; intros a.
  - now rewrite app_nil_r.
  - rewrite app_assoc, no_sep_snoc. intros H.
    apply andb_true_iff in H. apply IH. tauto.
Qed.

Lemma ends_term_cons (c : char) (s : str) :
  s <> [] -> ends_term (c :: s) = ends_term s.
Proof. intros NE. exact (ends_term_app [c] NE). Qed.

Lemma ends_term_snoc (s : str) (c : char) : ends_term (s ++ [c]) = is_term c.
Proof. unfold ends_term. now rewrite rev_app_distr. Qed.

Lemma no_sep_no_match (s : str) : no_sep s = true -> match_sep s = None.
Proof.
  destruct s as [|c s]; [reflexivity|].
  intros H. apply match_sep_None.
  destruct (is_term c) eqn:T; [right|now left].
  revert c T H. induction s as [|d s IH]; intros c T H; [reflexivity|].
  rewrite no_sep_cons2 in H. apply andb_true_iff in H as [H1 H2].
  rewrite T in H1. simpl in H1. simpl blocked.
  destruct (is_term d) eqn:Td; [now apply (IH d)|exact H1].
Qed.

(** Inside a piece that does not end on a terminator the pattern finds no
    match, whatever follows the piece. *)
Lemma blocked_inside (s : str) (c : char) (rest : str) :
  is_term c = true -> no_sep (c :: s) = true -> s <> [] ->
  ends_term (c :: s) = false -> blocked (s ++ rest) = true.
Proof.
  revert c. induction s as [|d s IH]; intros c T H NE E; [now elim NE|].
  rewrite no_sep_cons2 in H. apply andb_true_iff in H as [H1 H2].
  rewrite T in H1. simpl in H1. simpl.
  destruct (is_term d) eqn:Td; [|exact H1].
  rewrite ends_term_cons in E by discriminate.
  destruct s as [|e s].
  - unfold ends_term in E. simpl in E. congruence.
  - apply (IH d); auto. discriminate.
Qed.

Lemma no_match_inside (s rest : str) :
  no_sep s = true -> s <> [] -> ends_term s = false ->
  match_sep (s ++ rest) = None.
Proof.
  intros H NE E. destruct s as [|c s]; [now elim NE|].
  simpl app. apply match_sep_None.
  destruct (is_term c) eqn:T; [right|now left].
  destruct s as [|d s].
  - unfold ends_term in E. simpl in E. congruence.
  - apply blocked_inside with (c := c); auto. discriminate.
Qed.

Lemma all_but_last_cons {A} (P : A -> Prop) (x : A) (l : list A) :
  P x -> all_but_last P l -> all_but_last P (x :: l).
Proof. intros. destruct l; simpl; auto. Qed.

Lemma all_but_last_tail {A} (P : A -> Prop) (x : A) (l : list A) :
  all_but_last P (x :: l) -> all_but_last P l.
Proof. destruct l; simpl; tauto. Qed.

Lemma all_but_last_head {A} (P : A -> Prop) (x : A) (l : list A) :
  all_but_last P (x :: l) -> l <> [] -> P x.
Proof. destruct l; simpl; [congruence|tauto]. Qed.

Lemma all_but_last_app_r {A} (P : A -> Prop) (a b : list A) :
  all_but_last P (a ++ b) -> all_but_last P b.
Proof.
  induction a as [|x a IH]; simpl app; [tauto|].
  intros H. apply IH. eapply all_but_last_tail. exact H.
Qed.

Lemma all_but_last_app_l {A} (P : A -> Prop) (a b : list A) :
  all_but_last P (a ++ b) -> all_but_last P a.
Proof.
  induction a as [|x a IH]; simpl app; [reflexivity|].
  intros H. destruct a as [|y a]; [exact I|].
  split.
  - eapply all_but_last_head; [exact H|discriminate].
  - apply IH. eapply all_but_last_tail. exact H.
Qed.

Lemma all_but_last_filter_map {A B} (P : A -> Prop) (Q : B -> Prop)
    (f : A -> B) (g : B -> bool) (l : list A) :
  (forall x, P x -> Q (f x)) ->
  all_but_last P l -> all_but_last Q (filter g (map f l)).
Proof.
  intros PQ. induction l as [|x l IH]; [reflexivity|].
  intros H. simpl map. simpl filter. destruct l as [|y l].
  - simpl. destruct (g (f x)); exact I.
  - destruct H as [Hx Hl]. specialize (IH Hl).
    destruct (g (f x)); [|exact IH].
    apply all_but_last_cons; auto.
Qed.

(** Every piece of the split is free of matches, and only the last piece
    can end on a terminator. *)
Lemma split_scan_pieces (s : str) : forall (cur : str) (skip : nat),
  no_sep (rev cur) = true ->
  (skip = 0 -> ends_term (rev cur) = true -> blocked s = true) ->
  (skip <> 0 -> cur = []) ->
  Forall (fun p => no_sep p = true) (split_scan cur skip s)
  /\ all_but_last (fun p => ends_term p = false) (split_scan cur skip s).
Proof.
  induction s as [|c s IH]; intros cur skip Hn Hb Hs.
  - simpl. split; [constructor; [exact Hn|constructor]|exact I].
  - simpl split_scan. destruct skip as [|k].
    + destruct (match_sep (c :: s)) as [n|] eqn:M.
      * apply match_sep_Some_term in M as [T B].
        destruct (IH [] (pred n)) as [F L]; [reflexivity|discriminate|auto|].
        split; [constructor; auto|].
        apply all_but_last_cons; [|exact L].
        destruct (ends_term (rev cur)) eqn:E; [|reflexivity].
        specialize (Hb eq_refl eq_refl). simpl in Hb.
        rewrite T in Hb. congruence.
      * apply match_sep_None in M.
        apply IH.
        -- simpl rev. rewrite no_sep_snoc, Hn. simpl.
           destruct (ends_term (rev cur)) eqn:E; [|reflexivity].
           specialize (Hb eq_refl eq_refl). simpl in Hb.
           destruct (is_term c) eqn:T.
           ++ now rewrite (term_not_space _ T).
           ++ simpl. exact Hb.
        -- intros _. simpl rev. rewrite ends_term_snoc. intros T.
           destruct M as [M|M]; congruence.
        -- congruence.
    + rewrite (Hs ltac:(discriminate)).
      apply IH; [reflexivity|discriminate|reflexivity].
Qed.

Lemma split_pieces (text : str) :
  Forall (fun p => no_sep p = true) (split text)
  /\ all_but_last (fun p => ends_term p = false) (split text).
Proof.
  apply split_scan_pieces; [reflexivity|discriminate|congruence].
Qed.

(** Passing over a stretch in which the pattern never matches. *)
Lemma split_scan_through (s : str) : forall (cur rest : str),
  (forall a b, s = a ++ b -> b <> [] -> match_sep (b ++ rest) = None) ->
  split_scan cur 0 (s ++ rest) = split_scan (rev s ++ cur) 0 rest.
Proof.
  induction s as [|c s IH]; intros cur rest H; [reflexivity|].
  simpl app. simpl split_scan.
  assert (M : match_sep (c :: s ++ rest) = None).
  { apply (H [] (c :: s)); [reflexivity|discriminate]. }
  rewrite M. rewrite IH.
  - simpl rev. now rewrite <- app_assoc.
  - intros a b E NE. apply (H (c :: a) b); [now rewrite E|exact NE].
Qed.

Lemma split_scan_last (s cur : str) :
  no_sep s = true -> split_scan cur 0 s = [rev cur ++ s].
Proof.
  intros H. rewrite <- (app_nil_r s) at 1.
  rewrite split_scan_through.
  - simpl. now rewrite rev_app_distr, rev_involutive.
  - intros a b E NE. rewrite app_nil_r. apply no_sep_no_match.
    rewrite E in H. exact (no_sep_app_r _ _ H).
Qed.

Lemma split_scan_match (cur : str) (c : char) (s : str) (n : nat) :
  match_sep (c :: s) = Some n ->
  split_scan cur 0 (c :: s) = rev cur :: split_scan [] (pred n) s.
Proof. intros M. simpl. now rewrite M. Qed.

Lemma split_scan_sep (s cur u : str) :
  no_sep s = true -> s <> [] -> ends_term s = false ->
  starts_ok u = true ->
  split_scan cur 0 (s ++ py ". " ++ u) = (rev cur ++ s) :: split_scan [] 0 u.
Proof.
  intros H NE E U. rewrite split_scan_through.
  - change ([46%N; 32%N] ++ u) with (46%N :: 32%N :: u).
    assert (M : match_sep (46%N :: 32%N :: u) = Some 2).
    { destruct u as [|d u]; [discriminate|]. simpl in U.
      unfold match_sep. simpl.
      destruct (isspace d); [discriminate|reflexivity]. }
    rewrite (@split_scan_match _ _ _ _ M). simpl split_scan.
    now rewrite rev_app_distr, rev_involutive.
  - intros a b Eq NEb. apply no_match_inside; auto.
    + rewrite Eq in H. exact (no_sep_app_r _ _ H).
    + rewrite Eq in E. now rewrite ends_term_app in E.
Qed.

(** ** The match of the pattern, against its reading as a specification *)

Lemma run_length_firstn (p : char -> bool) (s : str) :
  List.length (firstn (run_length p s) s) = run_length p s
  /\ forallb p (firstn (run_length p s) s) = true.
Proof.
  induction s as [|c s [IH1 IH2]]; simpl; [auto|].
  destruct (p c) eqn:P; simpl; [|auto]. rewrite P, IH1, IH2. auto.
Qed.

Lemma run_length_ge (p : char -> bool) (s : str) :
  forall t, List.length (firstn t s) = t ->
  forallb p (firstn t s) = true -> t <= run_length p s.
Proof.
  induction s as [|c s IH]; intros t L F.
  - rewrite firstn_nil in L. simpl in L. lia.
  - destruct t as [|t]; [lia|]. simpl in L, F.
    apply andb_true_iff in F as [P F]. simpl. rewrite P.
    apply le_n_S, IH; [lia|exact F].
Qed.

Lemma run_length_stop (p q : char -> bool) (s : str) :
  (forall c, q c = true -> p c = false) ->
  forall t, List.length (firstn t s) = t ->
  forallb p (firstn t s) = true ->
  1 <= run_length q (skipn t s) ->
  run_length p s = t.
Proof.
  intros D. induction s as [|c s IH]; intros t L F W.
  - rewrite firstn_nil in L. simpl in L. subst t. reflexivity.
  - destruct t as [|t].
    + simpl in W. simpl. destruct (q c) eqn:Q; [|lia].
      now rewrite (D _ Q).
    + simpl in L, F, W. apply andb_true_iff in F as [P F].
      simpl. rewrite P. f_equal. apply IH; [lia|exact F|exact W].
Qed.

(** What [match_sep] finds is a match. *)
Lemma match_sep_sound (s : str) (n : nat) :
  match_sep s = Some n -> exists t w, is_match s t w /\ n = t + w.
Proof.
  unfold match_sep.
  destruct (run_length is_term s) as [|t] eqn:T; [discriminate|].
  destruct (run_length isspace (skipn (S t) s)) as [|w] eqn:W;
    [discriminate|].
  intros E. injection E as <-. exists (S t), (S w).
  split; [|reflexivity].
  destruct (@run_length_firstn is_term s) as [L1 F1].
  destruct (@run_length_firstn isspace (skipn (S t) s)) as [L2 F2].
  rewrite T in L1, F1. rewrite W in L2, F2.
  unfold is_match. repeat split; auto; lia.
Qed.

(** Whenever the pattern matches at the head of [s], the number of its
    terminators is forced, and [match_sep] finds the match with the most
    whitespace: the one the greedy search of [re] returns. *)
Lemma match_sep_greedy (s : str) (t w : nat) :
  is_match s t w ->
  t = run_length is_term s
  /\ w <= run_length isspace (skipn t s)
  /\ match_sep s = Some (t + run_length isspace (skipn t s)).
Proof.
  intros [Ht [Hw [L1 [F1 [L2 F2]]]]].
  pose proof (@run_length_ge isspace (skipn t s) w L2 F2) as G.
  assert (T : run_length is_term s = t).
  { apply run_length_stop with (q := isspace); auto; [|lia].
    intros c Q. destruct (is_term c) eqn:C; [|reflexivity].
    rewrite (term_not_space _ C) in Q. discriminate. }
  split; [now symmetry|]. split; [exact G|].
  unfold match_sep. rewrite T.
  destruct t as [|t]; [lia|].
  destruct (run_length isspace (skipn (S t) s)); [lia|reflexivity].
Qed.

(** The pattern matches nowhere at the head of [s] when [match_sep] finds
    nothing. *)
Lemma match_sep_none_no_match (s : str) :
  match_sep s = None -> forall t w, ~ is_match s t w.
Proof.
  intros N t w M. apply match_sep_greedy in M as [_ [_ M]]. congruence.
Qed.

(** ** The split, as [re.split] is described: pieces between matches *)

Lemma split_scan_nonempty (s : str) :
  forall cur skip, split_scan cur skip s <> [].
Proof.
  induction s as [|c s IH]; intros cur skip; simpl; [discriminate|].
  destruct skip; [|apply IH].
  destruct (match_sep (c :: s)); [discriminate|apply IH].
Qed.

Lemma split_scan_skip (s : str) :
  forall cur skip, split_scan cur skip s = split_scan cur 0 (skipn skip s).
Proof.
  induction s as [|c s IH]; intros cur skip.
  - now rewrite skipn_nil.
  - destruct skip as [|k]; [reflexivity|]. simpl. apply IH.
Qed.

(** After a match the scan resumes behind it, with a new piece. *)
Lemma split_scan_resume (s cur : str) (n : nat) :
  match_sep s = Some n ->
  split_scan cur 0 s = rev cur :: split_scan [] 0 (skipn n s).
Proof.
  intros M. destruct s as [|c s]; [discriminate|].
  destruct (@match_sep_sound _ _ M) as [t [w [[Ht _] ->]]].
  simpl split_scan. rewrite M. f_equal.
  rewrite split_scan_skip. destruct t as [|t]; [lia|reflexivity].
Qed.

Lemma is_match_firstn (s : str) (t w : nat) :
  is_match s t w -> whole_match (firstn (t + w) s).
Proof.
  intros [Ht [Hw [L1 [F1 [L2 F2]]]]]. exists t, w.
  assert (Lt : t <= List.length s).
  { rewrite <- L1. rewrite length_firstn. lia. }
  assert (Lw : w <= List.length s - t).
  { rewrite <- L2. rewrite length_firstn, length_skipn. lia. }
  assert (E1 : firstn t (firstn (t + w) s) = firstn t s).
  { rewrite firstn_firstn. f_equal. lia. }
  assert (E2 : skipn t (firstn (t + w) s) = firstn w (skipn t s)).
  { rewrite skipn_firstn_comm. f_equal. lia. }
  split.
  - unfold is_match. rewrite E1, E2, firstn_firstn, Nat.min_id.
    repeat split; auto.
  - rewrite length_firstn. lia.
Qed.

(** The pieces of the split, with matches of the pattern woven between
    them, are the text. *)
Lemma split_scan_weave (k : nat) :
  forall s cur, List.length s <= k ->
  exists seps,
    S (List.length seps) = List.length (split_scan cur 0 s)
    /\ Forall whole_match seps
    /\ weave (split_scan cur 0 s) seps = rev cur ++ s.
Proof.
  induction k as [|k IH]; intros s cur L.
  - destruct s; [|simpl in L; lia]. exists []. simpl.
    rewrite app_nil_r. auto.
  - destruct s as [|c s].
    { exists []. simpl. rewrite app_nil_r. auto. }
    destruct (match_sep (c :: s)) as [n|] eqn:M.
    + rewrite (@split_scan_resume _ cur _ M).
      destruct (@match_sep_sound _ _ M) as [t [w [Im ->]]].
      assert (Ln : List.length (skipn (t + w) (c :: s)) <= k).
      { rewrite length_skipn. destruct Im as [Ht _].
        simpl List.length in *. lia. }
      destruct (IH _ [] Ln) as [seps [Hl [Hf Hw]]].
      exists (firstn (t + w) (c :: s) :: seps). split; [|split].
      * simpl. now rewrite Hl.
      * constructor; [now apply is_match_firstn|exact Hf].
      * pose proof (@split_scan_nonempty (skipn (t + w) (c :: s)) [] 0) as NE.
        cbn [weave]. rewrite Hw. simpl rev. simpl app at 3.
        now rewrite firstn_skipn.
    + simpl split_scan. rewrite M.
      destruct (IH s (c :: cur)) as [seps [Hl [Hf Hw]]]; [simpl in L; lia|].
      exists seps. split; [exact Hl|]. split; [exact Hf|].
      rewrite Hw. simpl. now rewrite <- app_assoc.
Qed.

Lemma split_weave (text : str) :
  exists seps,
    S (List.length seps) = List.length (split text)
    /\ Forall whole_match seps
    /\ weave (split text) seps = text.
Proof. exact (@split_scan_weave (List.length text) text [] (le_n _)). Qed.

End ReFacts.

(* ================================================================== *)
(** * The chunker *)
(* ================================================================== *)

Module ChunkerFacts.
Import Re PyNotions ReNotions ReFacts ChunkerNotions.

Lemma J_cons2 (a b : str) (g : list str) :
  J (a :: b :: g) = a ++ py ". " ++ J (b :: g).
Proof. reflexivity. Qed.

Lemma J_snoc (g : list str) (s : str) :
  g <> [] -> J (g ++ [s]) = J g ++ py ". " ++ s.
Proof.
  induction g as [|a g IH]; intros NE; [now elim NE|].
  destruct g as [|b g]; [reflexivity|].
  change ((a :: b :: g) ++ [s]) with (a :: b :: (g ++ [s])).
  rewrite !J_cons2. change (b :: g ++ [s]) with ((b :: g) ++ [s]).
  rewrite IH by discriminate. now rewrite <- !app_assoc.
Qed.

Lemma J_clean (g : list str) :
  Forall clean g -> g <> [] -> clean (J g).
Proof.
  induction g as [|a g IH]; intros F NE; [now elim NE|].
  inversion F as [|? ? [Ha1 Ha2] Fg]; subst.
  destruct g as [|b g]; [split; assumption|].
  rewrite J_cons2. destruct IH as [I1 I2]; [exact Fg|discriminate|].
  split.
  - now apply starts_ok_app.
  - apply ends_ok_app. now apply ends_ok_app.
Qed.

Lemma J_truthy (g : list str) :
  Forall clean g ->
  truthy (J g) = match g with [] => false | _ :: _ => true end.
Proof.
  intros F. destruct g as [|a g]; [reflexivity|].
  destruct (J_clean F) as [H _]; [discriminate|].
  destruct (J (a :: g)); [discriminate|reflexivity].
Qed.

Lemma J_strip (g : list str) : Forall clean g -> strip (J g) = J g.
Proof.
  intros F. destruct g as [|a g]; [reflexivity|].
  destruct (J_clean F) as [H1 H2]; [discriminate|].
  now apply strip_id.
Qed.

Lemma len_J_snoc (g : list str) (s : str) :
  g <> [] -> len (J (g ++ [s])) = (len (J g) + len s + 2)%Z.
Proof.
  intros NE. rewrite J_snoc by exact NE. rewrite !len_app.
  change (len [46%N; 32%N]) with 2%Z. lia.
Qed.

Lemma len_J_app (g h : list str) :
  g <> [] -> (len (J g) <= len (J (g ++ h)))%Z.
Proof.
  intros NE. induction h as [|s h IH] using rev_ind.
  - rewrite app_nil_r. lia.
  - rewrite app_assoc, len_J_snoc.
    + pose proof (len_nonneg s). lia.
    + destruct g; [now elim NE|discriminate].
Qed.

Lemma sentences_clean (ps : list str) :
  Forall clean (filter truthy (map strip ps)).
Proof.
  apply Forall_forall. intros s Hs. apply filter_In in Hs as [Hin Ht].
  apply in_map_iff in Hin as [p [<- _]].
  apply strip_clean. now apply truthy_true.
Qed.

(** The loop on strings and the loop on groups go in step. *)
Lemma split_loop_groups (max_length : Z) (ps : list str) :
  forall (groups : list (list str)) (cur : list str),
  Forall clean cur ->
  split_loop max_length ps (map J groups) (J cur) =
  let '(G, c) := group_loop max_length (filter truthy (map strip ps))
                   groups cur in
  (map J G, J c).
Proof.
  induction ps as [|p ps IH]; intros groups cur Fc; [reflexivity|].
  simpl split_loop. simpl map. simpl filter.
  destruct (truthy (strip p)) eqn:T; simpl negb; cbv iota; [|now apply IH].
  assert (Cp : clean (strip p)) by (apply strip_clean; now apply truthy_true).
  simpl group_loop. rewrite (J_truthy Fc).
  destruct ((len (J cur) + len (strip p) + 2 >? max_length)%Z
            && match cur with [] => false | _ :: _ => true end) eqn:C.
  - rewrite (J_strip Fc).
    replace (map J groups ++ [J cur]) with (map J (groups ++ [cur]))
      by (now rewrite map_app).
    apply (IH (groups ++ [cur]) [strip p]). now constructor.
  - destruct cur as [|a cur].
    + cbv iota. apply (IH groups [strip p]). now constructor.
    + cbv iota.
      change (J (a :: cur) ++ 46%N :: 32%N :: strip p)
        with (J (a :: cur) ++ [46%N; 32%N] ++ strip p).
      rewrite <- J_snoc by discriminate.
      apply IH. apply Forall_app. split; [exact Fc|now constructor].
Qed.

Lemma group_loop_spec (max_length : Z) (sents : list str) :
  forall groups cur G c,
  group_loop max_length sents groups cur = (G, c) ->
  List.concat G ++ c = List.concat groups ++ cur ++ sents
  /\ (Forall (okg max_length) groups -> cur = [] \/ okg max_length cur ->
      Forall (okg max_length) G /\ (c = [] \/ okg max_length c)).
Proof.
  induction sents as [|s sents IH]; intros groups cur G c E.
  - simpl in E. injection E as <- <-. rewrite app_nil_r. auto.
  - simpl in E.
    destruct ((len (J cur) + len s + 2 >? max_length)%Z
              && match cur with [] => false | _ :: _ => true end) eqn:C.
    + apply IH in E as [E1 E2]. split.
      * rewrite E1, concat_app. simpl. now rewrite app_nil_r, <- app_assoc.
      * intros Fg Hc. apply E2.
        -- apply Forall_app. split; [exact Fg|].
           constructor; [|constructor].
           destruct Hc as [->|Hc]; [|exact Hc].
           now rewrite andb_false_r in C.
        -- right. split; [discriminate|]. right. now exists s.
    + apply IH in E as [E1 E2]. split.
      * rewrite E1. now rewrite <- app_assoc.
      * intros Fg Hc. apply E2; [exact Fg|]. right.
        destruct cur as [|a cur].
        -- split; [discriminate|]. right. now exists s.
        -- split; [discriminate|]. left.
           change (a :: cur ++ [s]) with ((a :: cur) ++ [s]).
           rewrite len_J_snoc by discriminate.
           rewrite andb_true_r in C. lia.
Qed.

(** The chunks are the joined groups of a division of the sentences. *)
Lemma split_text_groups (text : str) (max_length : Z) :
  exists groups,
    split_text text max_length = map J groups
    /\ List.concat groups = sentences_of text
    /\ Forall (okg max_length) groups.
Proof.
  unfold split_text, sentences_of.
  pose proof (@split_loop_groups max_length (split text) [] [] (Forall_nil _))
    as L.
  simpl map in L at 1. change (J []) with (@nil char) in L at 1. rewrite L.
  destruct (group_loop max_length (filter truthy (map strip (split text)))
              [] []) as [G c] eqn:E.
  pose proof (sentences_clean (split text)) as Fs.
  destruct (group_loop_spec _ _ _ _ E) as [E1 E2]. simpl in E1.
  destruct E2 as [FG Hc]; [constructor|now left|].
  assert (Fc : Forall clean c).
  { rewrite <- E1 in Fs. now apply Forall_app in Fs. }
  rewrite (J_strip Fc), (J_truthy Fc).
  destruct c as [|a c].
  - exists G. rewrite app_nil_r in E1. auto.
  - exists (G ++ [a :: c]). split; [now rewrite map_app|]. split.
    + rewrite concat_app. simpl. now rewrite app_nil_r.
    + apply Forall_app. split; [exact FG|].
      constructor; [|constructor]. destruct Hc as [Hc|Hc]; [discriminate|auto].
Qed.

Lemma no_sep_strip (p : str) : no_sep p = true -> no_sep (strip p) = true.
Proof.
  intros H. destruct (strip_decomp p) as [a [b [E _]]].
  rewrite E in H. apply no_sep_app_r in H. now apply no_sep_app_l in H.
Qed.

Lemma strip_ends_term (p : str) :
  no_sep p = true -> ends_term (strip p) = true -> ends_term p = true.
Proof.
  intros H T. destruct (strip_decomp p) as [a [b [E [_ Fb]]]].
  assert (NE : strip p <> []).
  { intros E0. rewrite E0 in T. discriminate. }
  destruct b as [|w b].
  - rewrite app_nil_r in E. rewrite E. now rewrite ends_term_app.
  - exfalso. simpl in Fb. apply andb_true_iff in Fb as [W _].
    destruct (exists_last NE) as [q [t Eq]].
    rewrite Eq, ends_term_snoc in T.
    rewrite E, Eq, <- app_assoc in H.
    apply no_sep_app_r in H. apply no_sep_app_r in H.
    simpl app in H. rewrite no_sep_cons2, T, W in H. discriminate.
Qed.

Lemma all_but_last_in_map {A B} (P : A -> Prop) (Q : B -> Prop)
    (f : A -> B) (g : B -> bool) (l : list A) :
  (forall x, In x l -> P x -> Q (f x)) ->
  all_but_last P l -> all_but_last Q (filter g (map f l)).
Proof.
  induction l as [|x l IH]; intros PQ H; [exact I|].
  simpl map. simpl filter. destruct l as [|y l].
  - simpl. destruct (g (f x)); exact I.
  - destruct H as [Hx Hl].
    assert (IH' : all_but_last Q (filter g (map f (y :: l)))).
    { apply IH; [|exact Hl]. intros z Hz. apply PQ. now right. }
    destruct (g (f x)); [|exact IH'].
    apply all_but_last_cons; [|exact IH']. apply PQ; [now left|exact Hx].
Qed.

(** The sentences of a text: trimmed, free of matches of the pattern, and
    only the last one can end on a terminator. *)
Lemma sentences_shape (text : str) :
  Forall clean (sentences_of text)
  /\ Forall (fun s => no_sep s = true) (sentences_of text)
  /\ all_but_last (fun s => ends_term s = false) (sentences_of text).
Proof.
  destruct (split_pieces text) as [Fp Lp]. unfold sentences_of.
  split; [apply sentences_clean|]. split.
  - apply Forall_forall. intros s Hs. apply filter_In in Hs as [Hin _].
    apply in_map_iff in Hin as [p [<- Hp]].
    apply no_sep_strip. rewrite Forall_forall in Fp. now apply Fp.
  - apply all_but_last_in_map with (P := fun p => ends_term p = false);
      [|exact Lp].
    intros p Hp E. destruct (ends_term (strip p)) eqn:T; [|reflexivity].
    rewrite Forall_forall in Fp.
    rewrite (strip_ends_term _ (Fp _ Hp) T) in E. discriminate.
Qed.

(** Splitting a chunk gives its sentences back. *)
Lemma split_scan_J (g : list str) :
  g <> [] -> Forall clean g -> Forall (fun s => no_sep s = true) g ->
  all_but_last (fun s => ends_term s = false) g ->
  forall cur, split_scan cur 0 (J g) = (rev cur ++ hd [] g) :: tl g.
Proof.
  induction g as [|s g IH]; intros NE Fc Fn L cur; [now elim NE|].
  inversion Fc as [|? ? Cs Fc']; subst. inversion Fn as [|? ? Ns Fn']; subst.
  destruct g as [|s2 g].
  - simpl. now apply split_scan_last.
  - rewrite J_cons2. destruct L as [Es L].
    destruct (J_clean Fc') as [U _]; [discriminate|].
    rewrite split_scan_sep; auto.
    + rewrite IH; auto; discriminate.
    + apply starts_ok_nonempty. apply Cs.
Qed.

Lemma split_J (g : list str) :
  g <> [] -> Forall clean g -> Forall (fun s => no_sep s = true) g ->
  all_but_last (fun s => ends_term s = false) g ->
  split (J g) = g.
Proof.
  intros NE Fc Fn L. unfold split. rewrite split_scan_J; auto.
  destruct g; [now elim NE|reflexivity].
Qed.

Lemma clean_sentences_id (g : list str) :
  Forall clean g -> filter truthy (map strip g) = g.
Proof.
  induction 1 as [|s g [H1 H2] F IH]; [reflexivity|].
  simpl. rewrite (strip_id _ H1 H2), IH.
  destruct s; [discriminate|reflexivity].
Qed.

Lemma group_loop_fits (max_length : Z) (h : list str) :
  forall cur groups, cur <> [] ->
  (len (J (cur ++ h)) <= max_length)%Z ->
  group_loop max_length h groups cur = (groups, cur ++ h).
Proof.
  induction h as [|s h IH]; intros cur groups NE B.
  - now rewrite app_nil_r.
  - simpl group_loop.
    assert (B' : (len (J (cur ++ [s])) <= max_length)%Z).
    { change (s :: h) with ([s] ++ h) in B. rewrite app_assoc in B.
      pose proof (@len_J_app (cur ++ [s]) h) as M.
      assert (cur ++ [s] <> []) by (destruct cur; discriminate).
      specialize (M H). lia. }
    rewrite len_J_snoc in B' by exact NE.
    replace (len (J cur) + len s + 2 >? max_length)%Z with false
      by (symmetry; rewrite Z.gtb_ltb; apply Z.ltb_ge; lia).
    simpl andb. cbv iota.
    replace (cur ++ s :: h) with ((cur ++ [s]) ++ h)
      by (now rewrite <- app_assoc).
    apply IH.
    + destruct cur; discriminate.
    + now rewrite <- app_assoc.
Qed.

Lemma group_loop_one (max_length : Z) (g : list str) :
  okg max_length g -> group_loop max_length g [] [] = ([], g).
Proof.
  intros [NE B]. destruct g as [|s h]; [now elim NE|].
  simpl group_loop. rewrite andb_false_r. simpl app.
  destruct B as [B|[s' E]].
  - apply (@group_loop_fits max_length h [s] []); [discriminate|exact B].
  - injection E as -> ->. reflexivity.
Qed.

(** A chunk chunks to itself. *)
Lemma split_text_J (max_length : Z) (g : list str) :
  okg max_length g -> Forall clean g ->
  Forall (fun s => no_sep s = true) g ->
  all_but_last (fun s => ends_term s = false) g ->
  split_text (J g) max_length = [J g].
Proof.
  intros Ok Fc Fn L. unfold split_text.
  rewrite split_J; auto; [|apply Ok].
  pose proof (@split_loop_groups max_length g [] [] (Forall_nil _)) as E.
  simpl map in E at 1. change (J []) with (@nil char) in E at 1. rewrite E.
  rewrite (clean_sentences_id Fc), (group_loop_one Ok).
  rewrite (J_strip Fc), (J_truthy Fc).
  destruct g; [now elim (proj1 Ok)|reflexivity].
Qed.

(** ** A trimmed text has a sentence *)

Lemma run_length_nth (p : char -> bool) (l : str) :
  forall k, k < run_length p l ->
  exists c, nth_error l k = Some c /\ p c = true.
Proof.
  induction l as [|x l IH]; intros k H; simpl in H; [lia|].
  destruct (p x) eqn:Px; [|lia].
  destruct k as [|k]; [now exists x|]. simpl. apply IH. lia.
Qed.

Lemma nth_error_skipn_add (l : str) :
  forall t k, nth_error (skipn t l) k = nth_error l (t + k).
Proof.
  induction l as [|x l IH]; intros t k.
  - rewrite skipn_nil. destruct k, t; reflexivity.
  - destruct t as [|t]; [reflexivity|]. simpl. apply IH.
Qed.

(** A match is at least two characters long and ends on whitespace. *)
Lemma match_sep_Some_space (s : str) (n : nat) :
  match_sep s = Some n ->
  exists m c, n = S (S m) /\ nth_error s (S m) = Some c /\ isspace c = true.
Proof.
  unfold match_sep.
  destruct (run_length is_term s) as [|t] eqn:T; [discriminate|].
  destruct (run_length isspace (skipn (S t) s)) as [|k] eqn:W; [discriminate|].
  intros E. injection E as <-.
  destruct (@run_length_nth isspace (skipn (S t) s) k) as [c [Hc Sc]]; [lia|].
  rewrite nth_error_skipn_add in Hc.
  exists (t + k), c. split; [lia|]. split; [|exact Sc].
  replace (S (t + k)) with (S t + k) by lia. exact Hc.
Qed.

Lemma ends_ok_cons (c : char) (s : str) :
  s <> [] -> ends_ok (c :: s) = ends_ok s.
Proof.
  intros NE. unfold ends_ok. simpl rev.
  destruct (rev s) eqn:E; [|reflexivity].
  apply (f_equal (@rev char)) in E. rewrite rev_involutive in E.
  now elim NE.
Qed.

Lemma last_cons_nonempty {A} (x d : A) (l : list A) :
  l <> [] -> last (x :: l) d = last l d.
Proof. destruct l; [congruence|reflexivity]. Qed.

(** When the text ends on a character that is not whitespace, so does the
    last piece of the split. *)
Lemma split_scan_last_piece (s : str) :
  forall cur skip,
  ends_ok s = true ->
  (skip = 0
   \/ exists c, nth_error s (pred skip) = Some c /\ isspace c = true) ->
  ends_ok (last (split_scan cur skip s) []) = true.
Proof.
  induction s as [|c s IH]; intros cur skip E Inv; [discriminate|].
  simpl split_scan. destruct skip as [|k].
  - destruct (match_sep (c :: s)) as [n|] eqn:M.
    + apply match_sep_Some_space in M as [m [sp [-> [Hm Sp]]]].
      simpl in Hm.
      assert (NE : s <> []) by (intros ->; destruct m; discriminate).
      rewrite last_cons_nonempty by apply split_scan_nonempty.
      apply IH; [now rewrite ends_ok_cons in E|].
      right. exists sp. simpl. auto.
    + destruct s as [|d s].
      * simpl. now rewrite ends_ok_app.
      * apply IH; [now rewrite ends_ok_cons in E|now left].
  - destruct Inv as [Inv|[sp [Hk Sp]]]; [discriminate|]. simpl in Hk.
    destruct s as [|d s].
    + exfalso. destruct k; [|destruct k; discriminate].
      simpl in Hk. injection Hk as ->.
      unfold ends_ok in E. simpl in E. now rewrite Sp in E.
    + apply IH; [now rewrite ends_ok_cons in E|].
      destruct k as [|k]; [now left|].
      right. exists sp. simpl. auto.
Qed.

Lemma ends_ok_strip (p : str) : ends_ok p = true -> strip p <> [].
Proof.
  intros E S. destruct (strip_decomp p) as [a [b [Ep [Fa Fb]]]].
  rewrite S in Ep. simpl in Ep.
  assert (F : forallb isspace p = true).
  { rewrite Ep, forallb_app, Fa, Fb. reflexivity. }
  unfold ends_ok in E. destruct (rev p) as [|c r] eqn:R; [discriminate|].
  simpl in E. rewrite forallb_forall in F.
  assert (Hc : In c p) by (apply in_rev; rewrite R; now left).
  rewrite (F _ Hc) in E. discriminate.
Qed.

(** A text that ends on a character that is not whitespace -- such as any
    non-empty trimmed text -- holds a sentence. *)
Lemma sentences_of_trimmed (text : str) :
  ends_ok text = true -> sentences_of text <> [].
Proof.
  intros E. unfold sentences_of, split.
  pose proof (@split_scan_last_piece text [] 0 E (or_introl eq_refl)) as L.
  pose proof (@split_scan_nonempty text [] 0) as NE.
  destruct (exists_last NE) as [front [p Ep]]. rewrite Ep in *.
  rewrite last_last in L. apply ends_ok_strip in L.
  rewrite map_app, filter_app. simpl.
  apply truthy_true in L. rewrite L.
  destruct (filter truthy (map strip front)); discriminate.
Qed.

(** The call in [process_news_articles] gets a non-empty trimmed text: it
    returns at least one part. *)
Lemma split_text_of_trimmed (raw : str) (max_length : Z) :
  strip raw <> [] -> split_text (strip raw) max_length <> [].
Proof.
  intros NE.
  destruct (split_text_groups (strip raw) max_length) as [groups [E [Ec _]]].
  rewrite E. intros G. apply map_eq_nil in G. subst groups.
  simpl in Ec. symmetry in Ec. revert Ec. apply sentences_of_trimmed.
  now apply strip_clean.
Qed.

(** A text without any sentence gives no chunk. *)
Lemma split_text_no_sentence (text : str) (max_length : Z) :
  sentences_of text = [] -> split_text text max_length = [].
Proof.
  intros N.
  destruct (split_text_groups text max_length) as [groups [E [Ec Fg]]].
  rewrite E. destruct groups as [|g groups]; [reflexivity|].
  apply Forall_inv in Fg. destruct Fg as [NE _].
  rewrite N in Ec. simpl in Ec. apply app_eq_nil in Ec as [G _].
  now elim NE.
Qed.

Lemma space_no_term (c : char) : isspace c = true -> is_term c = false.
Proof.
  intros W. unfold is_term.
  destruct (c =? 46)%N eqn:A;
    [apply N.eqb_eq in A; subst c; discriminate|].
  destruct (c =? 33)%N eqn:B;
    [apply N.eqb_eq in B; subst c; discriminate|].
  destruct (c =? 63)%N eqn:C;
    [apply N.eqb_eq in C; subst c; discriminate|].
  reflexivity.
Qed.

(** White space alone is never cut. *)
Lemma split_scan_blank (s : str) : forall cur,
  forallb isspace s = true -> split_scan cur 0 s = [rev cur ++ s].
Proof.
  induction s as [|c s IH]; intros cur F.
  - simpl. now rewrite app_nil_r.
  - simpl in F. apply andb_true_iff in F as [W F].
    cbn [split_scan].
    assert (M : match_sep (c :: s) = None).
    { apply match_sep_None. left. now apply space_no_term. }
    rewrite M, (IH (c :: cur) F). simpl rev. now rewrite <- app_assoc.
Qed.

Lemma lstrip_blank (s : str) : forallb isspace s = true -> lstrip s = [].
Proof.
  induction s as [|c s IH]; [reflexivity|]. simpl.
  intros F. apply andb_true_iff in F as [W F]. rewrite W. auto.
Qed.

(** A text of white space holds no sentence. *)
Lemma sentences_of_blank (text : str) :
  forallb isspace text = true -> sentences_of text = [].
Proof.
  intros F. unfold sentences_of, split.
  rewrite (split_scan_blank text [] F). cbn [rev app map].
  unfold strip. rewrite (lstrip_blank text F). reflexivity.
Qed.

End ChunkerFacts.

Import ReNotions ChunkerNotions ChunkerFacts.

(** C1 (as amended): for every text that holds at least one sentence and
    every [max_length > 0], [split_text] returns a non-empty sequence of
    non-empty strings; the chunks are, in order, the joins of consecutive
    groups of the sentences of the text, so every sentence occurs exactly
    once and in its place; and a chunk is longer than [max_length] only when
    it is a single sentence that is itself longer.  For a text without any
    sentence it returns the empty sequence.  A text that does not end in
    white space holds a sentence; a text of white space only, and the
    empty text, hold none. *)
Theorem split_text_chunks (text : str) (max_length : Z) :
  (0 < max_length)%Z ->
  let chunks := split_text text max_length in
  (sentences_of text <> [] ->
   chunks <> []
   /\ Forall (fun c => c <> []) chunks
   /\ exists groups : list (list str),
        Forall (fun g => g <> []) groups
        /\ List.concat groups = sentences_of text
        /\ chunks = map (join (py ". ")) groups
        /\ Forall (fun g =>
                     (len (join (py ". ") g) <= max_length)%Z
                     \/ exists s, g = [s] /\ (len s > max_length)%Z) groups)
  /\ (sentences_of text = [] -> chunks = [])
  /\ (ends_ok text = true -> sentences_of text <> [])
  /\ (forallb isspace text = true -> sentences_of text = []).
Proof.
  intros _ chunks.
  split; [|split; [apply split_text_no_sentence|
                   split; [apply sentences_of_trimmed
                          |apply sentences_of_blank]]].
  intros NE.
  destruct (split_text_groups text max_length) as [groups [E [Ec Fg]]].
  fold chunks in E.
  destruct (sentences_shape text) as [Fc _].
  assert (Fcg : Forall (Forall clean) groups).
  { rewrite <- Ec in Fc. clear - Fc.
    induction groups as [|g groups IH]; [constructor|].
    simpl in Fc. apply Forall_app in Fc as [F1 F2]. constructor; auto. }
  split; [|split].
  - rewrite E. destruct groups; [|discriminate].
    simpl in Ec. now elim NE.
  - rewrite E. apply Forall_forall. intros c Hc.
    apply in_map_iff in Hc as [g [<- Hg]].
    rewrite Forall_forall in Fg, Fcg.
    apply starts_ok_nonempty.
    apply (J_clean (Fcg _ Hg)). apply (Fg _ Hg).
  - exists groups. split; [|split; [exact Ec|split; [exact E|]]].
    + eapply Forall_impl; [|exact Fg]. now intros g [H _].
    + eapply Forall_impl; [|exact Fg]. intros g [_ [B|[s Es]]]; [now left|].
      destruct (Z_le_gt_dec (len s) max_length) as [Le|Gt].
      * left. now rewrite Es.
      * right. exists s. auto.
Qed.

(** C1, witness: a text of four sentences cut at fourteen characters, and
    a text of two spaces. *)
Lemma split_text_chunks_witness :
  let text := py "Hello.  World! How are you? Fine." in
  (split_text text 14 = [py "Hello. World"; py "How are you"; py "Fine."]
   /\ split_text text 14 <> []
   /\ Forall (fun c => c <> []) (split_text text 14))
  /\ sentences_of (py "  ") = []
  /\ split_text (py "  ") 14 = [].
Proof.
  intros text.
  destruct (@split_text_chunks text 14 eq_refl) as [Some_ _].
  destruct (@split_text_chunks (py "  ") 14 eq_refl) as [_ [None_ [_ Blank]]].
  split; [|split].
  - split; [reflexivity|].
    destruct Some_ as [H1 [H2 _]]; [vm_compute; discriminate|].
    split; [exact H1|exact H2].
  - exact (Blank eq_refl).
  - exact (None_ (Blank eq_refl)).
Defined.

(** C1 as stated fails: the empty text has no sentence, and the chunker
    returns the empty sequence for it; so it is not true that the result is
    non-empty for every text and every [max_length > 0]. *)
Lemma split_text_empty_text :
  (0 < 10)%Z
  /\ split_text (py "") 10 = []
  /\ ~ (forall text max_length,
          (0 < max_length)%Z -> split_text text max_length <> []).
Proof.
  split; [reflexivity|]. split; [reflexivity|].
  intros H. apply (H (py "") 10%Z); reflexivity.
Qed.

(** C2: chunking again, with the same [max_length], a chunk the chunker
    produced returns that chunk alone. *)
Theorem split_text_rechunk (t : str) (max_length : Z) (c : str) :
  In c (split_text t max_length) ->
  split_text c max_length = [c].
Proof.
  intros Hc.
  destruct (split_text_groups t max_length) as [groups [E [Ec Fg]]].
  rewrite E in Hc. apply in_map_iff in Hc as [g [<- Hg]].
  destruct (sentences_shape t) as [Fc [Fn L]].
  apply in_split in Hg as [G1 [G2 EG]].
  rewrite <- Ec, EG, concat_app in Fc, Fn, L. simpl List.concat in Fc, Fn, L.
  apply Forall_app in Fc as [_ Fc]. apply Forall_app in Fc as [Fc _].
  apply Forall_app in Fn as [_ Fn]. apply Forall_app in Fn as [Fn _].
  apply ReFacts.all_but_last_app_r in L.
  apply ReFacts.all_but_last_app_l in L.
  apply split_text_J; auto.
  rewrite Forall_forall in Fg. apply Fg. rewrite EG.
  apply in_or_app. right. now left.
Qed.

(** C2, witness: the first chunk of the text above. *)
Lemma split_text_rechunk_witness :
  In (py "Hello. World")
     (split_text (py "Hello.  World! How are you? Fine.") 14)
  /\ split_text (py "Hello. World") 14 = [py "Hello. World"].
Proof.
  assert (H : In (py "Hello. World")
                (split_text (py "Hello.  World! How are you? Fine.") 14))
    by (left; reflexivity).
  split; [exact H|]. exact (split_text_rechunk _ _ _ H).
Defined.

(* ================================================================== *)
(** * The content extractor *)
(* ================================================================== *)

Unset Implicit Arguments.

Module ExtractFacts.

Lemma join_nonempty (sep : str) (parts : list str) :
  parts <> [] -> Forall (fun s => s <> []) parts -> join sep parts <> [].
Proof.
  intros NE F. destruct parts as [|a parts]; [now elim NE|].
  inversion F as [|? ? Ha _]; subst.
  destruct a as [|c a]; [now elim Ha|].
  destruct parts; simpl; discriminate.
Qed.

Lemma paragraphs_text_nonempty (content_div : node) :
  (exists par, In par (find_all (py "p") content_div)
               /\ strip (text par) <> []) ->
  paragraphs_text content_div <> [].
Proof.
  intros [par [Hin Hne]]. unfold paragraphs_text. apply join_nonempty.
  - intros E.
    assert (Hp : In (strip (text par))
                   (filter truthy
                      (map (fun q => strip (text q))
                           (find_all (py "p") content_div)))).
    { apply filter_In. split.
      - apply in_map_iff. now exists par.
      - now apply truthy_true. }
    rewrite E in Hp. exact Hp.
  - apply Forall_forall. intros s Hs. apply filter_In in Hs as [_ T].
    now apply truthy_true.
Qed.

Lemma paragraphs_text_empty (content_div : node) :
  (forall par, In par (find_all (py "p") content_div) ->
               strip (text par) = []) ->
  paragraphs_text content_div = [].
Proof.
  intros H. unfold paragraphs_text.
  induction (find_all (py "p") content_div) as [|par pars IH];
    [reflexivity|].
  cbn [map filter]. rewrite (H par (or_introl eq_refl)). cbn [truthy].
  apply IH. intros q Hq. apply H. now right.
Qed.

(** Selectors that find nothing are passed over. *)
Lemma content_loop_passes (soup : node) (before rest : list str) :
  Forall (fun s => select_one s soup = None) before ->
  content_loop soup (before ++ rest) = content_loop soup rest.
Proof.
  induction 1 as [|s before Hs _ IH]; [reflexivity|].
  simpl. now rewrite Hs.
Qed.

Lemma content_loop_first (soup : node) (before : list str) (selector : str)
    (later : list str) (content_div : node) :
  Forall (fun s => select_one s soup = None) before ->
  select_one selector soup = Some content_div ->
  content_loop soup (before ++ selector :: later)
  = paragraphs_text content_div.
Proof.
  intros F H. rewrite content_loop_passes by exact F. simpl. now rewrite H.
Qed.

Lemma content_loop_none (soup : node) (selectors : list str) :
  Forall (fun s => select s soup = []) selectors ->
  content_loop soup selectors = [].
Proof.
  induction 1 as [|s selectors Hs _ IH]; [reflexivity|].
  simpl. unfold select_one. now rewrite Hs.
Qed.

(** The two applications extract the same text from a page. *)
Lemma extract_same (soup : node) (selectors : list str) :
  NewsTtsApp.extract soup selectors
  = NewsTtsAppEnhanced.extract soup selectors.
Proof.
  unfold NewsTtsApp.extract, NewsTtsAppEnhanced.extract.
  destruct (truthy (content_loop soup selectors)); reflexivity.
Qed.



Lemma enhanced_content_fetched (w : world) (url : str) (soup : node) :
  get w url = Response true (Html soup) ->
  NewsTtsAppEnhanced.get_column_content w url
  = Some (NewsTtsAppEnhanced.extract soup Config.selectors_content).
Proof.
  intros H. unfold NewsTtsAppEnhanced.get_column_content,
    NewsTtsAppEnhanced.fetch. now rewrite H.
Qed.

Lemma enhanced_content_failed (w : world) (url : str) (e : exn) :
  NewsTtsAppEnhanced.fetch w url = Raised e ->
  NewsTtsAppEnhanced.get_column_content w url = None.
Proof.
  intros H. unfold NewsTtsAppEnhanced.get_column_content. now rewrite H.
Qed.

End ExtractFacts.

Import ExtractFacts.

(** C3 (as amended): when the first selector of the list that finds a tag
    finds a container with at least one non-empty paragraph, the extractor
    returns the texts of the paragraphs of that container, each trimmed, the
    empty ones dropped, joined by newlines, in document order; the selectors
    after it play no part.  When that container holds no non-empty
    paragraph the extractor returns the sentinel, whatever the selectors
    after it would find. *)
Theorem extract_first_match (soup : node) (before : list str)
    (selector : str) (later : list str) (content_div : node) :
  Forall (fun s => select_one s soup = None) before ->
  select_one selector soup = Some content_div ->
  let paragraphs :=
    join newline
      (filter truthy
         (map (fun par => strip (text par)) (find_all (py "p") content_div))) in
  ((exists par, In par (find_all (py "p") content_div)
                /\ strip (text par) <> []) ->
   NewsTtsAppEnhanced.extract soup (before ++ selector :: later) = paragraphs
   /\ NewsTtsApp.extract soup (before ++ selector :: later) = paragraphs)
  /\ ((forall par, In par (find_all (py "p") content_div) ->
                   strip (text par) = []) ->
      NewsTtsAppEnhanced.extract soup (before ++ selector :: later) = sentinel
      /\ NewsTtsApp.extract soup (before ++ selector :: later) = sentinel).
Proof.
  intros F H paragraphs.
  pose proof (content_loop_first soup before selector later content_div F H)
    as L.
  split.
  - intros P.
    assert (E : NewsTtsAppEnhanced.extract soup (before ++ selector :: later)
                = paragraphs).
    { unfold NewsTtsAppEnhanced.extract. rewrite L.
      pose proof (paragraphs_text_nonempty content_div P) as NE.
      apply truthy_true in NE. now rewrite NE. }
    split; [exact E|]. now rewrite extract_same.
  - intros P.
    assert (E : NewsTtsAppEnhanced.extract soup (before ++ selector :: later)
                = sentinel).
    { unfold NewsTtsAppEnhanced.extract.
      rewrite L, (paragraphs_text_empty content_div P). reflexivity. }
    split; [exact E|]. now rewrite extract_same.
Qed.

(** C3, witness: the article page of the scenario, read with the configured
    selectors; the first selector finds the container.  And a page whose
    first container holds an empty paragraph only, before a container with
    a paragraph. *)
Lemma extract_first_match_witness :
  NewsTtsAppEnhanced.extract (Sample.article_page [py "Hello."; py "World."])
    Config.selectors_content
  = py "Hello." ++ newline ++ py "World."
  /\ NewsTtsAppEnhanced.extract
       (Sample.document
          [Sample.div (py "article-content") [Sample.p (py "  ")];
           Sample.div (py "content") [Sample.p (py "Hi")]])
       Config.selectors_content
     = py "Content could not be extracted".
Proof.
  split.
  - refine (proj1 (proj1 (extract_first_match
              (Sample.article_page [py "Hello."; py "World."])
              [] (py "div.article-content")
              (tl Config.selectors_content)
              (Sample.div (py "article-content")
                 (map Sample.p [py "Hello."; py "World."]))
              _ _) _)).
    + constructor.
    + reflexivity.
    + exists (Sample.p (py "Hello.")).
      split; [left; reflexivity|discriminate].
  - refine (proj1 (proj2 (extract_first_match
              (Sample.document
                 [Sample.div (py "article-content") [Sample.p (py "  ")];
                  Sample.div (py "content") [Sample.p (py "Hi")]])
              [] (py "div.article-content")
              (tl Config.selectors_content)
              (Sample.div (py "article-content") [Sample.p (py "  ")])
              _ _) _)).
    + constructor.
    + reflexivity.
    + intros par [<-|[]]. reflexivity.
Defined.

(** C3 as stated fails: here the second selector finds a container with a
    paragraph, but the first selector finds an empty container; the text of
    the paragraphs of that first container is empty, and the extractor
    returns the sentinel instead.  So it is not true that, whenever some
    selector of the list finds a container with a non-empty paragraph, the
    result is the paragraph text of the container of the first selector
    that matches. *)
Lemma extract_first_container_empty :
  let soup := Sample.empty_first_page in
  (exists selector container par,
      In selector Config.selectors_content
      /\ select_one selector soup = Some container
      /\ In par (find_all (py "p") container)
      /\ strip (text par) <> [])
  /\ first_container soup Config.selectors_content
     = Some (Sample.div (py "article-content") [])
  /\ paragraphs_text (Sample.div (py "article-content") []) = []
  /\ NewsTtsAppEnhanced.extract soup Config.selectors_content
     = py "Content could not be extracted"
  /\ NewsTtsApp.extract soup NewsTtsApp.content_selectors
     = py "Content could not be extracted"
  /\ ~ (forall soup content_selectors,
          (exists selector container par,
              In selector content_selectors
              /\ select_one selector soup = Some container
              /\ In par (find_all (py "p") container)
              /\ strip (text par) <> []) ->
          exists content_div,
            first_container soup content_selectors = Some content_div
            /\ NewsTtsAppEnhanced.extract soup content_selectors
               = paragraphs_text content_div).
Proof.
  assert (P : exists selector container par,
             In selector Config.selectors_content
             /\ select_one selector Sample.empty_first_page = Some container
             /\ In par (find_all (py "p") container)
             /\ strip (text par) <> []).
  { exists (py "div.content"),
      (Sample.div (py "content") [Sample.p (py "Hi")]), (Sample.p (py "Hi")).
    split; [right; left; reflexivity|].
    split; [reflexivity|]. split; [left; reflexivity|discriminate]. }
  split; [exact P|]. repeat (split; [reflexivity|]).
  intros H.
  destruct (H Sample.empty_first_page Config.selectors_content P)
    as [d [Hd He]].
  vm_compute in Hd. injection Hd as <-. vm_compute in He. discriminate.
Qed.

(** C4: when no selector of the list matches any element of the fetched
    page, the extractor returns the sentinel text as its value; no exception
    leaves it. *)
Theorem get_column_content_no_match (w : world) (url : str) (ok : bool)
    (soup : node) :
  get w url = Response ok (Html soup) ->
  Forall (fun s => select s soup = []) Config.selectors_content ->
  NewsTtsApp.get_column_content w url
  = Some (py "Content could not be extracted")
  /\ (ok = true ->
      NewsTtsAppEnhanced.get_column_content w url
      = Some (py "Content could not be extracted")).
Proof.
  intros G F. split.
  - unfold NewsTtsApp.get_column_content, NewsTtsApp.fetch. rewrite G.
    simpl. unfold NewsTtsApp.extract.
    change NewsTtsApp.content_selectors with Config.selectors_content.
    now rewrite (content_loop_none _ _ F).
  - intros ->. rewrite (enhanced_content_fetched _ _ _ G).
    unfold NewsTtsAppEnhanced.extract. now rewrite (content_loop_none _ _ F).
Qed.

(** C4, witness: a page with a sidebar only. *)
Lemma get_column_content_no_match_witness :
  let w := Sample.world_of
             [(Sample.site_url (py "/columns/0"), Sample.ok Sample.bare_page)]
             Sample.always in
  NewsTtsApp.get_column_content w (Sample.site_url (py "/columns/0"))
  = Some (py "Content could not be extracted")
  /\ NewsTtsAppEnhanced.get_column_content w (Sample.site_url (py "/columns/0"))
     = Some (py "Content could not be extracted").
Proof.
  intros w.
  destruct (get_column_content_no_match w (Sample.site_url (py "/columns/0"))
              true Sample.bare_page) as [H1 H2].
  - reflexivity.
  - repeat constructor.
  - split; [exact H1|exact (H2 eq_refl)].
Defined.

(* ================================================================== *)
(** * The article lister *)
(* ================================================================== *)

Module ListerFacts.
Import NewsTtsAppEnhanced ListerNotions.

(** Split on the test of the cap after an append. *)
Ltac case_cap :=
  match goal with
  | |- context [(?n >=? ?cap)%Z] => destruct (n >=? cap)%Z
  end.

Lemma cards_loop_cons (w : world) (cap : Z) (card : node) (rest : list node)
    (columns_data : list article) :
  cards_loop w cap (card :: rest) columns_data
  = resume (cards_loop w cap rest) (card_step w cap card columns_data).
Proof.
  simpl cards_loop. unfold card_step, has_address, article_of_card, append_step.
  destruct (select_one Config.selectors_title card) as [t|];
    [|reflexivity].
  destruct (select_one Config.selectors_link card) as [l|];
    [|reflexivity].
  destruct (get_href l) as [link|]; [|reflexivity].
  destruct (accepted (get_column_content w (full_url_of link)));
    [|reflexivity].
  case_cap; reflexivity.
Qed.

Lemma links_loop_cons (w : world) (cap : Z) (link : node) (rest : list node)
    (columns_data : list article) :
  links_loop w cap (link :: rest) columns_data
  = resume (links_loop w cap rest) (link_step w cap link columns_data).
Proof.
  simpl links_loop. unfold link_step, article_of_link, candidate, append_step.
  set (href := match get_href link with Some h => h | None => [] end).
  destruct (truthy href && contains href (py "/columns/")
            && negb (endswith href (py "/columns"))); [|reflexivity].
  destruct (len (strip (text link)) >? 10)%Z; [|reflexivity].
  destruct (accepted (get_column_content w (full_url_of href)));
    [|reflexivity].
  case_cap; reflexivity.
Qed.

(** A turn that leaves the list as it is can be taken out of the loop. *)
Lemma cards_loop_drop (w : world) (cap : Z) (card : node) :
  (forall acc, card_step w cap card acc = Continue acc) ->
  forall pre post acc,
  cards_loop w cap (pre ++ card :: post) acc
  = cards_loop w cap (pre ++ post) acc.
Proof.
  intros H pre post. induction pre as [|c pre IH]; intros acc.
  - simpl app. rewrite cards_loop_cons, H. reflexivity.
  - simpl app. rewrite !cards_loop_cons.
    destruct (card_step w cap c acc); simpl; [apply IH|reflexivity].
Qed.

Lemma links_loop_drop (w : world) (cap : Z) (link : node) :
  (forall acc, link_step w cap link acc = Continue acc) ->
  forall pre post acc,
  links_loop w cap (pre ++ link :: post) acc
  = links_loop w cap (pre ++ post) acc.
Proof.
  intros H pre post. induction pre as [|c pre IH]; intros acc.
  - simpl app. rewrite links_loop_cons, H. reflexivity.
  - simpl app. rewrite !links_loop_cons.
    destruct (link_step w cap c acc); simpl; [apply IH|reflexivity].
Qed.

Lemma accepted_iff (c : str) :
  accepted (Some c) = true <-> c <> [] /\ c <> sentinel.
Proof.
  unfold accepted. rewrite andb_true_iff, negb_true_iff, truthy_true.
  split; intros [H1 H2]; split; auto.
  - intros E. apply str_eqb_eq in E. congruence.
  - destruct (str_eqb c sentinel) eqn:E; [|reflexivity].
    apply str_eqb_eq in E. contradiction.
Qed.

Lemma accepted_genuine (content : option str) :
  accepted content = true ->
  text_of content <> [] /\ text_of content <> sentinel.
Proof.
  destruct content as [c|]; [|discriminate]. apply accepted_iff.
Qed.

Lemma article_of_card_genuine (w : world) (card : node) (a : article) :
  article_of_card w card = Some a -> genuine a.
Proof.
  unfold article_of_card.
  destruct (select_one Config.selectors_title card); [|discriminate].
  destruct (select_one Config.selectors_link card) as [l|]; [|discriminate].
  destruct (get_href l) as [link|]; [|discriminate].
  destruct (accepted _) eqn:A; [|discriminate].
  intros E. injection E as <-. exact (accepted_genuine _ A).
Qed.

Lemma article_of_link_genuine (w : world) (link : node) (a : article) :
  article_of_link w link = Some a -> genuine a.
Proof.
  unfold article_of_link.
  destruct (candidate link) as [[t h]|]; [|discriminate].
  destruct (accepted _) eqn:A; [|discriminate].
  intros E. injection E as <-. exact (accepted_genuine _ A).
Qed.

Lemma append_step_cases (cap : Z) (acc : list article) (a : article) :
  append_step cap acc a = Stop (Returned (acc ++ [a]))
  \/ append_step cap acc a = Continue (acc ++ [a]).
Proof.
  unfold append_step.
  destruct (Z.of_nat (List.length (acc ++ [a])) >=? cap)%Z; auto.
Qed.

(** The list only grows, by articles of the cards. *)
Lemma cards_loop_grows (w : world) (cap : Z) (cards : list node) :
  forall acc l, cards_loop w cap cards acc = Returned l ->
  exists more, l = acc ++ more
               /\ Forall (fun a => exists card, In card cards
                                   /\ article_of_card w card = Some a) more.
Proof.
  induction cards as [|card cards IH]; intros acc l H.
  - simpl in H. injection H as <-. exists []. now rewrite app_nil_r.
  - rewrite cards_loop_cons in H. unfold card_step in H.
    destruct (has_address card); [|discriminate].
    destruct (article_of_card w card) as [a|] eqn:A.
    + assert (Ha : exists c, In c (card :: cards)
                             /\ article_of_card w c = Some a)
        by (exists card; split; [now left|exact A]).
      destruct (append_step_cases cap acc a) as [E|E]; rewrite E in H;
        simpl in H.
      * injection H as <-. exists [a]. split; [reflexivity|].
        constructor; [exact Ha|constructor].
      * apply IH in H as [more [-> F]]. exists (a :: more).
        split; [now rewrite <- app_assoc|].
        constructor; [exact Ha|].
        eapply Forall_impl; [|exact F].
        intros x [c [Hc Hx]]. exists c. split; [now right|exact Hx].
    + simpl in H. apply IH in H as [more [-> F]]. exists more.
      split; [reflexivity|].
      eapply Forall_impl; [|exact F].
      intros x [c [Hc Hx]]. exists c. split; [now right|exact Hx].
Qed.

Lemma links_loop_grows (w : world) (cap : Z) (links : list node) :
  forall acc l, links_loop w cap links acc = Returned l ->
  exists more, l = acc ++ more
               /\ Forall (fun a => exists link, In link links
                                   /\ article_of_link w link = Some a) more.
Proof.
  induction links as [|link links IH]; intros acc l H.
  - simpl in H. injection H as <-. exists []. now rewrite app_nil_r.
  - rewrite links_loop_cons in H. unfold link_step in H.
    destruct (article_of_link w link) as [a|] eqn:A.
    + assert (Ha : exists c, In c (link :: links)
                             /\ article_of_link w c = Some a)
        by (exists link; split; [now left|exact A]).
      destruct (append_step_cases cap acc a) as [E|E]; rewrite E in H;
        simpl in H.
      * injection H as <-. exists [a]. split; [reflexivity|].
        constructor; [exact Ha|constructor].
      * apply IH in H as [more [-> F]]. exists (a :: more).
        split; [now rewrite <- app_assoc|].
        constructor; [exact Ha|].
        eapply Forall_impl; [|exact F].
        intros x [c [Hc Hx]]. exists c. split; [now right|exact Hx].
    + simpl in H. apply IH in H as [more [-> F]]. exists more.
      split; [reflexivity|].
      eapply Forall_impl; [|exact F].
      intros x [c [Hc Hx]]. exists c. split; [now right|exact Hx].
Qed.


(** With an address on every link and a cap of at least one, the loop over
    the cards returns the first articles of the cards, up to the cap. *)
Lemma cards_loop_cap (w : world) (cap : Z) (cards : list node) :
  (1 <= cap)%Z ->
  Forall (fun card => has_address card = true) cards ->
  forall acc, (Z.of_nat (List.length acc) < cap)%Z ->
  cards_loop w cap cards acc
  = Returned (acc ++ firstn (Z.to_nat cap - List.length acc)
                       (collect (article_of_card w) cards)).
Proof.
  intros Hcap F. induction F as [|card cards Hc _ IH]; intros acc Hacc.
  - simpl. now rewrite firstn_nil, app_nil_r.
  - rewrite cards_loop_cons. unfold card_step. rewrite Hc. simpl collect.
    destruct (article_of_card w card) as [a|]; [|simpl; now apply IH].
    unfold append_step. rewrite length_app. simpl List.length.
    destruct (Z.of_nat (List.length acc + 1) >=? cap)%Z eqn:G; simpl resume.
    + apply Z.geb_le in G.
      replace (Z.to_nat cap - List.length acc) with 1 by lia.
      reflexivity.
    + rewrite Z.geb_leb in G. apply Z.leb_gt in G.
      rewrite IH by (rewrite length_app; simpl; lia).
      rewrite <- app_assoc, length_app. simpl.
      replace (Z.to_nat cap - List.length acc)
        with (S (Z.to_nat cap - (List.length acc + 1))) by lia.
      reflexivity.
Qed.

(** On a listing page with cards whose links all carry an address, the
    lister returns the first five articles of the cards. *)
Lemma listing_first_five (w : world) (soup : node) :
  get w Config.NEWS_SOURCE_url = Response true (Html soup) ->
  select Config.selectors_article_cards soup <> [] ->
  Forall (fun card => has_address card = true)
    (select Config.selectors_article_cards soup) ->
  get_daily_sabah_columns w
  = firstn 5 (collect (article_of_card w)
                (select Config.selectors_article_cards soup)).
Proof.
  intros G NE F. unfold get_daily_sabah_columns, listing_body, fetch.
  rewrite G. simpl bind.
  destruct (select Config.selectors_article_cards soup) as [|c cards] eqn:E;
    [now elim NE|].
  rewrite (cards_loop_cap w _ (c :: cards)); [reflexivity| |exact F|];
    unfold Config.FILE_CONFIG_max_columns_per_day; simpl; lia.
Qed.

(** A card or anchor whose article cannot be fetched leaves the list as it
    is. *)
Lemma failed_fetch_card_step (w : world) (cap : Z)
    (card title_elem link_elem : node) (link : str) (e : exn) :
  select_one Config.selectors_title card = Some title_elem ->
  select_one Config.selectors_link card = Some link_elem ->
  get_href link_elem = Some link ->
  fetch w (full_url_of link) = Raised e ->
  forall acc, card_step w cap card acc = Continue acc.
Proof.
  intros Ht Hl Hh Hf acc. unfold card_step, has_address, article_of_card.
  rewrite Ht, Hl, Hh, (enhanced_content_failed _ _ _ Hf). reflexivity.
Qed.

Lemma failed_fetch_link_step (w : world) (cap : Z) (link : node)
    (title href : str) (e : exn) :
  candidate link = Some (title, href) ->
  fetch w (full_url_of href) = Raised e ->
  forall acc, link_step w cap link acc = Continue acc.
Proof.
  intros Hc Hf acc. unfold link_step, article_of_link.
  rewrite Hc, (enhanced_content_failed _ _ _ Hf). reflexivity.
Qed.

(** More articles than the cap: exactly five are returned. *)
Lemma listing_exactly_five (w : world) (soup : node) :
  get w Config.NEWS_SOURCE_url = Response true (Html soup) ->
  Forall (fun card => has_address card = true)
    (select Config.selectors_article_cards soup) ->
  5 < List.length (collect (article_of_card w)
                     (select Config.selectors_article_cards soup)) ->
  List.length (get_daily_sabah_columns w) = 5.
Proof.
  intros G F L. rewrite (listing_first_five w soup G); [| |exact F].
  - apply firstn_length_le. lia.
  - intros E. rewrite E in L. simpl in L. lia.
Qed.

(** The fallback loop returns the first articles of the anchors, up to the
    cap. *)
Lemma links_loop_cap (w : world) (cap : Z) (links : list node) :
  (1 <= cap)%Z ->
  forall acc, (Z.of_nat (List.length acc) < cap)%Z ->
  links_loop w cap links acc
  = Returned (acc ++ firstn (Z.to_nat cap - List.length acc)
                       (collect (article_of_link w) links)).
Proof.
  intros Hcap. induction links as [|link links IH]; intros acc Hacc.
  - simpl. now rewrite firstn_nil, app_nil_r.
  - rewrite links_loop_cons. unfold link_step. simpl collect.
    destruct (article_of_link w link) as [a|]; [|simpl; now apply IH].
    unfold append_step. rewrite length_app. simpl List.length.
    destruct (Z.of_nat (List.length acc + 1) >=? cap)%Z eqn:G; simpl resume.
    + apply Z.geb_le in G.
      replace (Z.to_nat cap - List.length acc) with 1 by lia.
      reflexivity.
    + rewrite Z.geb_leb in G. apply Z.leb_gt in G.
      rewrite IH by (rewrite length_app; simpl; lia).
      rewrite <- app_assoc, length_app. simpl.
      replace (Z.to_nat cap - List.length acc)
        with (S (Z.to_nat cap - (List.length acc + 1))) by lia.
      reflexivity.
Qed.

Lemma collect_app {A B : Type} (f : A -> option B) (l1 l2 : list A) :
  collect f (l1 ++ l2) = collect f l1 ++ collect f l2.
Proof.
  induction l1 as [|x l1 IH]; [reflexivity|]. simpl.
  destruct (f x); simpl; now rewrite IH.
Qed.

Lemma firstn_reaches {A : Type} (n : nat) (l1 : list A) (x : A)
    (l2 : list A) :
  List.length l1 < n -> In x (firstn n (l1 ++ x :: l2)).
Proof.
  intros L. rewrite firstn_app. apply in_or_app. right.
  destruct (n - List.length l1) as [|k] eqn:E; [lia|]. now left.
Qed.

(** The article of a card with title, link, address and accepted content. *)
Lemma article_of_card_some (w : world) (card title_elem link_elem : node)
    (link : str) :
  select_one Config.selectors_title card = Some title_elem ->
  select_one Config.selectors_link card = Some link_elem ->
  get_href link_elem = Some link ->
  accepted (get_column_content w (full_url_of link)) = true ->
  article_of_card w card
  = Some {| title := strip (text title_elem);
            author := match select_one Config.selectors_author card with
                      | Some author_elem => strip (text author_elem)
                      | None => py "Unknown"
                      end;
            url := full_url_of link;
            content := text_of (get_column_content w (full_url_of link));
            date := strftime w (py "%Y-%m-%d") |}.
Proof.
  intros Ht Hl Hh Ha. unfold article_of_card.
  rewrite Ht, Hl, Hh. cbv zeta. now rewrite Ha.
Qed.

(** A card without title or link is passed over. *)
Lemma incomplete_card_step (w : world) (cap : Z) (card : node) :
  select_one Config.selectors_title card = None
  \/ select_one Config.selectors_link card = None ->
  forall acc, card_step w cap card acc = Continue acc.
Proof.
  intros H acc. unfold card_step, has_address, article_of_card.
  destruct (select_one Config.selectors_title card).
  - destruct H as [H|H]; [discriminate|]. now rewrite H.
  - reflexivity.
Qed.

(** A card whose content is not accepted is passed over. *)
Lemma refused_card_step (w : world) (cap : Z)
    (card title_elem link_elem : node) (link : str) :
  select_one Config.selectors_title card = Some title_elem ->
  select_one Config.selectors_link card = Some link_elem ->
  get_href link_elem = Some link ->
  accepted (get_column_content w (full_url_of link)) = false ->
  forall acc, card_step w cap card acc = Continue acc.
Proof.
  intros Ht Hl Hh Ha acc. unfold card_step, has_address, article_of_card.
  rewrite Ht, Hl, Hh. cbv zeta. now rewrite Ha.
Qed.

End ListerFacts.

(** The card loops of the basic lister and of scrape_dailysabah.py pass
    over a card without author line. *)
Module AuthorFacts.

Lemma basic_cards_loop_drop (w : world) (card : node) :
  find_class (py "div") (py "author-info") card = None ->
  forall pre post acc,
  NewsTtsApp.cards_loop w (pre ++ card :: post) acc
  = NewsTtsApp.cards_loop w (pre ++ post) acc.
Proof.
  intros H pre post. induction pre as [|c pre IH]; intros acc.
  - simpl app. cbn [NewsTtsApp.cards_loop]. rewrite H.
    now destruct (find (py "h3") card).
  - simpl app. cbn [NewsTtsApp.cards_loop].
    destruct (find (py "h3") c); [|apply IH].
    destruct (find_class (py "div") (py "author-info") c); [|apply IH].
    destruct (find_class (py "a") (py "card") c) as [l|]; [|apply IH].
    destruct (get_href l) as [link|]; [|reflexivity].
    cbv zeta.
    destruct (NewsTtsApp.accepted
                (NewsTtsApp.get_column_content w (full_url_of link)));
      apply IH.
Qed.

Lemma script_cards_loop_drop (w : world) (card : node) :
  find_class (py "div") (py "author-info") card = None ->
  forall pre post acc,
  ScrapeDailysabah.cards_loop w (pre ++ card :: post) acc
  = ScrapeDailysabah.cards_loop w (pre ++ post) acc.
Proof.
  intros H pre post. induction pre as [|c pre IH]; intros acc.
  - simpl app. cbn [ScrapeDailysabah.cards_loop]. rewrite H.
    now destruct (find (py "h3") card).
  - simpl app. cbn [ScrapeDailysabah.cards_loop].
    destruct (find (py "h3") c); [|apply IH].
    destruct (find_class (py "div") (py "author-info") c); [|apply IH].
    destruct (find_class (py "a") (py "card") c) as [l|]; [|apply IH].
    destruct (get_href l) as [link|]; [|reflexivity].
    destruct (ScrapeDailysabah.get_column_content w link) as [full|e];
      [|reflexivity].
    simpl. apply IH.
Qed.

End AuthorFacts.

(* ================================================================== *)
(** * The scraper of riktpunkt.nu *)
(* ================================================================== *)

Module RiktpunktFacts.
Import ScrapeRiktpunkt.

Section Scrape.

Variable article_data : Type.
Variable extract_article_content : node -> str -> outcome (option article_data).
Variable save_results : list article_data -> outcome unit.

(** An address whose page cannot be fetched or parsed, or whose extraction
    raises, is passed over; the loop goes on with the others. *)
Lemma articles_loop_skips (w : world) (url : str) (e : exn) :
  (article_soup <- NewsTtsAppEnhanced.fetch w url ;;
   extract_article_content article_soup url) = Raised e ->
  forall pre post news_articles,
  articles_loop extract_article_content w (pre ++ url :: post) news_articles
  = articles_loop extract_article_content w (pre ++ post) news_articles.
Proof.
  intros H pre post. induction pre as [|u pre IH]; intros acc.
  - simpl. now rewrite H.
  - simpl.
    destruct (article_soup <- NewsTtsAppEnhanced.fetch w u ;;
              extract_article_content article_soup u) as [[d|]|];
      apply IH.
Qed.

(** A request error on the main page gives the empty list; markup the
    parser rejects is not caught there. *)
Lemma scrape_news_main_page (w : world) :
  (NewsTtsAppEnhanced.fetch w base_url = Raised RequestException ->
   scrape_news extract_article_content save_results w = Returned [])
  /\ (NewsTtsAppEnhanced.fetch w base_url = Raised ParserRejectedMarkup ->
      scrape_news extract_article_content save_results w
      = Raised ParserRejectedMarkup).
Proof.
  unfold scrape_news. split; intros H; rewrite H; reflexivity.
Qed.

End Scrape.

End RiktpunktFacts.

Import ListerNotions ListerFacts.

(** C5, the code at two listing pages with six good articles each.  On the
    first the link of the first card carries no address: the six other
    cards stand for six articles, more than the cap of five, and yet both
    listers lose the whole listing.  On the second the article of the first
    card has no content container: the enhanced lister passes it over and
    returns the next five, the basic lister returns it, with the sentinel as
    content, among its five. *)
Theorem cap_counts_at_sample_pages :
  let w1 := Sample.world_of Sample.missing_href_site Sample.always in
  let w2 := Sample.world_of Sample.bare_first_site Sample.always in
  get w1 Config.NEWS_SOURCE_url
  = Response true
      (Html (Sample.document (Sample.teaser_card :: Sample.six_cards)))
  /\ select Config.selectors_article_cards
       (Sample.document (Sample.teaser_card :: Sample.six_cards))
     = Sample.teaser_card :: Sample.six_cards
  /\ List.length
       (collect (article_of_card w1) (Sample.teaser_card :: Sample.six_cards))
     = 6
  /\ NewsTtsAppEnhanced.get_daily_sabah_columns w1 = []
  /\ NewsTtsApp.get_daily_sabah_columns w1 = []
  /\ map title (NewsTtsAppEnhanced.get_daily_sabah_columns w2)
     = [py "Column 1"; py "Column 2"; py "Column 3"; py "Column 4";
        py "Column 5"]
  /\ map (fun a => (title a, content a))
         (NewsTtsApp.get_daily_sabah_columns w2)
     = [(py "Column 0", py "Content could not be extracted");
        (py "Column 1", py "One."); (py "Column 2", py "Two.");
        (py "Column 3", py "Three."); (py "Column 4", py "Four.")].
Proof. vm_compute. repeat split; reflexivity. Qed.

(** C6 (as amended).  The enhanced lister, on a listing page that is
    fetched and parsed and whose cards with title and link all carry an
    address on their link: a card with a title and a link whose content is
    accepted, with fewer than five such cards before it, has its article
    in the result, in its place among the articles of the cards before and
    after it; the author of the article is the text of the author element,
    or "Unknown" when the card has none.  In the loop over the cards, a
    card without title or without link is passed over, and so is a card
    whose content is not accepted.  The loops of the basic lister and of
    scrape_dailysabah.py pass over a card without author element. *)
Theorem card_yields_article (w : world) :
  (forall soup pre card post title_elem link_elem link,
      get w Config.NEWS_SOURCE_url = Response true (Html soup) ->
      select Config.selectors_article_cards soup = pre ++ card :: post ->
      Forall (fun c => has_address c = true) (pre ++ card :: post) ->
      List.length (collect (article_of_card w) pre) < 5 ->
      select_one Config.selectors_title card = Some title_elem ->
      select_one Config.selectors_link card = Some link_elem ->
      get_href link_elem = Some link ->
      NewsTtsAppEnhanced.accepted
        (NewsTtsAppEnhanced.get_column_content w (full_url_of link)) = true ->
      let a :=
        {| title := strip (text title_elem);
           author := match select_one Config.selectors_author card with
                     | Some author_elem => strip (text author_elem)
                     | None => py "Unknown"
                     end;
           url := full_url_of link;
           content := NewsTtsAppEnhanced.text_of
                        (NewsTtsAppEnhanced.get_column_content w
                           (full_url_of link));
           date := strftime w (py "%Y-%m-%d") |} in
      NewsTtsAppEnhanced.get_daily_sabah_columns w
      = firstn 5 (collect (article_of_card w) pre
                  ++ a :: collect (article_of_card w) post)
      /\ In a (NewsTtsAppEnhanced.get_daily_sabah_columns w))
  /\ (forall cap card,
      select_one Config.selectors_title card = None
      \/ select_one Config.selectors_link card = None ->
      forall pre post columns_data,
      NewsTtsAppEnhanced.cards_loop w cap (pre ++ card :: post) columns_data
      = NewsTtsAppEnhanced.cards_loop w cap (pre ++ post) columns_data)
  /\ (forall cap card title_elem link_elem link,
      select_one Config.selectors_title card = Some title_elem ->
      select_one Config.selectors_link card = Some link_elem ->
      get_href link_elem = Some link ->
      NewsTtsAppEnhanced.accepted
        (NewsTtsAppEnhanced.get_column_content w (full_url_of link)) = false ->
      forall pre post columns_data,
      NewsTtsAppEnhanced.cards_loop w cap (pre ++ card :: post) columns_data
      = NewsTtsAppEnhanced.cards_loop w cap (pre ++ post) columns_data)
  /\ (forall card,
      find_class (py "div") (py "author-info") card = None ->
      forall pre post columns_data,
      NewsTtsApp.cards_loop w (pre ++ card :: post) columns_data
      = NewsTtsApp.cards_loop w (pre ++ post) columns_data)
  /\ (forall card,
      find_class (py "div") (py "author-info") card = None ->
      forall pre post columns_data,
      ScrapeDailysabah.cards_loop w (pre ++ card :: post) columns_data
      = ScrapeDailysabah.cards_loop w (pre ++ post) columns_data).
Proof.
  split; [|split; [|split; [|split]]].
  - intros soup pre card post t l link G E F L Ht Hl Hh Ha a.
    assert (R : NewsTtsAppEnhanced.get_daily_sabah_columns w
                = firstn 5 (collect (article_of_card w) pre
                            ++ a :: collect (article_of_card w) post)).
    { rewrite (listing_first_five w soup G).
      - rewrite E, collect_app. cbn [collect].
        now rewrite (article_of_card_some w card t l link Ht Hl Hh Ha).
      - rewrite E. now destruct pre.
      - now rewrite E. }
    split; [exact R|]. rewrite R. now apply firstn_reaches.
  - intros cap card H. apply cards_loop_drop.
    now apply incomplete_card_step.
  - intros cap card t l link Ht Hl Hh Ha. apply cards_loop_drop.
    now apply (refused_card_step w cap card t l link).
  - apply AuthorFacts.basic_cards_loop_drop.
  - apply AuthorFacts.script_cards_loop_drop.
Qed.

(** C6, witness: the card without author line of the sample site. *)
Lemma card_yields_article_witness :
  let w := Sample.world_of Sample.no_author_site Sample.always in
  let a := {| title := py "Test Column"; author := py "Unknown";
              url := Sample.site_url (py "/columns/test");
              content := py "Hello." ++ newline ++ py "World.";
              date := py "2024-05-01" |} in
  NewsTtsAppEnhanced.get_daily_sabah_columns w = [a]
  /\ In a (NewsTtsAppEnhanced.get_daily_sabah_columns w).
Proof.
  intros w a.
  destruct (proj1 (card_yields_article w)
              (Sample.document
                 [Sample.card (py "Test Column") None
                    (Some (py "/columns/test"))])
              []
              (Sample.card (py "Test Column") None (Some (py "/columns/test")))
              []
              (Tag (py "h3") [] None [Text (py "Test Column")])
              (Tag (py "a") [py "card"] (Some (py "/columns/test"))
                 [Text (py "Read more")])
              (py "/columns/test"))
    as [R I];
    [reflexivity|reflexivity|repeat constructor|simpl; lia
    |reflexivity|reflexivity|reflexivity|reflexivity|].
  split; [exact R|exact I].
Defined.

(** C6 as stated fails: a card with title and link but no author yields no
    article in the basic lister, nor in the stand-alone script; and a card
    with title, author and link whose article cannot be reached yields none
    in the enhanced lister.  So it is not true of the enhanced lister that
    every card of the listing page with a title and a link has its article
    in the result. *)
Lemma card_with_title_and_link_without_article :
  let card := Sample.card (py "Test Column") None (Some (py "/columns/test")) in
  let w := Sample.world_of Sample.no_author_site Sample.always in
  (select_one Config.selectors_title card <> None
   /\ select_one Config.selectors_link card <> None
   /\ select_one Config.selectors_author card = None)
  /\ NewsTtsApp.get_daily_sabah_columns w = []
  /\ ScrapeDailysabah.get_daily_sabah_columns w = Returned []
  /\ NewsTtsAppEnhanced.get_daily_sabah_columns
       (Sample.world_of Sample.unreachable_site Sample.always) = []
  /\ ~ (forall w soup card title_elem,
          get w Config.NEWS_SOURCE_url = Response true (Html soup) ->
          In card (select Config.selectors_article_cards soup) ->
          select_one Config.selectors_title card = Some title_elem ->
          select_one Config.selectors_link card <> None ->
          exists a,
            In a (NewsTtsAppEnhanced.get_daily_sabah_columns w)
            /\ title a = strip (text title_elem)).
Proof.
  split; [vm_compute; repeat split; discriminate|].
  repeat (split; [reflexivity|]).
  intros H.
  destruct (H (Sample.world_of Sample.unreachable_site Sample.always)
              (Sample.document
                 [Sample.card (py "Test Column") (Some (py "J. Doe"))
                    (Some (py "/columns/gone"))])
              (Sample.card (py "Test Column") (Some (py "J. Doe"))
                 (Some (py "/columns/gone")))
              (Tag (py "h3") [] None [Text (py "Test Column")])
              eq_refl (or_introl eq_refl) eq_refl)
    as [a [Hin _]].
  - vm_compute. discriminate.
  - vm_compute in Hin. exact Hin.
Qed.

(** C7 (as amended): when the listing page cannot be fetched or parsed,
    the enhanced lister returns the empty list; when the page of one
    article cannot be fetched or parsed, the loop (over the cards, or over
    the anchors of the fallback path) goes on exactly as if that card or
    anchor were not there.  The scraper of riktpunkt.nu does the same in
    its loop over the article addresses, and returns the empty list when
    the request for its main page fails; when the parser rejects the
    markup of the main page, the exception leaves [scrape_news]. *)
Theorem listing_failures (w : world) :
  (forall e,
      NewsTtsAppEnhanced.fetch w Config.NEWS_SOURCE_url = Raised e ->
      NewsTtsAppEnhanced.get_daily_sabah_columns w = [])
  /\ (forall cap card title_elem link_elem link e pre post columns_data,
      select_one Config.selectors_title card = Some title_elem ->
      select_one Config.selectors_link card = Some link_elem ->
      get_href link_elem = Some link ->
      NewsTtsAppEnhanced.fetch w (full_url_of link) = Raised e ->
      NewsTtsAppEnhanced.cards_loop w cap (pre ++ card :: post) columns_data
      = NewsTtsAppEnhanced.cards_loop w cap (pre ++ post) columns_data)
  /\ (forall cap link anchor_text href e pre post columns_data,
      candidate link = Some (anchor_text, href) ->
      NewsTtsAppEnhanced.fetch w (full_url_of href) = Raised e ->
      NewsTtsAppEnhanced.links_loop w cap (pre ++ link :: post) columns_data
      = NewsTtsAppEnhanced.links_loop w cap (pre ++ post) columns_data)
  /\ (forall (article_data : Type)
             (extract_article_content :
                node -> str -> outcome (option article_data))
             url e pre post news_articles,
      NewsTtsAppEnhanced.fetch w url = Raised e ->
      ScrapeRiktpunkt.articles_loop extract_article_content w
        (pre ++ url :: post) news_articles
      = ScrapeRiktpunkt.articles_loop extract_article_content w
          (pre ++ post) news_articles)
  /\ (forall (article_data : Type)
             (extract_article_content :
                node -> str -> outcome (option article_data))
             (save_results : list article_data -> outcome unit),
      (NewsTtsAppEnhanced.fetch w ScrapeRiktpunkt.base_url
       = Raised RequestException ->
       ScrapeRiktpunkt.scrape_news extract_article_content save_results w
       = Returned [])
      /\ (NewsTtsAppEnhanced.fetch w ScrapeRiktpunkt.base_url
          = Raised ParserRejectedMarkup ->
          ScrapeRiktpunkt.scrape_news extract_article_content save_results w
          = Raised ParserRejectedMarkup)).
Proof.
  split; [|split; [|split; [|split]]].
  - intros e H. unfold NewsTtsAppEnhanced.get_daily_sabah_columns,
      NewsTtsAppEnhanced.listing_body. now rewrite H.
  - intros cap card t l link e pre post acc Ht Hl Hh Hf.
    apply cards_loop_drop.
    exact (failed_fetch_card_step w cap card t l link e Ht Hl Hh Hf).
  - intros cap link t h e pre post acc Hc Hf.
    apply links_loop_drop.
    exact (failed_fetch_link_step w cap link t h e Hc Hf).
  - intros A extract url e pre post acc Hf.
    apply RiktpunktFacts.articles_loop_skips with (e := e).
    now rewrite Hf.
  - intros A extract save.
    exact (RiktpunktFacts.scrape_news_main_page A extract save w).
Qed.

(** C7, witness: a site that cannot be reached at all, for the lister and
    for the scraper, and the site whose first article cannot be reached. *)
Lemma listing_failures_witness :
  NewsTtsAppEnhanced.get_daily_sabah_columns
    (Sample.world_of [] Sample.always) = []
  /\ (let w := Sample.world_of Sample.gone_first_site Sample.always in
      NewsTtsAppEnhanced.cards_loop w 5 (Sample.card0 :: Sample.six_cards) []
      = NewsTtsAppEnhanced.cards_loop w 5 Sample.six_cards [])
  /\ RiktpunktArticle.scrape (Sample.world_of [] Sample.always)
       (py "2024-05-01T09:00:00")
     = Returned [].
Proof.
  split; [|split].
  - exact (proj1 (listing_failures (Sample.world_of [] Sample.always))
             RequestException eq_refl).
  - intros w.
    exact (proj1 (proj2 (listing_failures w)) 5%Z Sample.card0
             (Tag (py "h3") [] None [Text (py "Column 0")])
             (Tag (py "a") [py "card"] (Some (py "/columns/0"))
                [Text (py "Read more")])
             (py "/columns/0") RequestException [] Sample.six_cards []
             eq_refl eq_refl eq_refl eq_refl).
  - exact (proj1 (proj2 (proj2 (proj2 (proj2
             (listing_failures (Sample.world_of [] Sample.always)))))
             _ _ _) eq_refl).
Defined.

(** C7 as stated fails for the scraper of riktpunkt.nu: its main page is
    fetched, but the parser rejects the markup; the handler of the outer
    [try] catches request errors only, so [scrape_news] raises instead of
    returning the empty list. *)
Lemma main_page_rejected :
  let w := Sample.world_of
             [(ScrapeRiktpunkt.base_url, Response true Rejected)]
             Sample.always in
  NewsTtsAppEnhanced.fetch w ScrapeRiktpunkt.base_url
  = Raised ParserRejectedMarkup
  /\ RiktpunktArticle.scrape w (py "2024-05-01T09:00:00")
     = Raised ParserRejectedMarkup
  /\ ~ (forall w now e,
          NewsTtsAppEnhanced.fetch w ScrapeRiktpunkt.base_url = Raised e ->
          RiktpunktArticle.scrape w now = Returned []).
Proof.
  intros w. split; [reflexivity|]. split; [reflexivity|].
  intros H.
  specialize (H w (py "2024-05-01T09:00:00") ParserRejectedMarkup eq_refl).
  discriminate H.
Qed.



(* ================================================================== *)
(** * The run *)
(* ================================================================== *)

Module RunFacts.
Import RunNotions.

Lemma trace_bind {A B} (m : M A) (k : A -> M B) :
  trace (bindM m k) = trace m ++ trace (k (value m)).
Proof.
  unfold bindM, trace, value. destruct m as [a t1]. simpl.
  now destruct (k a).
Qed.

Lemma value_bind {A B} (m : M A) (k : A -> M B) :
  value (bindM m k) = value (k (value m)).
Proof.
  unfold bindM, value. destruct m as [a t1]. simpl. now destruct (k a).
Qed.

Lemma speech_calls_app (a b : list event) :
  speech_calls (a ++ b) = speech_calls a ++ speech_calls b.
Proof.
  induction a as [|e a IH]; [reflexivity|].
  destruct e; simpl; rewrite IH; reflexivity.
Qed.

Lemma audio_files_app (a b : list event) :
  audio_files (a ++ b) = audio_files a ++ audio_files b.
Proof.
  induction a as [|e a IH]; [reflexivity|].
  destruct e; simpl; rewrite IH; reflexivity.
Qed.

Lemma error_lines_app (a b : list event) :
  error_lines (a ++ b) = error_lines a ++ error_lines b.
Proof.
  induction a as [|e a IH]; [reflexivity|].
  destruct e; simpl; rewrite IH; reflexivity.
Qed.

Lemma listing_calls_app (a b : list event) :
  listing_calls (a ++ b) = listing_calls a + listing_calls b.
Proof.
  induction a as [|e a IH]; [reflexivity|].
  destruct e; simpl; rewrite IH; reflexivity.
Qed.

Create Rewrite HintDb trace.

#[export] Hint Rewrite speech_calls_app audio_files_app error_lines_app
  listing_calls_app : trace.

(** One call of the speech client of the enhanced application. *)
Lemma enhanced_tts (w : world) (text filename : str) :
  Enhanced.text_to_speech w text filename
  = if speech w text filename
    then (Some (path_join Config.FILE_CONFIG_output_directory filename),
          [Speech text filename;
           Audio (path_join Config.FILE_CONFIG_output_directory filename)])
    else (None, [Speech text filename; SpeechError filename]).
Proof.
  unfold Enhanced.text_to_speech. now destruct (speech w text filename).
Qed.

(** The loop over the columns, as a whole. *)
Lemma columns_loop_eq (w : world) (columns : list article) :
  forall i processed_files,
  Enhanced.columns_loop w i columns processed_files
  = (processed_files
     ++ map (fun ic => Enhanced.produced w (snd ic) (audio_path_of w ic))
          (filter (succeeds w) (numbered i columns)),
     flat_map (column_events w) (numbered i columns)).
Proof.
  induction columns as [|column columns IH]; intros i acc.
  - simpl. unfold ret. now rewrite app_nil_r.
  - simpl Enhanced.columns_loop.
    change (Enhanced.text_to_speech w (content column)
              (Enhanced.create_safe_filename w (title column) i
                 (strftime w (py "%Y%m%d"))))
      with (Enhanced.text_to_speech w (fst (request w (i, column)))
              (snd (request w (i, column)))).
    rewrite enhanced_tts.
    change (speech w (fst (request w (i, column)))
              (snd (request w (i, column))))
      with (succeeds w (i, column)).
    change (numbered i (column :: columns))
      with ((i, column) :: numbered (S i) columns).
    cbn [flat_map filter]. unfold column_events at 1.
    destruct (succeeds w (i, column)).
    + unfold bindM, tell, ret. rewrite IH. cbn [map snd].
      rewrite <- app_assoc. reflexivity.
    + unfold bindM, tell, ret. rewrite IH. reflexivity.
Qed.

Lemma column_events_speech (w : world) (work : list (nat * article)) :
  speech_calls (flat_map (column_events w) work) = map (request w) work.
Proof.
  induction work as [|ic work IH]; [reflexivity|].
  simpl. rewrite speech_calls_app, IH. unfold column_events.
  destruct (request w ic) as [t f] eqn:R.
  destruct (succeeds w ic); reflexivity.
Qed.

Lemma column_events_audio (w : world) (work : list (nat * article)) :
  audio_files (flat_map (column_events w) work)
  = map (audio_path_of w) (filter (succeeds w) work).
Proof.
  induction work as [|ic work IH]; [reflexivity|].
  simpl. rewrite audio_files_app, IH. unfold column_events.
  destruct (succeeds w ic); reflexivity.
Qed.

Lemma column_events_errors (w : world) (work : list (nat * article)) :
  error_lines (flat_map (column_events w) work)
  = map failure_line (filter (fun ic => negb (succeeds w ic)) work).
Proof.
  induction work as [|ic work IH]; [reflexivity|].
  simpl. rewrite error_lines_app, IH. unfold column_events.
  destruct (succeeds w ic); reflexivity.
Qed.

Lemma column_events_listing (w : world) (work : list (nat * article)) :
  listing_calls (flat_map (column_events w) work) = 0.
Proof.
  induction work as [|ic work IH]; [reflexivity|].
  simpl. rewrite listing_calls_app, IH. unfold column_events.
  destruct (succeeds w ic); reflexivity.
Qed.

Lemma elevenlabs_tts (w : world) (text output_file : str) :
  Elevenlabs.text_to_speech w text output_file
  = (answered w (text, output_file), request_events w (text, output_file)).
Proof.
  unfold Elevenlabs.text_to_speech, Elevenlabs.makedirs, request_events,
    answered, folder_ok.
  cbn [fst snd].
  destruct (speech w text output_file && truthy output_file);
    [|reflexivity].
  destruct (truthy (dirname output_file) && writable w (dirname output_file));
    [|reflexivity].
  now destruct (writable w output_file).
Qed.

Lemma makedirs_ok (w : world) (folder : str) :
  folder_ok w folder = true -> Elevenlabs.makedirs w folder = Returned tt.
Proof.
  unfold Elevenlabs.makedirs, folder_ok. now intros ->.
Qed.

Lemma makedirs_fails (w : world) (folder : str) :
  folder_ok w folder = false -> Elevenlabs.makedirs w folder = Raised OSError.
Proof.
  unfold Elevenlabs.makedirs, folder_ok. now intros ->.
Qed.


Lemma part_requests_cons (output_folder file_stem : str) (i : nat)
    (part : str) (parts : list str) :
  part_requests output_folder file_stem i (part :: parts)
  = (part,
     path_join output_folder
       (file_stem ++ py "_part" ++ decimal02 (i + 1) ++ py ".mp3"))
    :: part_requests output_folder file_stem (S i) parts.
Proof. reflexivity. Qed.

Lemma parts_loop_eq (w : world) (output_folder file_stem : str)
    (parts : list str) :
  forall i successful failed,
  Elevenlabs.parts_loop w output_folder file_stem i parts successful failed
  = ((successful
      + List.length (filter (answered w)
                       (part_requests output_folder file_stem i parts)),
      failed
      + List.length (filter (fun r => negb (answered w r))
                       (part_requests output_folder file_stem i parts))),
     flat_map (request_events w)
       (part_requests output_folder file_stem i parts)).
Proof.
  induction parts as [|part parts IH]; intros i s f.
  - simpl. unfold ret. now rewrite !Nat.add_0_r.
  - cbn [Elevenlabs.parts_loop]. cbv zeta. rewrite elevenlabs_tts.
    rewrite part_requests_cons. cbn [filter flat_map]. unfold bindM.
    destruct (answered w _); cbn [negb]; rewrite IH; cbn [List.length];
      (apply f_equal2; [apply f_equal2; lia|reflexivity]).
Qed.

Lemma file_requests_eq (output_folder : str) (max_length : Z)
    (f : Elevenlabs.text_file) :
  file_requests output_folder max_length f
  = match Elevenlabs.read f with
    | None => []
    | Some raw =>
        if negb (truthy (strip raw)) then []
        else if (len (strip raw) >? max_length)%Z then
          part_requests output_folder (Elevenlabs.stem f) 0
            (ElevenlabsTts.split_text (strip raw) max_length)
        else [(strip raw,
               path_join output_folder (Elevenlabs.stem f ++ py ".mp3"))]
    end.
Proof. reflexivity. Qed.

Lemma files_loop_eq (w : world) (output_folder : str) (max_length : Z)
    (text_files : list Elevenlabs.text_file) :
  forall successful failed,
  Elevenlabs.files_loop w output_folder max_length text_files
    successful failed
  = ((successful
      + List.length
          (filter (answered w)
             (flat_map (file_requests output_folder max_length) text_files)),
      failed
      + List.length
          (filter (fun r => negb (answered w r))
             (flat_map (file_requests output_folder max_length) text_files))
      + List.length (filter unusable text_files)),
     flat_map (request_events w)
       (flat_map (file_requests output_folder max_length) text_files)).
Proof.
  induction text_files as [|file files IH]; intros s f.
  - simpl. unfold ret. now rewrite !Nat.add_0_r.
  - cbn [Elevenlabs.files_loop flat_map filter]. cbv zeta.
    rewrite file_requests_eq. unfold unusable at 1.
    destruct (Elevenlabs.read file) as [raw|].
    + destruct (truthy (strip raw)); cbn [negb].
      * destruct (len (strip raw) >? max_length)%Z.
        -- rewrite parts_loop_eq. unfold bindM. cbn [fst snd].
           rewrite IH. rewrite !filter_app, !length_app, flat_map_app.
           apply f_equal2; [apply f_equal2; lia|reflexivity].
        -- rewrite elevenlabs_tts. unfold bindM.
           cbn [app filter flat_map].
           destruct (answered w _); cbn [negb]; rewrite IH;
             cbn [List.length app];
             (apply f_equal2; [apply f_equal2; lia|reflexivity]).
      * rewrite IH. cbn [app List.length].
        apply f_equal2; [apply f_equal2; lia|reflexivity].
    + rewrite IH. cbn [app List.length].
      apply f_equal2; [apply f_equal2; lia|reflexivity].
Qed.

(** The run of the ElevenLabs script, with its folder and without. *)
Lemma process_news_articles_eq (w : world)
    (text_files : list Elevenlabs.text_file) (output_folder : str)
    (max_length : Z) :
  Elevenlabs.process_news_articles w (Some text_files) output_folder
    max_length
  = if folder_ok w output_folder then
      let requests :=
        flat_map (file_requests output_folder max_length) text_files in
      (Returned
         (List.length (filter (answered w) requests),
          List.length (filter (fun r => negb (answered w r)) requests)
          + List.length (filter unusable text_files)),
       flat_map (request_events w) requests)
    else (Raised OSError, []).
Proof.
  unfold Elevenlabs.process_news_articles.
  destruct (folder_ok w output_folder) eqn:F.
  - rewrite (makedirs_ok _ _ F).
    destruct text_files as [|f files]; [reflexivity|].
    rewrite files_loop_eq. cbv zeta. unfold bindM, ret.
    now rewrite app_nil_r.
  - now rewrite (makedirs_fails _ _ F).
Qed.

Lemma request_events_speech (w : world) (requests : list (str * str)) :
  speech_calls (flat_map (request_events w) requests) = requests.
Proof.
  induction requests as [|[t f] requests IH]; [reflexivity|].
  simpl. rewrite speech_calls_app, IH. unfold request_events.
  destruct (answered w (t, f)); reflexivity.
Qed.

Lemma request_events_audio (w : world) (requests : list (str * str)) :
  audio_files (flat_map (request_events w) requests)
  = map snd (filter (answered w) requests).
Proof.
  induction requests as [|[t f] requests IH]; [reflexivity|].
  simpl. rewrite audio_files_app, IH. unfold request_events.
  destruct (answered w (t, f)); reflexivity.
Qed.

End RunFacts.

Import RunNotions RunFacts.

(** C8: when the listing step yields no article, the run makes exactly one
    request to the speech service, for the fixed demonstration text; it
    writes at most one audio file; and the listing step is run once, not
    again.  This holds of the enhanced application and of the basic one. *)
Theorem demo_exactly_once (w : world) :
  (NewsTtsAppEnhanced.get_daily_sabah_columns w = [] ->
   let run := Enhanced.process_daily_columns w in
   let filename := py "turkish_demo_" ++ strftime w (py "%Y%m%d_%H%M%S")
                   ++ py ".wav" in
   speech_calls (trace run) = [(Enhanced.turkish_text, filename)]
   /\ listing_calls (trace run) = 1
   /\ List.length (audio_files (trace run)) <= 1
   /\ value run
      = if speech w Enhanced.turkish_text filename
        then [Demo (path_join (py "audio_files") filename)]
        else [])
  /\ (NewsTtsApp.get_daily_sabah_columns w = [] ->
      let run := Basic.process_daily_columns w in
      speech_calls (trace run)
      = [(Basic.turkish_text, py "turkish_demo.wav")]
      /\ listing_calls (trace run) = 1
      /\ List.length (audio_files (trace run)) <= 1
      /\ value run
         = Returned
             (Basic.DemoPath
                (if speech w Basic.turkish_text (py "turkish_demo.wav")
                 then Some (path_join (py "audio_files")
                              (py "turkish_demo.wav"))
                 else None))).
Proof.
  split.
  - intros H run filename. unfold run, Enhanced.process_daily_columns.
    rewrite H. unfold Enhanced.demo_turkish_tts.
    change (py "turkish_demo_" ++ strftime w (py "%Y%m%d_%H%M%S") ++ py "."
            ++ Config.TTS_CONFIG_output_format) with filename.
    rewrite enhanced_tts.
    destruct (speech w Enhanced.turkish_text filename); simpl;
      repeat split; auto.
  - intros H run. unfold run, Basic.process_daily_columns.
    rewrite H. unfold Basic.demo_turkish_tts, Basic.text_to_speech.
    destruct (speech w Basic.turkish_text (py "turkish_demo.wav")); simpl;
      repeat split; auto.
Qed.

(** C8, witness: a site that cannot be reached. *)
Lemma demo_exactly_once_witness :
  let w := Sample.world_of [] Sample.always in
  speech_calls (trace (Enhanced.process_daily_columns w))
  = [(Enhanced.turkish_text, py "turkish_demo_20240501_090000.wav")]
  /\ listing_calls (trace (Enhanced.process_daily_columns w)) = 1
  /\ speech_calls (trace (Basic.process_daily_columns w))
     = [(Basic.turkish_text, py "turkish_demo.wav")]
  /\ listing_calls (trace (Basic.process_daily_columns w)) = 1.
Proof.
  intros w.
  destruct (demo_exactly_once w) as [E B].
  destruct (E eq_refl) as [E1 [E2 _]]. destruct (B eq_refl) as [B1 [B2 _]].
  repeat split; assumption.
Defined.

(** C9: a failed synthesis is recorded and the run goes on.  In the enhanced
    application every listed column gets its request to the speech service,
    whatever became of the requests before it; the records returned and the
    audio files written are those of all the requests that succeed, in
    order; and each failure leaves its error line.  In the ElevenLabs
    script, once the output folder is there (it is made first, outside
    every [try]), every part of every usable file gets its request, the
    audio files are those of the requests that are answered and whose file
    can be written, and the two counters add up to all the requests and
    unusable files.  When the output folder cannot be made, which is no
    failure of a synthesis, the run raises before any request. *)
Theorem synthesis_failure_is_skipped (w : world) :
  (forall columns,
      NewsTtsAppEnhanced.get_daily_sabah_columns w = columns ->
      columns <> [] ->
      let work := numbered 1 columns in
      let run := Enhanced.process_daily_columns w in
      speech_calls (trace run) = map (request w) work
      /\ value run
         = map (fun ic => Enhanced.produced w (snd ic) (audio_path_of w ic))
             (filter (succeeds w) work)
      /\ audio_files (trace run)
         = map (audio_path_of w) (filter (succeeds w) work)
      /\ error_lines (trace run)
         = map failure_line (filter (fun ic => negb (succeeds w ic)) work))
  /\ (forall text_files output_folder max_length,
      let requests :=
        flat_map (file_requests output_folder max_length) text_files in
      let run :=
        Elevenlabs.process_news_articles w (Some text_files) output_folder
          max_length in
      (folder_ok w output_folder = true ->
       speech_calls (trace run) = requests
       /\ audio_files (trace run) = map snd (filter (answered w) requests)
       /\ value run
          = Returned
              (List.length (filter (answered w) requests),
               List.length (filter (fun r => negb (answered w r)) requests)
               + List.length (filter unusable text_files)))
      /\ (folder_ok w output_folder = false ->
          trace run = [] /\ value run = Raised OSError)).
Proof.
  split.
  - intros columns H NE work run. unfold run, Enhanced.process_daily_columns.
    rewrite H. destruct columns as [|c columns]; [now elim NE|].
    rewrite columns_loop_eq. fold work. clearbody work.
    unfold bindM, tell, ret, trace, value. cbn [fst snd app].
    cbn [speech_calls audio_files error_lines].
    autorewrite with trace.
    rewrite column_events_speech, column_events_audio, column_events_errors.
    destruct (writable w _); cbn [speech_calls audio_files error_lines];
      rewrite !app_nil_r; auto.
  - intros files out max requests run.
    unfold run. rewrite process_news_articles_eq. fold requests.
    split; intros F; rewrite F; unfold trace, value; cbn [fst snd].
    + cbv zeta. rewrite request_events_speech, request_events_audio. auto.
    + auto.
Qed.

(** C9, witness: three articles; the request for the second one fails, the
    first and the third audio files are written all the same.  Three text
    files for the ElevenLabs script, the same request failing: two audio
    files and the counters 2 and 1; without a name for the output folder
    the script raises and asks for nothing. *)
Lemma synthesis_failure_is_skipped_witness :
  let w := Sample.world_of Sample.three_site Sample.fails_on_two in
  let files :=
    [ {| Elevenlabs.stem := py "a"; Elevenlabs.read := Some (py "One.") |};
      {| Elevenlabs.stem := py "b"; Elevenlabs.read := Some (py "Two.") |};
      {| Elevenlabs.stem := py "c"; Elevenlabs.read := Some (py "Three.") |} ]
  in
  let run :=
    Elevenlabs.process_news_articles w (Some files) (py "audio_news") 5000 in
  let stopped := Elevenlabs.process_news_articles w (Some files) [] 5000 in
  (audio_files (trace (Enhanced.process_daily_columns w))
   = [py "audio_files/20240501_1_Column_1.wav";
      py "audio_files/20240501_3_Column_3.wav"]
   /\ error_lines (trace (Enhanced.process_daily_columns w))
      = [py "✗ Failed to generate audio for: Column 2"])
  /\ (speech_calls (trace run)
      = [(py "One.", py "audio_news/a.mp3");
         (py "Two.", py "audio_news/b.mp3");
         (py "Three.", py "audio_news/c.mp3")]
      /\ audio_files (trace run)
         = [py "audio_news/a.mp3"; py "audio_news/c.mp3"]
      /\ value run = Returned (2, 1))
  /\ (trace stopped = [] /\ value stopped = Raised OSError).
Proof.
  intros w files run stopped.
  destruct (synthesis_failure_is_skipped w) as [App Script].
  split; [|split].
  - destruct (App (NewsTtsAppEnhanced.get_daily_sabah_columns w) eq_refl)
      as [_ [_ [A E]]].
    + vm_compute. discriminate.
    + split; [exact A|exact E].
  - exact (proj1 (Script files (py "audio_news") 5000%Z) eq_refl).
  - exact (proj2 (Script files [] 5000%Z) eq_refl).
Defined.

(* ================================================================== *)
(** * The scenario of the specification, run *)
(* ================================================================== *)

(** One card ("Test Column", "J. Doe", /columns/test) whose page holds the
    paragraphs "Hello." and "World.": the lister yields one article, the run
    writes one audio file and returns one record. *)
Example scenario_one_card :
  let w := Sample.world_of Sample.one_card_site Sample.always in
  NewsTtsAppEnhanced.get_daily_sabah_columns w
  = [ {| title := py "Test Column"; author := py "J. Doe";
         url := py "https://www.dailysabah.com/columns/test";
         content := py "Hello." ++ newline ++ py "World.";
         date := py "2024-05-01" |} ]
  /\ audio_files (trace (Enhanced.process_daily_columns w))
     = [py "audio_files/20240501_1_Test_Column.wav"]
  /\ value (Enhanced.process_daily_columns w)
     = [Produced (py "Test Column") (py "J. Doe")
          (py "audio_files/20240501_1_Test_Column.wav")
          (py "https://www.dailysabah.com/columns/test")
          (py "2024-05-01") 5].
Proof. vm_compute. repeat split; reflexivity. Qed.

(** The chunker on the content of that article: one chunk, its two
    sentences joined by a full stop and a space. *)
Example scenario_chunk :
  split_text (py "Hello." ++ newline ++ py "World.") 1000
  = [py "Hello. World."].
Proof. reflexivity. Qed.

(* ================================================================== *)
(** * Further properties: the chunker *)
(* ================================================================== *)

Module ChunkerMore.
Import Re PyNotions ReNotions ChunkerNotions GreedyNotions.
Import PyFacts ChunkerFacts.

(** The chunks are the groups the loop closes and the one it is left
    with. *)
Lemma split_text_group_loop (text : str) (max_length : Z) :
  split_text text max_length
  = let '(G, c) := group_loop max_length (sentences_of text) [] [] in
    map J (G ++ match c with [] => [] | _ :: _ => [c] end).
Proof.
  unfold split_text, sentences_of.
  pose proof (@split_loop_groups max_length (split text) [] [] (Forall_nil _))
    as L.
  simpl map in L at 1. change (J []) with (@nil char) in L at 1. rewrite L.
  destruct (group_loop max_length (filter truthy (map strip (split text)))
              [] []) as [G c] eqn:E.
  pose proof (sentences_clean (split text)) as Fs.
  destruct (group_loop_spec _ _ _ _ E) as [E1 _]. simpl in E1.
  assert (Fc : Forall clean c).
  { rewrite <- E1 in Fs. now apply Forall_app in Fs. }
  rewrite (J_strip Fc), (J_truthy Fc).
  destruct c; [now rewrite app_nil_r|now rewrite map_app].
Qed.

Lemma sentences_nonempty (text : str) :
  Forall (fun s => s <> []) (sentences_of text).
Proof.
  eapply Forall_impl; [|exact (sentences_clean (split text))].
  intros s [H _]. now apply starts_ok_nonempty.
Qed.

Lemma len_pos (s : str) : s <> [] -> (1 <= len s)%Z.
Proof. destruct s; [congruence|]. unfold len. simpl List.length. lia. Qed.

Lemma greedy_cons2 (max_length : Z) (a b : list str) (l : list (list str)) :
  greedy max_length (a :: b :: l)
  = ((len (J a) + len (hd [] b) + 2 > max_length)%Z
     /\ greedy max_length (b :: l)).
Proof. reflexivity. Qed.

Lemma greedy_last (max_length : Z) (l : list (list str)) (g g' : list str) :
  hd [] g = hd [] g' ->
  greedy max_length (l ++ [g]) -> greedy max_length (l ++ [g']).
Proof.
  intros H. induction l as [|a l IH]; [simpl; auto|].
  destruct l as [|b l].
  - simpl app. rewrite !greedy_cons2, H. auto.
  - simpl app in *. rewrite !greedy_cons2. intros [H1 H2].
    split; [exact H1|apply IH, H2].
Qed.

Lemma greedy_snoc (max_length : Z) (l : list (list str)) (g h : list str) :
  (len (J g) + len (hd [] h) + 2 > max_length)%Z ->
  greedy max_length (l ++ [g]) -> greedy max_length ((l ++ [g]) ++ [h]).
Proof.
  intros C. induction l as [|a l IH].
  - simpl app. rewrite greedy_cons2. auto.
  - destruct l as [|b l].
    + simpl app. rewrite !greedy_cons2. intros [H1 _].
      split; [exact H1|split; [exact C|exact I]].
    + simpl app in *. rewrite !greedy_cons2. intros [H1 H2].
      split; [exact H1|apply IH, H2].
Qed.

(** The loop keeps its groups greedy. *)
Lemma group_loop_greedy (max_length : Z) (sents : list str) :
  forall groups cur G c,
  group_loop max_length sents groups cur = (G, c) ->
  (cur = [] -> groups = []) ->
  Forall (fun g => g <> []) groups ->
  greedy max_length (groups ++ [cur]) ->
  (c = [] -> G = [])
  /\ Forall (fun g => g <> []) G
  /\ greedy max_length (G ++ [c]).
Proof.
  induction sents as [|s sents IH]; intros groups cur G c E Hc Fg Gr.
  - simpl in E. injection E as <- <-. auto.
  - simpl in E.
    destruct ((len (J cur) + len s + 2 >? max_length)%Z
              && match cur with [] => false | _ :: _ => true end) eqn:C.
    + apply IH in E; [exact E|discriminate| |].
      * apply Forall_app. split; [exact Fg|].
        constructor; [|constructor]. intros ->.
        now rewrite andb_false_r in C.
      * apply greedy_snoc; [|exact Gr]. simpl hd.
        apply andb_true_iff in C as [C _]. apply Z.gtb_lt in C. lia.
    + apply IH in E; [exact E| |exact Fg|].
      * destruct cur; discriminate.
      * destruct cur as [|a cur].
        -- rewrite (Hc eq_refl). exact I.
        -- apply (greedy_last max_length groups (a :: cur));
             [reflexivity|exact Gr].
Qed.

(** With a bound of three or less no two sentences share a chunk. *)
Lemma group_loop_single (max_length : Z) (sents : list str) :
  (max_length <= 3)%Z ->
  Forall (fun s => s <> []) sents ->
  forall groups x G c, x <> [] ->
  group_loop max_length sents groups [x] = (G, c) ->
  exists y, c = [y]
            /\ G ++ [[y]] = groups ++ map (fun s => [s]) (x :: sents).
Proof.
  intros M F. induction F as [|s sents Hs _ IH]; intros groups x G c Hx E.
  - simpl in E. injection E as <- <-. exists x. auto.
  - simpl in E.
    assert (C : ((len (J [x]) + len s + 2 >? max_length)%Z && true) = true).
    { rewrite andb_true_r. apply Z.gtb_lt. change (J [x]) with x.
      pose proof (len_pos _ Hx). pose proof (len_pos _ Hs). lia. }
    rewrite C in E. apply IH in E as [y [-> E]]; [|exact Hs].
    exists y. split; [reflexivity|]. rewrite E, <- app_assoc. reflexivity.
Qed.

End ChunkerMore.

Import GreedyNotions ChunkerMore.

(** X1: the chunker is greedy.  The chunks are the sentences of the text,
    in order, divided into non-empty groups and joined by a full stop and a
    space, and a chunk is closed only when the next sentence would not fit:
    the length of a chunk, plus two for the separator, plus the length of
    the first sentence of the chunk after it, is more than [max_length]. *)
Theorem split_text_greedy (text : str) (max_length : Z) :
  exists groups : list (list str),
    split_text text max_length = map (join (py ". ")) groups
    /\ List.concat groups = sentences_of text
    /\ Forall (fun g => g <> []) groups
    /\ greedy max_length groups.
Proof.
  rewrite split_text_group_loop.
  destruct (group_loop max_length (sentences_of text) [] []) as [G c] eqn:E.
  destruct (group_loop_spec _ _ _ _ E) as [E1 _]. simpl in E1.
  destruct (group_loop_greedy max_length _ _ _ _ _ E) as [H0 [F Gr]];
    [reflexivity|constructor|exact I|].
  exists (G ++ match c with [] => [] | _ :: _ => [c] end).
  split; [reflexivity|]. destruct c as [|a c].
  - rewrite (H0 eq_refl). rewrite <- E1, (H0 eq_refl). simpl. auto.
  - split; [|split].
    + rewrite concat_app. simpl. now rewrite app_nil_r.
    + apply Forall_app. split; [exact F|]. constructor; [discriminate|constructor].
    + exact Gr.
Qed.

(** X2: with a bound of three characters or less (zero and negative bounds
    included) no two sentences fit one chunk, and the chunks are the
    sentences themselves, one each. *)
Theorem split_text_small_bound (text : str) (max_length : Z) :
  (max_length <= 3)%Z ->
  split_text text max_length = sentences_of text.
Proof.
  intros M. rewrite split_text_group_loop.
  pose proof (sentences_nonempty text) as F.
  destruct (sentences_of text) as [|s sents]; [reflexivity|].
  inversion F as [|? ? Hs Fs]; subst.
  simpl group_loop. rewrite andb_false_r. simpl app.
  destruct (group_loop max_length sents [] [s]) as [G c] eqn:E.
  apply (group_loop_single max_length sents M Fs) in E as [y [-> E]]; [|exact Hs].
  rewrite E, app_nil_l, map_map. exact (map_id (s :: sents)).
Qed.

Lemma split_text_small_bound_witness :
  split_text (py "One. Two! Three.") 3 = [py "One"; py "Two"; py "Three."].
Proof.
  apply (split_text_small_bound (py "One. Two! Three.") 3). lia.
Defined.

(** X3: a text whose sentences, joined by a full stop and a space, are
    within the bound comes back as one chunk: those sentences joined. *)
Theorem split_text_fits (text : str) (max_length : Z) :
  sentences_of text <> [] ->
  (len (join (py ". ") (sentences_of text)) <= max_length)%Z ->
  split_text text max_length = [join (py ". ") (sentences_of text)].
Proof.
  intros NE L. rewrite split_text_group_loop.
  rewrite group_loop_one by (split; [exact NE|now left]).
  destruct (sentences_of text); [now elim NE|reflexivity].
Qed.

Lemma split_text_fits_witness :
  split_text (py "One. Two! Three.") 16 = [py "One. Two. Three."].
Proof.
  apply (split_text_fits (py "One. Two! Three.") 16).
  - discriminate.
  - vm_compute. discriminate.
Defined.

(* ================================================================== *)
(** * Further properties: the content of an article page *)
(* ================================================================== *)

Module ExtractMore.
Import PyNotions ChunkerNotions PyFacts ChunkerFacts ExtractFacts.

Lemma join_clean (sep : str) (parts : list str) :
  Forall clean parts -> parts <> [] -> clean (join sep parts).
Proof.
  induction parts as [|a parts IH]; intros F NE; [now elim NE|].
  inversion F as [|? ? [Ha1 Ha2] Fp]; subst.
  destruct parts as [|b parts]; [split; assumption|].
  change (join sep (a :: b :: parts)) with (a ++ sep ++ join sep (b :: parts)).
  destruct IH as [I1 I2]; [exact Fp|discriminate|]. split.
  - now apply starts_ok_app.
  - apply ends_ok_app. now apply ends_ok_app.
Qed.

Lemma paragraphs_text_clean (content_div : node) :
  paragraphs_text content_div = [] \/ clean (paragraphs_text content_div).
Proof.
  unfold paragraphs_text.
  set (parts := filter truthy
                  (map (fun p => strip (text p))
                     (find_all (py "p") content_div))).
  assert (F : Forall clean parts).
  { apply Forall_forall. intros s Hs. apply filter_In in Hs as [Hin Ht].
    apply in_map_iff in Hin as [p [<- _]].
    apply strip_clean. now apply truthy_true. }
  clearbody parts. destruct parts as [|a rest]; [now left|right].
  apply join_clean; [exact F|discriminate].
Qed.

Lemma content_loop_clean (soup : node) (selectors : list str) :
  content_loop soup selectors = [] \/ clean (content_loop soup selectors).
Proof.
  induction selectors as [|s selectors IH]; [now left|]. simpl.
  destruct (select_one s soup) as [d|]; [apply paragraphs_text_clean|exact IH].
Qed.

Lemma extract_clean (soup : node) (selectors : list str) :
  clean (NewsTtsAppEnhanced.extract soup selectors).
Proof.
  unfold NewsTtsAppEnhanced.extract.
  destruct (content_loop_clean soup selectors) as [E|C].
  - rewrite E. simpl. split; reflexivity.
  - destruct (content_loop soup selectors) as [|c s] eqn:E; [|exact C].
    simpl. split; reflexivity.
Qed.

Lemma clean_trimmed (s : str) : clean s -> s <> [] /\ strip s = s.
Proof.
  intros [H1 H2]. split; [now apply starts_ok_nonempty|now apply strip_id].
Qed.

End ExtractMore.

Import ExtractMore.

(** X4: what [get_column_content] returns, in both applications.  It is
    [None] exactly when the request or the parse of the page fails;
    otherwise it is a text that is not empty and has no white space at
    either end. *)
Theorem get_column_content_result (w : world) (url : str) :
  (NewsTtsAppEnhanced.get_column_content w url = None
   <-> exists e, NewsTtsAppEnhanced.fetch w url = Raised e)
  /\ (NewsTtsApp.get_column_content w url = None
      <-> exists e, NewsTtsApp.fetch w url = Raised e)
  /\ (forall c,
      NewsTtsAppEnhanced.get_column_content w url = Some c
      \/ NewsTtsApp.get_column_content w url = Some c ->
      c <> [] /\ strip c = c).
Proof.
  unfold NewsTtsAppEnhanced.get_column_content, NewsTtsApp.get_column_content.
  split; [|split].
  - destruct (NewsTtsAppEnhanced.fetch w url) as [soup|e]; simpl.
    + split; [discriminate|]. intros [e E]. discriminate.
    + split; [|reflexivity]. intros _. now exists e.
  - destruct (NewsTtsApp.fetch w url) as [soup|e]; simpl.
    + split; [discriminate|]. intros [e E]. discriminate.
    + split; [|reflexivity]. intros _. now exists e.
  - intros c [H|H].
    + destruct (NewsTtsAppEnhanced.fetch w url) as [soup|e]; simpl in H;
        [|discriminate].
      injection H as <-. apply clean_trimmed, extract_clean.
    + destruct (NewsTtsApp.fetch w url) as [soup|e]; simpl in H;
        [|discriminate].
      injection H as <-. rewrite extract_same.
      apply clean_trimmed, extract_clean.
Qed.

Lemma get_column_content_result_witness :
  let w := Sample.world_of Sample.one_card_site Sample.always in
  let url := Sample.site_url (py "/columns/test") in
  let c := py "Hello." ++ newline ++ py "World." in
  NewsTtsAppEnhanced.get_column_content w url = Some c
  /\ c <> [] /\ strip c = c.
Proof.
  intros w url c. split; [reflexivity|].
  apply (proj2 (proj2 (get_column_content_result w url))).
  left. reflexivity.
Defined.

(** X5: the two applications read an article page the same way when the
    status of the response is good.  When it is not, the enhanced one
    gives [None], while the basic one, which does not look at the status,
    still extracts from the page that came with it. *)
Theorem get_column_content_status (w : world) (url : str) :
  (forall content,
      get w url = Response true content ->
      NewsTtsApp.get_column_content w url
      = NewsTtsAppEnhanced.get_column_content w url)
  /\ (forall soup,
      get w url = Response false (Html soup) ->
      NewsTtsAppEnhanced.get_column_content w url = None
      /\ NewsTtsApp.get_column_content w url
         = Some (NewsTtsApp.extract soup NewsTtsApp.content_selectors)).
Proof.
  unfold NewsTtsAppEnhanced.get_column_content, NewsTtsApp.get_column_content,
    NewsTtsAppEnhanced.fetch, NewsTtsApp.fetch.
  split.
  - intros m G. rewrite G. destruct m as [|soup]; [reflexivity|].
    simpl. now rewrite ExtractFacts.extract_same.
  - intros soup G. rewrite G. split; reflexivity.
Qed.

Lemma get_column_content_status_witness :
  let url := Sample.site_url (py "/columns/test") in
  let page := Sample.article_page [py "Hello."] in
  let w := Sample.world_of [(url, Response false (Html page))] Sample.always in
  NewsTtsAppEnhanced.get_column_content w url = None
  /\ NewsTtsApp.get_column_content w url
     = Some (NewsTtsApp.extract page NewsTtsApp.content_selectors).
Proof.
  intros url page w.
  apply (proj2 (get_column_content_status w url) page). reflexivity.
Defined.

(* ================================================================== *)
(** * Further properties: the listers *)
(* ================================================================== *)

Module ListerMore.
Import NewsTtsAppEnhanced ListerNotions ListerFacts BasicListerNotions.

Lemma full_url_http (link : str) :
  startswith (full_url_of link) (py "http") = true.
Proof.
  unfold full_url_of. destruct (startswith link (py "http")) eqn:E;
    [exact E|reflexivity].
Qed.

Lemma in_firstn {A : Type} (x : A) (n : nat) (l : list A) :
  In x (firstn n l) -> In x l.
Proof.
  revert l. induction n as [|n IH]; intros l H; [contradiction|].
  destruct l as [|y l]; [contradiction|].
  destruct H as [H|H]; [now left|right; now apply IH].
Qed.

(** The loop over the cards never returns more than the cap. *)
Lemma cards_loop_length (w : world) (cap : Z) (cards : list node) :
  forall acc l,
  (Z.of_nat (List.length acc) < cap)%Z ->
  cards_loop w cap cards acc = Returned l ->
  (Z.of_nat (List.length l) <= cap)%Z.
Proof.
  induction cards as [|card cards IH]; intros acc l Hacc H.
  - simpl in H. injection H as <-. lia.
  - rewrite cards_loop_cons in H. unfold card_step in H.
    destruct (has_address card); [|discriminate].
    destruct (article_of_card w card) as [a|]; [|now apply (IH acc)].
    unfold append_step in H.
    destruct (Z.of_nat (List.length (acc ++ [a])) >=? cap)%Z eqn:G;
      simpl in H.
    + injection H as <-. rewrite length_app in *. simpl List.length in *. lia.
    + rewrite Z.geb_leb in G. apply Z.leb_gt in G. now apply (IH (acc ++ [a])).
Qed.

(** While the cap is not reached, a run of cards with addresses adds its
    articles and the loop goes on. *)
Lemma cards_loop_prefix (w : world) (cap : Z) (pre rest : list node) :
  Forall (fun card => has_address card = true) pre ->
  forall acc,
  (Z.of_nat (List.length acc
             + List.length (collect (article_of_card w) pre)) < cap)%Z ->
  cards_loop w cap (pre ++ rest) acc
  = cards_loop w cap rest (acc ++ collect (article_of_card w) pre).
Proof.
  intros F. induction F as [|card pre Hc _ IH]; intros acc Hacc.
  - simpl. now rewrite app_nil_r.
  - simpl app. rewrite cards_loop_cons. unfold card_step. rewrite Hc.
    simpl collect in *.
    destruct (article_of_card w card) as [a|]; [|simpl; now apply IH].
    simpl List.length in Hacc. unfold append_step.
    rewrite length_app. simpl List.length.
    destruct (Z.of_nat (List.length acc + 1) >=? cap)%Z eqn:G;
      [apply Z.geb_le in G; lia|].
    simpl resume. rewrite IH by (rewrite length_app; simpl; lia).
    now rewrite <- app_assoc.
Qed.

(** Once a run of cards with addresses holds enough articles, what comes
    after it is not looked at. *)
Lemma cards_loop_enough (w : world) (cap : Z) (pre rest : list node) :
  Forall (fun card => has_address card = true) pre ->
  forall acc,
  (Z.of_nat (List.length acc) < cap)%Z ->
  (cap <= Z.of_nat (List.length acc
                    + List.length (collect (article_of_card w) pre)))%Z ->
  cards_loop w cap (pre ++ rest) acc
  = Returned (acc ++ firstn (Z.to_nat cap - List.length acc)
                       (collect (article_of_card w) pre)).
Proof.
  intros F. induction F as [|card pre Hc _ IH]; intros acc Hacc Hcap.
  - simpl in Hcap. lia.
  - simpl app. rewrite cards_loop_cons. unfold card_step. rewrite Hc.
    simpl collect in *.
    destruct (article_of_card w card) as [a|]; [|simpl; now apply IH].
    simpl List.length in Hcap. unfold append_step.
    rewrite length_app. simpl List.length.
    destruct (Z.of_nat (List.length acc + 1) >=? cap)%Z eqn:G; simpl resume.
    + apply Z.geb_le in G.
      replace (Z.to_nat cap - List.length acc) with 1 by lia. reflexivity.
    + rewrite Z.geb_leb in G. apply Z.leb_gt in G.
      rewrite IH by (rewrite ?length_app; simpl; lia).
      rewrite <- app_assoc, length_app. simpl.
      replace (Z.to_nat cap - List.length acc)
        with (S (Z.to_nat cap - (List.length acc + 1))) by lia.
      reflexivity.
Qed.

(** The selectors of config.py and the searches of the basic lister find
    the same tags. *)
Lemma select_cards (soup : node) :
  select Config.selectors_article_cards soup
  = find_all_class (py "div") (py "article-card") soup.
Proof. reflexivity. Qed.

(** One turn of the loop of the basic lister. *)
Lemma basic_cards_loop_cons (w : world) (card : node) (rest : list node)
    (acc : list article) :
  NewsTtsApp.cards_loop w (card :: rest) acc
  = if basic_has_address card
    then NewsTtsApp.cards_loop w rest
           (acc ++ match basic_article_of_card w card with
                   | Some a => [a]
                   | None => []
                   end)
    else Raised KeyError.
Proof.
  simpl NewsTtsApp.cards_loop.
  unfold basic_has_address, basic_article_of_card, complete.
  destruct (find (py "h3") card) as [t|]; [|now rewrite app_nil_r].
  destruct (find_class (py "div") (py "author-info") card) as [a|];
    [|now rewrite app_nil_r].
  destruct (find_class (py "a") (py "card") card) as [l|];
    [|now rewrite app_nil_r].
  destruct (get_href l) as [link|]; [|reflexivity].
  destruct (NewsTtsApp.accepted _); [reflexivity|now rewrite app_nil_r].
Qed.

Lemma basic_cards_loop_prefix (w : world) (pre rest : list node) :
  Forall (fun card => basic_has_address card = true) pre ->
  forall acc,
  NewsTtsApp.cards_loop w (pre ++ rest) acc
  = NewsTtsApp.cards_loop w rest (acc ++ collect (basic_article_of_card w) pre).
Proof.
  intros F. induction F as [|card pre Hc _ IH]; intros acc.
  - simpl. now rewrite app_nil_r.
  - simpl app. rewrite basic_cards_loop_cons, Hc, IH. simpl collect.
    destruct (basic_article_of_card w card); now rewrite <- app_assoc.
Qed.

Lemma basic_cards_loop_grows (w : world) (cards : list node) :
  forall acc l, NewsTtsApp.cards_loop w cards acc = Returned l ->
  exists more, l = acc ++ more
               /\ Forall (fun a => exists card,
                            basic_article_of_card w card = Some a) more.
Proof.
  induction cards as [|card cards IH]; intros acc l H.
  - simpl in H. injection H as <-. exists []. now rewrite app_nil_r.
  - rewrite basic_cards_loop_cons in H.
    destruct (basic_has_address card); [|discriminate].
    apply IH in H as [more [-> F]].
    destruct (basic_article_of_card w card) as [a|] eqn:A.
    + exists (a :: more). split; [now rewrite <- app_assoc|].
      constructor; [now exists card|exact F].
    + exists more. now rewrite app_nil_r.
Qed.

Lemma article_of_card_shape (w : world) (card : node) (a : article) :
  article_of_card w card = Some a ->
  startswith (url a) (py "http") = true
  /\ content a <> [] /\ date a = strftime w (py "%Y-%m-%d").
Proof.
  intros H. destruct (article_of_card_genuine _ _ _ H) as [NE _].
  unfold article_of_card in H.
  destruct (select_one Config.selectors_title card); [|discriminate].
  destruct (select_one Config.selectors_link card) as [l|]; [|discriminate].
  destruct (get_href l) as [link|]; [|discriminate].
  destruct (accepted _); [|discriminate].
  injection H as <-. simpl in *. split; [apply full_url_http|auto].
Qed.

Lemma article_of_link_shape (w : world) (link : node) (a : article) :
  article_of_link w link = Some a ->
  startswith (url a) (py "http") = true
  /\ content a <> [] /\ date a = strftime w (py "%Y-%m-%d").
Proof.
  intros H. destruct (article_of_link_genuine _ _ _ H) as [NE _].
  unfold article_of_link in H.
  destruct (candidate link) as [[t h]|]; [|discriminate].
  destruct (accepted _); [|discriminate].
  injection H as <-. simpl in *. split; [apply full_url_http|auto].
Qed.

Lemma basic_article_of_card_shape (w : world) (card : node) (a : article) :
  basic_article_of_card w card = Some a ->
  startswith (url a) (py "http") = true
  /\ content a <> [] /\ date a = strftime w (py "%Y-%m-%d").
Proof.
  unfold basic_article_of_card.
  destruct (complete card) as [[[t au] l]|]; [|discriminate].
  destruct (get_href l) as [link|]; [|discriminate].
  destruct (NewsTtsApp.get_column_content w (full_url_of link)) as [c|];
    simpl; [|discriminate].
  destruct (truthy c) eqn:T; [|discriminate].
  intros H. injection H as <-. simpl.
  split; [apply full_url_http|]. split; [now apply truthy_true|reflexivity].
Qed.

(** The enhanced lister never returns more than five articles. *)
Lemma enhanced_listing_length (w : world) :
  List.length (get_daily_sabah_columns w) <= 5.
Proof.
  unfold get_daily_sabah_columns, listing_body.
  destruct (fetch w Config.NEWS_SOURCE_url) as [soup|e]; simpl; [|lia].
  destruct (select Config.selectors_article_cards soup) as [|c cards].
  - rewrite links_loop_cap
      by (unfold Config.FILE_CONFIG_max_columns_per_day; simpl; lia).
    unfold catch. rewrite app_nil_l. exact (firstn_le_length 5 _).
  - destruct (cards_loop _ _ _ _) as [l|e] eqn:L; simpl; [|lia].
    apply cards_loop_length in L;
      unfold Config.FILE_CONFIG_max_columns_per_day in *; simpl in *; lia.
Qed.

End ListerMore.

Import BasicListerNotions ListerMore.

(** X6: neither lister ever returns more than five articles, whatever the
    site answers. *)
Theorem listing_at_most_five (w : world) :
  List.length (NewsTtsAppEnhanced.get_daily_sabah_columns w) <= 5
  /\ List.length (NewsTtsApp.get_daily_sabah_columns w) <= 5.
Proof.
  split; [apply enhanced_listing_length|].
  unfold NewsTtsApp.get_daily_sabah_columns, NewsTtsApp.listing_body.
  destruct (NewsTtsApp.fetch w _) as [soup|e]; simpl; [|lia].
  destruct (NewsTtsApp.cards_loop w _ []) as [l|e]; simpl; [|lia].
  exact (firstn_le_length 5 l).
Qed.

(** X7: every article a lister returns has an absolute address (it starts
    with "http": the address of the link as it is, or with the site put
    before it), a content that is not empty, and the date of the run. *)
Theorem listed_article_shape (w : world) (a : article) :
  In a (NewsTtsAppEnhanced.get_daily_sabah_columns w)
  \/ In a (NewsTtsApp.get_daily_sabah_columns w) ->
  startswith (url a) (py "http") = true
  /\ content a <> []
  /\ date a = strftime w (py "%Y-%m-%d").
Proof.
  intros [H|H].
  - unfold NewsTtsAppEnhanced.get_daily_sabah_columns,
      NewsTtsAppEnhanced.listing_body in H.
    destruct (NewsTtsAppEnhanced.fetch w Config.NEWS_SOURCE_url) as [soup|e];
      simpl in H; [|contradiction].
    destruct (select Config.selectors_article_cards soup) as [|c cards].
    + destruct (NewsTtsAppEnhanced.links_loop _ _ _ _) as [l|e] eqn:L;
        simpl in H; [|contradiction].
      apply links_loop_grows in L as [more [-> F]]. simpl in H.
      rewrite Forall_forall in F. destruct (F _ H) as [link [_ Hl]].
      exact (article_of_link_shape _ _ _ Hl).
    + destruct (NewsTtsAppEnhanced.cards_loop _ _ _ _) as [l|e] eqn:L;
        simpl in H; [|contradiction].
      apply cards_loop_grows in L as [more [-> F]]. simpl in H.
      rewrite Forall_forall in F. destruct (F _ H) as [card [_ Hl]].
      exact (article_of_card_shape _ _ _ Hl).
  - unfold NewsTtsApp.get_daily_sabah_columns, NewsTtsApp.listing_body in H.
    destruct (NewsTtsApp.fetch w _) as [soup|e]; simpl in H; [|contradiction].
    destruct (NewsTtsApp.cards_loop w _ []) as [l|e] eqn:L;
      cbn [catch bind] in H; [|contradiction].
    apply basic_cards_loop_grows in L as [more [-> F]].
    rewrite app_nil_l in H. apply (in_firstn a 5 more) in H.
    rewrite Forall_forall in F. destruct (F _ H) as [card Hc].
    exact (basic_article_of_card_shape _ _ _ Hc).
Qed.

Lemma listed_article_shape_witness :
  let w := Sample.world_of Sample.one_card_site Sample.always in
  let a := {| title := py "Test Column"; author := py "J. Doe";
              url := py "https://www.dailysabah.com/columns/test";
              content := py "Hello." ++ newline ++ py "World.";
              date := py "2024-05-01" |} in
  In a (NewsTtsAppEnhanced.get_daily_sabah_columns w)
  /\ startswith (url a) (py "http") = true
  /\ content a <> []
  /\ date a = strftime w (py "%Y-%m-%d").
Proof.
  intros w a.
  assert (H : In a (NewsTtsAppEnhanced.get_daily_sabah_columns w))
    by (left; reflexivity).
  split; [exact H|]. apply (listed_article_shape w a). left. exact H.
Defined.

(** X8: the enhanced lister on a listing page that is fetched and parsed
    and on which every card with a title and a link has an address on that
    link.  With cards on the page it returns the articles of the first
    five cards that have title, link and an accepted content, in the order
    of the page; with no card, the articles of the first five anchors the
    fallback keeps whose content is accepted. *)
Theorem enhanced_listing (w : world) (soup : node) :
  get w Config.NEWS_SOURCE_url = Response true (Html soup) ->
  Forall (fun card => has_address card = true)
    (select Config.selectors_article_cards soup) ->
  NewsTtsAppEnhanced.get_daily_sabah_columns w
  = firstn 5
      (match select Config.selectors_article_cards soup with
       | [] => collect (article_of_link w) (find_all_href (py "a") soup)
       | cards => collect (article_of_card w) cards
       end).
Proof.
  intros G F.
  unfold NewsTtsAppEnhanced.get_daily_sabah_columns,
    NewsTtsAppEnhanced.listing_body, NewsTtsAppEnhanced.fetch.
  rewrite G. simpl bind.
  destruct (select Config.selectors_article_cards soup) as [|c cards].
  - rewrite links_loop_cap
      by (unfold Config.FILE_CONFIG_max_columns_per_day; simpl; lia).
    reflexivity.
  - rewrite (cards_loop_cap w _ (c :: cards)); [reflexivity| |exact F|];
      unfold Config.FILE_CONFIG_max_columns_per_day; simpl; lia.
Qed.

Lemma enhanced_listing_witness :
  map title
    (NewsTtsAppEnhanced.get_daily_sabah_columns
       (Sample.world_of MoreSample.anchors_site Sample.always))
  = [py "A long column title"]
  /\ map title
       (NewsTtsAppEnhanced.get_daily_sabah_columns
          (Sample.world_of Sample.three_site Sample.always))
     = [py "Column 1"; py "Column 2"; py "Column 3"].
Proof.
  split.
  - rewrite (enhanced_listing
               (Sample.world_of MoreSample.anchors_site Sample.always) _
               eq_refl); [reflexivity|constructor].
  - rewrite (enhanced_listing
               (Sample.world_of Sample.three_site Sample.always) _ eq_refl);
      [reflexivity|repeat constructor].
Defined.

(** X9: a card whose link has no address ends the enhanced lister.  When
    fewer than five articles were collected from the cards before it, the
    articles collected so far are lost and the lister returns the empty
    list; when five were collected before it, the loop has ended and the
    card is never looked at. *)
Theorem enhanced_listing_card_without_address (w : world) (soup : node)
    (pre : list node) (card : node) (post : list node) :
  get w Config.NEWS_SOURCE_url = Response true (Html soup) ->
  select Config.selectors_article_cards soup = pre ++ card :: post ->
  Forall (fun c => has_address c = true) pre ->
  has_address card = false ->
  NewsTtsAppEnhanced.get_daily_sabah_columns w
  = if List.length (collect (article_of_card w) pre) <? 5
    then []
    else firstn 5 (collect (article_of_card w) pre).
Proof.
  intros G E F Hcard.
  unfold NewsTtsAppEnhanced.get_daily_sabah_columns,
    NewsTtsAppEnhanced.listing_body, NewsTtsAppEnhanced.fetch.
  rewrite G. simpl bind. rewrite E.
  destruct (pre ++ card :: post) as [|c cards] eqn:P;
    [now destruct pre|]. rewrite <- P. clear P.
  unfold Config.FILE_CONFIG_max_columns_per_day.
  destruct (List.length (collect (article_of_card w) pre) <? 5) eqn:L.
  - apply Nat.ltb_lt in L.
    rewrite cards_loop_prefix by (try exact F; simpl; lia).
    rewrite cards_loop_cons. unfold card_step. rewrite Hcard. reflexivity.
  - apply Nat.ltb_ge in L.
    rewrite cards_loop_enough by (try exact F; simpl; lia).
    reflexivity.
Qed.

Lemma enhanced_listing_card_without_address_witness :
  NewsTtsAppEnhanced.get_daily_sabah_columns
    (Sample.world_of Sample.missing_href_site Sample.always) = [].
Proof.
  apply (enhanced_listing_card_without_address
           (Sample.world_of Sample.missing_href_site Sample.always)
           (Sample.document (Sample.teaser_card :: Sample.six_cards))
           [] Sample.teaser_card Sample.six_cards);
    [reflexivity|reflexivity|constructor|reflexivity].
Defined.

(** X10: the basic lister on a listing page that is fetched and parsed,
    whatever its status.  When every complete card (title, author line and
    link) has an address on its link, it returns the first five of the
    articles of the complete cards whose content is not empty.  A complete
    card without address, wherever it stands on the page, makes it return
    the empty list. *)
Theorem basic_listing (w : world) (status_ok : bool) (soup : node) :
  get w (py "https://www.dailysabah.com/columns")
  = Response status_ok (Html soup) ->
  let cards := find_all_class (py "div") (py "article-card") soup in
  (Forall (fun card => basic_has_address card = true) cards ->
   NewsTtsApp.get_daily_sabah_columns w
   = firstn 5 (collect (basic_article_of_card w) cards))
  /\ (forall pre card post,
      cards = pre ++ card :: post ->
      Forall (fun c => basic_has_address c = true) pre ->
      basic_has_address card = false ->
      NewsTtsApp.get_daily_sabah_columns w = []).
Proof.
  intros G cards.
  unfold NewsTtsApp.get_daily_sabah_columns, NewsTtsApp.listing_body,
    NewsTtsApp.fetch.
  rewrite G. simpl bind. fold cards. split.
  - intros F. rewrite <- (app_nil_r cards) at 1.
    rewrite basic_cards_loop_prefix by exact F. reflexivity.
  - intros pre card post E F Hcard. rewrite E.
    rewrite basic_cards_loop_prefix by exact F.
    rewrite basic_cards_loop_cons, Hcard. reflexivity.
Qed.

Lemma basic_listing_witness :
  map title
    (NewsTtsApp.get_daily_sabah_columns
       (Sample.world_of Sample.three_site Sample.always))
  = [py "Column 1"; py "Column 2"; py "Column 3"]
  /\ NewsTtsApp.get_daily_sabah_columns
       (Sample.world_of (Sample.listing (Sample.six_cards
                                         ++ [Sample.teaser_card])
                         :: Sample.six_articles) Sample.always) = [].
Proof.
  split.
  - rewrite (proj1 (basic_listing
                      (Sample.world_of Sample.three_site Sample.always)
                      true _ eq_refl)); [reflexivity|repeat constructor].
  - apply (proj2 (basic_listing
                    (Sample.world_of
                       (Sample.listing (Sample.six_cards
                                        ++ [Sample.teaser_card])
                        :: Sample.six_articles) Sample.always)
                    true _ eq_refl)
             Sample.six_cards Sample.teaser_card []);
      [reflexivity|repeat constructor|reflexivity].
Defined.

(* ================================================================== *)
(** * Further properties: file names and runs *)
(* ================================================================== *)

Module RunMore.
Import RunNotions RunFacts RunMoreNotions PyFacts.

(** ** Numbers in file names *)

Lemma digit_of_mod (n : nat) :
  is_digit (48 + N.of_nat (n mod 10))%N = true.
Proof.
  unfold is_digit. pose proof (Nat.mod_upper_bound n 10).
  apply andb_true_iff. split; apply N.leb_le; lia.
Qed.

Lemma decimal_aux_S (fuel n : nat) (acc : str) :
  decimal_aux (S fuel) n acc
  = if n <? 10 then (48 + N.of_nat (n mod 10))%N :: acc
    else decimal_aux fuel (n / 10) ((48 + N.of_nat (n mod 10))%N :: acc).
Proof. reflexivity. Qed.

Lemma decimal_aux_digits (fuel : nat) :
  forall n acc,
  Forall (fun c => is_digit c = true) acc ->
  Forall (fun c => is_digit c = true) (decimal_aux fuel n acc).
Proof.
  induction fuel as [|fuel IH]; intros n acc F; [exact F|].
  rewrite decimal_aux_S. destruct (n <? 10).
  - constructor; [apply digit_of_mod|exact F].
  - apply IH. constructor; [apply digit_of_mod|exact F].
Qed.

Lemma decimal_aux_number (fuel : nat) :
  forall n acc, n < fuel ->
  fold_left (fun v c => 10 * v + (N.to_nat c - 48))
    (decimal_aux fuel n acc) 0
  = fold_left (fun v c => 10 * v + (N.to_nat c - 48)) acc n.
Proof.
  induction fuel as [|fuel IH]; intros n acc H; [lia|].
  rewrite decimal_aux_S.
  pose proof (Nat.div_mod_eq n 10) as DM.
  pose proof (Nat.mod_upper_bound n 10) as MB.
  destruct (n <? 10) eqn:L.
  - apply Nat.ltb_lt in L. cbn [fold_left]. f_equal.
    rewrite Nat.div_small in DM by exact L. lia.
  - apply Nat.ltb_ge in L.
    assert (D : n / 10 < fuel).
    { pose proof (Nat.div_lt n 10). lia. }
    rewrite (IH _ _ D). cbn [fold_left]. f_equal. lia.
Qed.

(** [int(str(n)) == n] *)
Lemma number_decimal (n : nat) : number_of (decimal n) = n.
Proof.
  unfold number_of, decimal. rewrite decimal_aux_number by lia. reflexivity.
Qed.

Lemma decimal_digits (n : nat) :
  Forall (fun c => is_digit c = true) (decimal n).
Proof. apply decimal_aux_digits. constructor. Qed.

Lemma number_decimal02 (n : nat) : number_of (decimal02 n) = n.
Proof.
  unfold decimal02. destruct (n <? 10); [|apply number_decimal].
  exact (number_decimal n).
Qed.

(** A run of digits ends where the first other character stands. *)
Lemma digits_stop (a : str) :
  forall (b r1 r2 : str) (c d : char),
  Forall (fun x => is_digit x = true) a ->
  Forall (fun x => is_digit x = true) b ->
  is_digit c = false -> is_digit d = false ->
  a ++ c :: r1 = b ++ d :: r2 -> a = b.
Proof.
  induction a as [|x a IH]; intros b r1 r2 c d Fa Fb Hc Hd E;
    destruct b as [|y b]; simpl in E.
  - reflexivity.
  - injection E as -> _. inversion Fb; congruence.
  - injection E as -> _. inversion Fa; congruence.
  - injection E as -> E. f_equal.
    inversion Fa as [|? ? _ Fa']; inversion Fb as [|? ? _ Fb']; subst.
    exact (IH b r1 r2 c d Fa' Fb' Hc Hd E).
Qed.

(** ** Lists with their indices *)

Lemma numbered_ge {A : Type} (l : list A) :
  forall i ic, In ic (numbered i l) -> i <= fst ic.
Proof.
  induction l as [|x l IH]; intros i ic H; [contradiction|].
  destruct H as [<-|H]; [simpl; lia|]. apply IH in H. lia.
Qed.

Lemma numbered_filter_nodup {A : Type} (p : nat * A -> bool) (l : list A) :
  forall i, NoDup (map fst (filter p (numbered i l))).
Proof.
  induction l as [|x l IH]; intros i; [constructor|].
  simpl. destruct (p (i, x)); [|apply IH].
  simpl. constructor; [|apply IH].
  intros Hin. apply in_map_iff in Hin as [ic [E Hic]].
  apply filter_In in Hic as [Hic _]. apply numbered_ge in Hic. lia.
Qed.

Lemma numbered_nodup {A : Type} (l : list A) :
  forall i, NoDup (map fst (numbered i l)).
Proof.
  induction l as [|x l IH]; intros i; [constructor|].
  simpl. constructor; [|apply IH].
  intros Hin. apply in_map_iff in Hin as [ic [E Hic]].
  apply numbered_ge in Hic. lia.
Qed.

Lemma numbered_length {A : Type} (l : list A) :
  forall i, List.length (numbered i l) = List.length l.
Proof.
  induction l as [|x l IH]; intros i; [reflexivity|].
  simpl. now rewrite IH.
Qed.

Lemma nodup_by_index {A B : Type} (f : nat * A -> B) (l : list (nat * A)) :
  (forall x y, f x = f y -> fst x = fst y) ->
  NoDup (map fst l) -> NoDup (map f l).
Proof.
  intros Inj. induction l as [|x l IH]; intros N; [constructor|].
  simpl in *. inversion N as [|? ? Hx Nl]; subst.
  constructor; [|now apply IH].
  intros Hin. apply in_map_iff in Hin as [y [E Hy]].
  apply Hx. apply in_map_iff. exists y. split; [now apply Inj|exact Hy].
Qed.

Lemma forall_firstn {A : Type} (P : A -> Prop) (n : nat) (l : list A) :
  Forall P l -> Forall P (firstn n l).
Proof.
  rewrite !Forall_forall. intros F x Hx. apply F.
  exact (in_firstn x n l Hx).
Qed.

(** ** Paths *)

Lemma startswith_nil (s : str) : startswith s [] = true.
Proof. now destruct s. Qed.

Lemma startswith_slash (d r1 r2 : str) :
  startswith (d ++ 95%N :: r1) (py "/") = startswith (d ++ 95%N :: r2) (py "/").
Proof.
  destruct d as [|c d]; [reflexivity|].
  cbn [app startswith]. now rewrite !startswith_nil.
Qed.

Lemma path_join_inj (directory n1 n2 : str) :
  startswith n1 (py "/") = startswith n2 (py "/") ->
  path_join directory n1 = path_join directory n2 -> n1 = n2.
Proof.
  unfold path_join. intros ->.
  destruct (startswith n2 (py "/")); [auto|].
  destruct (negb (truthy directory) || endswith directory (py "/")).
  - apply app_inv_head.
  - intros E. apply app_inv_head in E. now apply app_inv_head in E.
Qed.

(** The name of the audio file tells the index of the column. *)
Lemma create_safe_filename_index (w : world) (t1 t2 : str) (i j : nat)
    (date_str : str) :
  Enhanced.create_safe_filename w t1 i date_str
  = Enhanced.create_safe_filename w t2 j date_str -> i = j.
Proof.
  unfold Enhanced.create_safe_filename. intros E.
  apply app_inv_head in E. apply app_inv_head in E.
  apply digits_stop in E; try apply decimal_digits; try reflexivity.
  rewrite <- (number_decimal i), <- (number_decimal j). now rewrite E.
Qed.

Lemma audio_path_index (w : world) (x y : nat * article) :
  audio_path_of w x = audio_path_of w y -> fst x = fst y.
Proof.
  unfold audio_path_of, request. simpl snd. intros E.
  apply path_join_inj in E.
  - exact (create_safe_filename_index _ _ _ _ _ _ E).
  - unfold Enhanced.create_safe_filename. apply startswith_slash.
Qed.

Lemma part_path_index (output_folder file_stem : str) (i j : nat) :
  path_join output_folder
    (file_stem ++ py "_part" ++ decimal02 (i + 1) ++ py ".mp3")
  = path_join output_folder
      (file_stem ++ py "_part" ++ decimal02 (j + 1) ++ py ".mp3") ->
  i = j.
Proof.
  intros E. apply path_join_inj in E; [|apply startswith_slash].
  apply app_inv_head in E. apply app_inv_head in E.
  apply app_inv_tail in E.
  pose proof (number_decimal02 (i + 1)) as Hi.
  rewrite E, number_decimal02 in Hi. lia.
Qed.

(** ** The enhanced run *)

Lemma enhanced_run_demo (w : world) :
  NewsTtsAppEnhanced.get_daily_sabah_columns w = [] ->
  let filename :=
    py "turkish_demo_" ++ strftime w (py "%Y%m%d_%H%M%S") ++ py ".wav" in
  let audio_path := path_join (py "audio_files") filename in
  Enhanced.process_daily_columns w
  = if speech w Enhanced.turkish_text filename
    then ([Demo audio_path],
          [Listing;
           Warning
             (py "No columns found to process. Running TTS demo instead.");
           Speech Enhanced.turkish_text filename; Audio audio_path])
    else ([],
          [Listing;
           Warning
             (py "No columns found to process. Running TTS demo instead.");
           Speech Enhanced.turkish_text filename; SpeechError filename;
           Error (py "✗ Turkish TTS demo failed")]).
Proof.
  intros H filename audio_path. unfold Enhanced.process_daily_columns.
  rewrite H. unfold Enhanced.demo_turkish_tts.
  change (py "turkish_demo_" ++ strftime w (py "%Y%m%d_%H%M%S") ++ py "."
          ++ Config.TTS_CONFIG_output_format) with filename.
  rewrite enhanced_tts.
  destruct (speech w Enhanced.turkish_text filename); reflexivity.
Qed.

Lemma enhanced_run_columns (w : world) :
  NewsTtsAppEnhanced.get_daily_sabah_columns w <> [] ->
  let work := numbered 1 (NewsTtsAppEnhanced.get_daily_sabah_columns w) in
  let records :=
    map (fun ic => Enhanced.produced w (snd ic) (audio_path_of w ic))
      (filter (succeeds w) work) in
  let metadata_file :=
    path_join (py "audio_files")
      (py "metadata_" ++ strftime w (py "%Y%m%d") ++ py ".json") in
  Enhanced.process_daily_columns w
  = (records,
     Listing :: flat_map (column_events w) work
     ++ [if writable w metadata_file
         then Metadata metadata_file records
         else MetadataError metadata_file]).
Proof.
  intros NE work records metadata_file.
  unfold Enhanced.process_daily_columns.
  destruct (NewsTtsAppEnhanced.get_daily_sabah_columns w) as [|c columns]
    eqn:E; [now elim NE|].
  rewrite columns_loop_eq. fold work. unfold bindM, tell, ret.
  cbn [app]. reflexivity.
Qed.

Lemma column_events_metadata (w : world) (work : list (nat * article)) :
  metadata_written (flat_map (column_events w) work) = [].
Proof.
  induction work as [|ic work IH]; [reflexivity|].
  simpl. unfold column_events at 1.
  destruct (succeeds w ic); simpl; exact IH.
Qed.

Lemma metadata_written_app (a b : list event) :
  metadata_written (a ++ b) = metadata_written a ++ metadata_written b.
Proof.
  induction a as [|e a IH]; [reflexivity|].
  destruct e; simpl; rewrite IH; reflexivity.
Qed.

(** ** The basic run *)

Lemma basic_columns_loop_calls (w : world) (columns : list article) :
  forall i acc,
  speech_calls (trace (Basic.columns_loop w i columns acc))
  = map (basic_request w) (numbered i columns).
Proof.
  induction columns as [|column columns IH]; intros i acc; [reflexivity|].
  cbn [Basic.columns_loop numbered map]. unfold Basic.text_to_speech.
  rewrite !trace_bind. cbn [tell trace value snd fst app speech_calls].
  rewrite value_bind. cbn [tell value fst].
  destruct (speech w (content column) (Basic.filename_of w i column));
    rewrite !trace_bind, !value_bind; cbn [tell ret trace value snd fst app];
    rewrite ?speech_calls_app; cbn [speech_calls app]; rewrite IH;
    reflexivity.
Qed.

End RunMore.

Import RunMoreNotions RunMore.

(** X11: what the enhanced run returns matches what it wrote.  The audio
    files of the records returned are the audio files written, in order,
    on the demonstration path as well; and when metadata is written, which
    happens only with columns and a writable file, it holds the very
    records the run returns. *)
Theorem enhanced_run_records (w : world) :
  let run := Enhanced.process_daily_columns w in
  let metadata_file :=
    path_join (py "audio_files")
      (py "metadata_" ++ strftime w (py "%Y%m%d") ++ py ".json") in
  map audio_of (value run) = audio_files (trace run)
  /\ metadata_written (trace run)
     = match NewsTtsAppEnhanced.get_daily_sabah_columns w with
       | [] => []
       | _ :: _ => if writable w metadata_file then [value run] else []
       end.
Proof.
  intros run metadata_file. unfold run.
  destruct (NewsTtsAppEnhanced.get_daily_sabah_columns w) as [|c columns]
    eqn:E.
  - rewrite (enhanced_run_demo w E).
    destruct (speech w Enhanced.turkish_text _); split; reflexivity.
  - pose proof (enhanced_run_columns w) as R. rewrite E in R.
    specialize (R ltac:(discriminate)). cbv zeta in R. rewrite R.
    unfold trace, value. cbn [fst snd audio_files metadata_written].
    rewrite audio_files_app, metadata_written_app, column_events_audio,
      column_events_metadata, map_map.
    fold metadata_file.
    destruct (writable w metadata_file); cbn [audio_files metadata_written];
      rewrite app_nil_r; split; reflexivity.
Qed.

(** X12: every run of the enhanced application runs the listing step once
    and makes at least one and at most five requests to the speech
    service; it writes at most one audio file for each request. *)
Theorem enhanced_run_requests (w : world) :
  let run := Enhanced.process_daily_columns w in
  listing_calls (trace run) = 1
  /\ 1 <= List.length (speech_calls (trace run)) <= 5
  /\ List.length (audio_files (trace run))
     <= List.length (speech_calls (trace run)).
Proof.
  intros run. unfold run.
  pose proof (enhanced_listing_length w) as L5.
  destruct (NewsTtsAppEnhanced.get_daily_sabah_columns w) as [|c columns]
    eqn:E.
  - rewrite (enhanced_run_demo w E).
    destruct (speech w Enhanced.turkish_text _); simpl; lia.
  - pose proof (enhanced_run_columns w) as R. rewrite E in R.
    specialize (R ltac:(discriminate)). cbv zeta in R. rewrite R.
    unfold trace. cbn [snd listing_calls speech_calls audio_files].
    rewrite listing_calls_app, speech_calls_app, audio_files_app,
      column_events_listing, column_events_speech, column_events_audio.
    rewrite !length_app, !length_map, numbered_length.
    pose proof (filter_length_le (succeeds w) (numbered 1 (c :: columns)))
      as FL.
    rewrite numbered_length in FL.
    destruct (writable w _); simpl in *; lia.
Qed.

(** X13: a run of the enhanced application never writes two audio files
    to the same path: the index of the column is part of the file name, so
    columns with the same title, or with titles that differ only in
    characters the file name drops, still get files of their own. *)
Theorem enhanced_run_files_distinct (w : world) :
  NoDup (audio_files (trace (Enhanced.process_daily_columns w))).
Proof.
  destruct (NewsTtsAppEnhanced.get_daily_sabah_columns w) as [|c columns]
    eqn:E.
  - rewrite (enhanced_run_demo w E).
    destruct (speech w Enhanced.turkish_text _); simpl;
      repeat constructor; auto.
  - pose proof (enhanced_run_columns w) as R. rewrite E in R.
    specialize (R ltac:(discriminate)). cbv zeta in R. rewrite R.
    unfold trace. cbn [snd audio_files].
    rewrite audio_files_app, column_events_audio.
    replace (audio_files [if writable w _ then _ else _]) with (@nil str)
      by (now destruct (writable w _)).
    rewrite app_nil_r. apply nodup_by_index.
    + apply audio_path_index.
    + apply numbered_filter_nodup.
Qed.

(** X14: the name [create_safe_filename] gives to an audio file is the
    date, the index and a title part, joined by underscores, with the
    extension [.wav].  The title part is at most thirty characters long
    and holds no space and nothing but alphanumeric characters, hyphens
    and underscores. *)
Theorem create_safe_filename_shape (w : world) (title : str) (index : nat)
    (date_str : str) :
  exists safe_title,
    Enhanced.create_safe_filename w title index date_str
    = date_str ++ py "_" ++ decimal index ++ py "_" ++ safe_title
      ++ py ".wav"
    /\ List.length safe_title <= 30
    /\ Forall (safe_char w) safe_title.
Proof.
  unfold Enhanced.create_safe_filename.
  set (allowed := fun c => isalnum w c
                           || (c =? 32)%N || (c =? 45)%N || (c =? 95)%N).
  set (kept := strip (filter allowed title)).
  exists (firstn 30 (map (fun c => if (c =? 32)%N then 95%N else c) kept)).
  split; [reflexivity|]. split; [apply firstn_le_length|].
  apply forall_firstn. apply Forall_map.
  assert (F : Forall (fun c => allowed c = true) kept).
  { unfold kept. destruct (strip_decomp (filter allowed title))
      as [a [b [D _]]].
    assert (Fa : Forall (fun c => allowed c = true) (filter allowed title))
      by (apply Forall_forall; intros c Hc; now apply filter_In in Hc).
    rewrite D in Fa. apply Forall_app in Fa as [_ Fa].
    now apply Forall_app in Fa as [Fa _]. }
  eapply Forall_impl; [|exact F]. intros c Hc. unfold safe_char.
  destruct (c =? 32)%N eqn:S32.
  - split; [discriminate|auto].
  - split; [now apply N.eqb_neq|]. unfold allowed in Hc. rewrite S32 in Hc.
    rewrite orb_false_r in Hc.
    apply orb_true_iff in Hc as [Hc|Hc]; [|right; right; now apply N.eqb_eq].
    apply orb_true_iff in Hc as [Hc|Hc]; [now left|].
    right. left. now apply N.eqb_eq.
Qed.

(** X15: the basic run does not guard the writing of the metadata.  With
    columns listed and a metadata file that cannot be written the run
    raises [OSError] and returns nothing, and this is the only way it
    raises; the requests to the speech service have all been made by
    then, one for each column and in order, whatever comes of the
    metadata. *)
Theorem basic_run_metadata (w : world) :
  let run := Basic.process_daily_columns w in
  let columns := NewsTtsApp.get_daily_sabah_columns w in
  let metadata_file :=
    path_join (py "audio_files")
      (py "metadata_" ++ strftime w (py "%Y%m%d") ++ py ".json") in
  (forall e, value run = Raised e ->
             e = OSError /\ columns <> []
             /\ writable w metadata_file = false)
  /\ (columns <> [] ->
      speech_calls (trace run) = map (basic_request w) (numbered 0 columns)
      /\ (writable w metadata_file = false -> value run = Raised OSError)).
Proof.
  intros run columns metadata_file. unfold run, columns.
  unfold Basic.process_daily_columns.
  destruct (NewsTtsApp.get_daily_sabah_columns w) as [|c cs] eqn:E.
  - split; [|intros NE; now elim NE].
    intros e. rewrite !value_bind. discriminate.
  - change (path_join Basic.output_dir
              (py "metadata_" ++ strftime w (py "%Y%m%d") ++ py ".json"))
      with metadata_file.
    rewrite !value_bind, !trace_bind, ?value_bind.
    rewrite !speech_calls_app, basic_columns_loop_calls.
    cbn [tell trace snd speech_calls app].
    destruct (writable w metadata_file); split.
    + intros e. rewrite !value_bind. discriminate.
    + intros _. split; [|discriminate].
      rewrite trace_bind. cbn [tell ret trace snd speech_calls app].
      now rewrite app_nil_r.
    + intros e H. injection H as <-. repeat split; discriminate.
    + intros _. split; [|reflexivity].
      cbn [ret trace snd speech_calls]. now rewrite app_nil_r.
Qed.

Lemma basic_run_metadata_witness :
  let w :=
    MoreSample.locked (Sample.world_of Sample.three_site Sample.always) in
  value (Basic.process_daily_columns w) = Raised OSError
  /\ List.length (speech_calls (trace (Basic.process_daily_columns w))) = 3.
Proof.
  intros w.
  destruct (proj2 (basic_run_metadata w) ltac:(discriminate)) as [C R].
  split; [exact (R eq_refl)|]. rewrite C. reflexivity.
Defined.

(* ================================================================== *)
(** * Further properties: the articles sent to ElevenLabs *)
(* ================================================================== *)

Module ElevenlabsMore.
Import PyNotions ChunkerNotions PyFacts ChunkerFacts.
Import RunNotions RunFacts RunMoreNotions RunMore.

(** The requests of a run, read off its trace. *)
Lemma process_news_articles_calls (w : world)
    (text_files : list Elevenlabs.text_file) (output_folder : str)
    (max_length : Z) :
  speech_calls
    (trace (Elevenlabs.process_news_articles w (Some text_files)
              output_folder max_length))
  = if folder_ok w output_folder
    then flat_map (file_requests output_folder max_length) text_files
    else [].
Proof.
  rewrite process_news_articles_eq.
  destruct (folder_ok w output_folder); [|reflexivity].
  unfold trace. cbn [snd]. apply request_events_speech.
Qed.

Lemma part_requests_texts (output_folder file_stem : str)
    (parts : list str) :
  forall i,
  map fst (part_requests output_folder file_stem i parts) = parts.
Proof.
  induction parts as [|part parts IH]; intros i; [reflexivity|].
  rewrite part_requests_cons. cbn [map fst]. now rewrite IH.
Qed.

Lemma part_requests_paths (output_folder file_stem : str)
    (parts : list str) (i : nat) :
  map snd (part_requests output_folder file_stem i parts)
  = map (fun ip : nat * str =>
           path_join output_folder
             (file_stem ++ py "_part" ++ decimal02 (fst ip + 1) ++ py ".mp3"))
        (numbered i parts).
Proof. unfold part_requests. rewrite map_map. reflexivity. Qed.

(** A chunk is within the bound, or it is one of the sentences. *)
Lemma chunk_cases (text : str) (max_length : Z) (c : str) :
  In c (split_text text max_length) ->
  c <> []
  /\ ((len c <= max_length)%Z \/ In c (sentences_of text)).
Proof.
  intros H. destruct (split_text_groups text max_length) as [groups [E [C F]]].
  rewrite E in H. apply in_map_iff in H as [g [<- Hg]].
  rewrite Forall_forall in F. destruct (F g Hg) as [NE B].
  destruct (sentences_shape text) as [Cl _]. rewrite <- C in Cl.
  apply Forall_concat in Cl. rewrite Forall_forall in Cl.
  split.
  - destruct (J_clean (Cl g Hg) NE) as [S _].
    now apply starts_ok_nonempty.
  - destruct B as [B|[s ->]]; [now left|right].
    rewrite <- C. apply in_concat. exists [s]. split; [exact Hg|now left].
Qed.

End ElevenlabsMore.

Import ElevenlabsMore.

(** X16: what [process_news_articles] sends to the speech service.  The
    text of a request is never empty, and it is within [max_length]
    unless it is a single sentence of its article that is longer than
    that by itself. *)
Theorem request_texts_bounded (w : world)
    (text_files : list Elevenlabs.text_file) (output_folder : str)
    (max_length : Z) (text path : str) :
  In (text, path)
     (speech_calls
        (trace (Elevenlabs.process_news_articles w (Some text_files)
                  output_folder max_length))) ->
  text <> []
  /\ ((len text <= max_length)%Z
      \/ exists f raw,
           In f text_files /\ Elevenlabs.read f = Some raw
           /\ In text (sentences_of (strip raw))).
Proof.
  rewrite process_news_articles_calls. intros H.
  destruct (folder_ok w output_folder); [|contradiction].
  apply in_flat_map in H as [f [Hf H]]. rewrite file_requests_eq in H.
  destruct (Elevenlabs.read f) as [raw|] eqn:R; [|contradiction].
  destruct (truthy (strip raw)) eqn:T; cbn [negb] in H; [|contradiction].
  destruct (len (strip raw) >? max_length)%Z eqn:L.
  - assert (P : In text (split_text (strip raw) max_length)).
    { rewrite <- (part_requests_texts output_folder (Elevenlabs.stem f)
                    (split_text (strip raw) max_length) 0).
      apply in_map_iff. now exists (text, path). }
    destruct (chunk_cases _ _ _ P) as [NE [B|B]]; split; auto.
    right. now exists f, raw.
  - destruct H as [H|[]]. injection H as <- _.
    split; [now apply truthy_true|]. left.
    rewrite Z.gtb_ltb in L. now apply Z.ltb_ge in L.
Qed.

Lemma request_texts_bounded_witness :
  let files :=
    [ {| Elevenlabs.stem := py "a";
         Elevenlabs.read := Some (py "One. Two! Three.") |} ] in
  let w := Sample.world_of [] Sample.always in
  speech_calls
    (trace (Elevenlabs.process_news_articles w (Some files)
              (py "audio_news") 8))
  = [ (py "One. Two", py "audio_news/a_part01.mp3");
      (py "Three.", py "audio_news/a_part02.mp3") ]
  /\ py "Three." <> []
  /\ ((len (py "Three.") <= 8)%Z
      \/ exists f raw,
           In f files /\ Elevenlabs.read f = Some raw
           /\ In (py "Three.") (sentences_of (strip raw))).
Proof.
  intros files w. split; [reflexivity|].
  apply (request_texts_bounded w files (py "audio_news") 8 (py "Three.")
           (py "audio_news/a_part02.mp3")).
  right. left. reflexivity.
Defined.

(** X17: the requests made for one article go to files of their own: the
    parts of a long article are numbered in their file names, so no part
    is written over another. *)
Theorem article_files_distinct (w : world) (f : Elevenlabs.text_file)
    (output_folder : str) (max_length : Z) :
  NoDup (map snd
           (speech_calls
              (trace (Elevenlabs.process_news_articles w (Some [f])
                        output_folder max_length)))).
Proof.
  rewrite process_news_articles_calls.
  destruct (folder_ok w output_folder); [|constructor].
  cbn [flat_map]. rewrite app_nil_r.
  rewrite file_requests_eq.
  destruct (Elevenlabs.read f) as [raw|]; [|constructor].
  destruct (truthy (strip raw)); cbn [negb]; [|constructor].
  destruct (len (strip raw) >? max_length)%Z.
  - rewrite part_requests_paths. apply nodup_by_index.
    + intros x y. apply part_path_index.
    + apply numbered_nodup.
  - repeat constructor. auto.
Qed.

(* ================================================================== *)
(** * Further properties: the scrapers *)
(* ================================================================== *)

Module ScraperMore.
Import ScrapeRiktpunkt BasicListerNotions ScriptNotions ListerNotions.

Lemma nodup_snoc {A : Type} (l : list A) (x : A) :
  NoDup l -> ~ In x l -> NoDup (l ++ [x]).
Proof.
  induction l as [|y l IH]; intros N Hx.
  - repeat constructor. auto.
  - inversion N as [|? ? Hy Nl]; subst. simpl. constructor.
    + intros Hin. apply in_app_or in Hin as [Hin|[E|[]]]; [auto|].
      apply Hx. now left.
    + apply IH; [exact Nl|]. intros Hin. apply Hx. now right.
Qed.

Lemma dated_cons (w : world) (c : char) (rest : str) :
  dated w (c :: rest) = dated_here w (c :: rest) || dated w rest.
Proof. reflexivity. Qed.

(** The pattern is searched for, so what stands before the match does
    not matter. *)
Lemma dated_app (w : world) (before href : str) :
  dated w href = true -> dated w (before ++ href) = true.
Proof.
  intros H. induction before as [|c before IH]; [exact H|].
  change ((c :: before) ++ href) with (c :: (before ++ href)).
  rewrite dated_cons, IH. apply orb_true_r.
Qed.

(** What the loop over the anchors keeps in its list. *)
Lemma urls_loop_keeps (w : world) (article_links : list node) :
  forall article_urls,
  NoDup article_urls ->
  Forall (fun u => u <> [] /\ dated w u = true
                   /\ startswith u (py "/") = false) article_urls ->
  NoDup (urls_loop w article_links article_urls)
  /\ Forall (fun u => u <> [] /\ dated w u = true
                      /\ startswith u (py "/") = false)
       (urls_loop w article_links article_urls).
Proof.
  induction article_links as [|link links IH]; intros urls N F; [auto|].
  cbn [urls_loop]. cbv zeta.
  set (href := match get_href link with Some h => h | None => [] end).
  destruct (truthy href && dated w href) eqn:K; [|now apply IH].
  apply andb_true_iff in K as [T D].
  set (u := if startswith href (py "/")
            then py "https://riktpunkt.nu" ++ href else href).
  destruct (existsb (str_eqb u) urls) eqn:X; [now apply IH|].
  apply IH.
  - apply nodup_snoc; [exact N|]. intros Hin.
    assert (existsb (str_eqb u) urls = true); [|congruence].
    apply existsb_exists. exists u. split; [exact Hin|apply str_eqb_refl].
  - apply Forall_app. split; [exact F|]. constructor; [|constructor].
    unfold u. destruct (startswith href (py "/")) eqn:S.
    + split; [discriminate|]. split; [now apply dated_app|reflexivity].
    + split; [now apply truthy_true|]. auto.
Qed.

(** Where the addresses of the list come from: the address on an anchor
    as it stands, or with the site before it when it begins with a
    slash. *)
Lemma urls_loop_origin (w : world) (all article_links : list node) :
  forall article_urls,
  (forall link, In link article_links -> In link all) ->
  Forall (fun u => exists link href,
                     In link all /\ get_href link = Some href
                     /\ u = if startswith href (py "/")
                            then py "https://riktpunkt.nu" ++ href
                            else href) article_urls ->
  Forall (fun u => exists link href,
                     In link all /\ get_href link = Some href
                     /\ u = if startswith href (py "/")
                            then py "https://riktpunkt.nu" ++ href
                            else href)
    (urls_loop w article_links article_urls).
Proof.
  induction article_links as [|link links IH]; intros urls I F; [exact F|].
  assert (I' : forall l, In l links -> In l all).
  { intros l Hl. apply I. now right. }
  cbn [urls_loop]. cbv zeta.
  destruct (get_href link) as [href|] eqn:G; [|now apply IH].
  destruct (truthy href && dated w href); [|now apply IH].
  match goal with
  | |- context [existsb ?f urls] => destruct (existsb f urls)
  end; [now apply IH|].
  apply IH; [exact I'|]. apply Forall_app. split; [exact F|].
  constructor; [|constructor]. exists link, href.
  split; [apply I; now left|]. split; [exact G|reflexivity].
Qed.

(** An address without scheme and without a slash at its head is kept as
    it stands. *)
Example relative_address_kept :
  urls_loop (Sample.world_of [] Sample.always)
    [MoreSample.anchor (Some (py "arkiv/2024/05/strejk/")) (py "Strejk")] []
  = [py "arkiv/2024/05/strejk/"].
Proof. reflexivity. Qed.

Section Scrape.

Variable article_data : Type.
Variable extract_article_content : node -> str -> outcome (option article_data).

Lemma articles_loop_length (w : world) (urls : list str) :
  forall news_articles,
  List.length (articles_loop extract_article_content w urls news_articles)
  <= List.length news_articles + List.length urls.
Proof.
  induction urls as [|url urls IH]; intros acc; [simpl; lia|].
  cbn [articles_loop].
  destruct (article_soup <- NewsTtsAppEnhanced.fetch w url ;;
            extract_article_content article_soup url) as [[d|]|];
    [specialize (IH (acc ++ [d])); rewrite length_app in IH
    |specialize (IH acc)|specialize (IH acc)];
    simpl in *; lia.
Qed.

End Scrape.

(** The script: the loop over two runs of cards. *)
Lemma script_cards_loop_app (w : world) (pre post : list node) :
  forall acc,
  ScrapeDailysabah.cards_loop w (pre ++ post) acc
  = (columns_data <- ScrapeDailysabah.cards_loop w pre acc ;;
     ScrapeDailysabah.cards_loop w post columns_data).
Proof.
  induction pre as [|card pre IH]; intros acc; [reflexivity|].
  simpl app. cbn [ScrapeDailysabah.cards_loop].
  destruct (find (py "h3") card); [|apply IH].
  destruct (find_class (py "div") (py "author-info") card); [|apply IH].
  destruct (find_class (py "a") (py "card") card) as [l|]; [|apply IH].
  destruct (get_href l) as [link|]; [|reflexivity].
  destruct (ScrapeDailysabah.get_column_content w link) as [c|e];
    [apply IH|reflexivity].
Qed.

Lemma script_cards_loop_links (w : world) (cards : list node) :
  forall acc l,
  ScrapeDailysabah.cards_loop w cards acc = Returned l ->
  map ScrapeDailysabah.col_link l
  = map ScrapeDailysabah.col_link acc ++ collect card_link cards.
Proof.
  induction cards as [|card cards IH]; intros acc l H.
  - simpl in H. injection H as <-. now rewrite app_nil_r.
  - cbn [ScrapeDailysabah.cards_loop] in H. cbn [collect].
    unfold card_link, complete.
    destruct (find (py "h3") card); [|now apply IH].
    destruct (find_class (py "div") (py "author-info") card); [|now apply IH].
    destruct (find_class (py "a") (py "card") card) as [lt|]; [|now apply IH].
    destruct (get_href lt) as [link|]; [|discriminate].
    destruct (ScrapeDailysabah.get_column_content w link) as [c|e];
      [|discriminate].
    cbn [bind] in H. apply IH in H. rewrite H, map_app, <- app_assoc.
    reflexivity.
Qed.

End ScraperMore.

Import ScriptNotions ScraperMore.

(** X18: the article addresses the scraper of riktpunkt.nu collects from
    the main page.  The list holds no address twice; every address holds
    the pattern of a year and a month between slashes; and none begins
    with a slash: every address is the address of an anchor of the page,
    with the site put before it when it begins with a slash, and as it
    stands on the page otherwise (so an address without scheme and without
    a slash at its head stays as it is). *)
Theorem article_urls_shape (w : world) (article_links : list node) :
  let article_urls := ScrapeRiktpunkt.urls_loop w article_links [] in
  NoDup article_urls
  /\ Forall (fun u => u <> [] /\ ScrapeRiktpunkt.dated w u = true
                      /\ startswith u (py "/") = false) article_urls
  /\ Forall (fun u => exists link href,
                        In link article_links /\ get_href link = Some href
                        /\ u = if startswith href (py "/")
                               then py "https://riktpunkt.nu" ++ href
                               else href) article_urls.
Proof.
  intros article_urls. unfold article_urls.
  destruct (urls_loop_keeps w article_links [] (NoDup_nil _) (Forall_nil _))
    as [N F].
  split; [exact N|]. split; [exact F|].
  apply urls_loop_origin; [auto|constructor].
Qed.

(** X19: whatever the main page links to, and whatever the extraction and
    the saving do, the scraper of riktpunkt.nu returns at most ten
    articles. *)
Theorem scrape_news_at_most_ten (article_data : Type)
    (extract_article_content : node -> str -> outcome (option article_data))
    (save_results : list article_data -> outcome unit)
    (w : world) (news_articles : list article_data) :
  ScrapeRiktpunkt.scrape_news extract_article_content save_results w
  = Returned news_articles ->
  List.length news_articles <= 10.
Proof.
  unfold ScrapeRiktpunkt.scrape_news.
  destruct (NewsTtsAppEnhanced.fetch w ScrapeRiktpunkt.base_url)
    as [soup|e]; cbn [bind].
  - set (urls := firstn 10 _).
    pose proof (articles_loop_length article_data extract_article_content
                  w urls []) as L.
    assert (U : List.length urls <= 10) by apply firstn_le_length.
    destruct (save_results _) as [[]|e]; cbn [bind].
    + intros H. injection H as <-. simpl in L. lia.
    + destruct e; intros H; try discriminate.
      injection H as <-. simpl. lia.
  - destruct e; intros H; try discriminate. injection H as <-. simpl. lia.
Qed.

Lemma scrape_news_at_most_ten_witness :
  let w := Sample.world_of MoreSample.riktpunkt_site Sample.always in
  let found :=
    catch (RiktpunktArticle.scrape w (py "2024-05-01T09:00:00"))
      (fun _ => []) in
  RiktpunktArticle.scrape w (py "2024-05-01T09:00:00") = Returned found
  /\ List.length found <= 10.
Proof.
  intros w found. split; [reflexivity|].
  apply (scrape_news_at_most_ten RiktpunktArticle.article_data
           (fun soup url =>
              Returned (RiktpunktArticle.extract_article_content w
                          (py "2024-05-01T09:00:00") soup url))
           (fun articles => snd (RiktpunktArticle.save_results w articles))
           w found).
  reflexivity.
Defined.

(** X20: the script of scrape_dailysabah.py catches nothing.  When it
    returns, it returns one entry for each complete card (title, author
    line and link) in the order of the page, with the address as it
    stands on the link, not made absolute.  When the page of any complete
    card cannot be fetched or parsed, it raises and returns nothing. *)
Theorem script_columns (w : world) (soup : node) :
  NewsTtsApp.fetch w (py "https://www.dailysabah.com/columns")
  = Returned soup ->
  let cards := find_all_class (py "div") (py "article-card") soup in
  (forall columns,
      ScrapeDailysabah.get_daily_sabah_columns w = Returned columns ->
      map ScrapeDailysabah.col_link columns = collect card_link cards)
  /\ (forall card link e,
      In card cards -> card_link card = Some link ->
      NewsTtsApp.fetch w link = Raised e ->
      exists e', ScrapeDailysabah.get_daily_sabah_columns w = Raised e').
Proof.
  intros G cards. unfold ScrapeDailysabah.get_daily_sabah_columns.
  rewrite G. cbn [bind]. fold cards. split.
  - intros columns H. now apply script_cards_loop_links in H.
  - intros card link e Hin Hl Hf.
    apply in_split in Hin as [pre [post ->]].
    rewrite script_cards_loop_app.
    destruct (ScrapeDailysabah.cards_loop w pre []) as [acc|e'];
      [|now exists e'].
    cbn [bind ScrapeDailysabah.cards_loop].
    unfold card_link, BasicListerNotions.complete in Hl.
    destruct (find (py "h3") card); [|discriminate].
    destruct (find_class (py "div") (py "author-info") card); [|discriminate].
    destruct (find_class (py "a") (py "card") card) as [lt|]; [|discriminate].
    rewrite Hl. unfold ScrapeDailysabah.get_column_content. rewrite Hf.
    now exists e.
Qed.

Lemma script_columns_witness :
  let w := Sample.world_of Sample.unreachable_site Sample.always in
  exists e', ScrapeDailysabah.get_daily_sabah_columns w = Raised e'.
Proof.
  intros w.
  apply (proj2 (script_columns w _ eq_refl)
           (Sample.card (py "Test Column") (Some (py "J. Doe"))
              (Some (py "/columns/gone")))
           (py "/columns/gone") RequestException);
    [now left|reflexivity|reflexivity].
Defined.

(* ================================================================== *)
(** * Further properties: the article pages of riktpunkt.nu *)
(* ================================================================== *)

Module ArticleMore.
Import ScrapeRiktpunkt RiktpunktArticle ArticleNotions.
Import PyNotions PyFacts ChunkerFacts.

Lemma single_spaced_cons (c : char) (rest : str) :
  single_spaced (c :: rest)
  = (negb (isspace c) || (c =? 32)%N)
    && match rest with
       | [] => true
       | d :: _ => negb (isspace c && isspace d)
       end
    && single_spaced rest.
Proof. reflexivity. Qed.

(** After white space the substitution goes on with a character that is
    none. *)
Lemma collapse_from_true_head (s : str) :
  match collapse_from true s with
  | [] => true
  | d :: _ => negb (isspace d)
  end = true.
Proof.
  induction s as [|c s IH]; [reflexivity|]. cbn [collapse_from].
  destruct (isspace c) eqn:W; [exact IH|]. now rewrite W.
Qed.

Lemma collapse_single_spaced (s : str) :
  forall in_run, single_spaced (collapse_from in_run s) = true.
Proof.
  induction s as [|c s IH]; intros b; [reflexivity|].
  cbn [collapse_from]. destruct (isspace c) eqn:W.
  - destruct b; [apply IH|].
    rewrite single_spaced_cons, IH.
    pose proof (collapse_from_true_head s) as H.
    destruct (collapse_from true s) as [|d r]; [reflexivity|].
    change (isspace 32%N) with true. cbn [negb orb andb].
    rewrite N.eqb_refl. cbn [andb]. now rewrite H.
  - rewrite single_spaced_cons, IH, W. cbn [negb orb andb].
    now destruct (collapse_from false s).
Qed.

Lemma single_spaced_app_r (a b : str) :
  single_spaced (a ++ b) = true -> single_spaced b = true.
Proof.
  induction a as [|c a IH]; [auto|]. simpl app. rewrite single_spaced_cons.
  intros H. apply andb_true_iff in H as [_ H]. auto.
Qed.

Lemma single_spaced_app_l (a b : str) :
  single_spaced (a ++ b) = true -> single_spaced a = true.
Proof.
  induction a as [|c a IH]; [reflexivity|]. simpl app.
  rewrite !single_spaced_cons. intros H.
  apply andb_true_iff in H as [H1 H3]. apply andb_true_iff in H1 as [H1 H2].
  rewrite H1, (IH H3). destruct a as [|d a]; [reflexivity|].
  simpl app in H2. now rewrite H2.
Qed.

Lemma single_spaced_strip (s : str) :
  single_spaced s = true -> single_spaced (strip s) = true.
Proof.
  intros H. destruct (strip_decomp s) as [a [b [E _]]]. rewrite E in H.
  apply single_spaced_app_r in H. now apply single_spaced_app_l in H.
Qed.

Lemma single_spaced_no_newline (s : str) :
  single_spaced s = true -> ~ In 10%N s.
Proof.
  induction s as [|c s IH]; [auto|]. rewrite single_spaced_cons.
  intros H. apply andb_true_iff in H as [H1 H3].
  apply andb_true_iff in H1 as [H1 _]. intros [->|Hin]; [discriminate|].
  now apply IH.
Qed.

(** Without a newline there is nothing for the second substitution. *)
Lemma squeeze_id (s : str) : ~ In 10%N s -> squeeze 0 s = s.
Proof.
  induction s as [|c s IH]; [reflexivity|]. intros H. cbn [squeeze].
  destruct (c =? 10)%N eqn:E.
  - apply N.eqb_eq in E. subst. elim H. now left.
  - f_equal. apply IH. intros Hin. apply H. now right.
Qed.

Lemma clean_up_eq (content : str) :
  clean_up content = strip (collapse content).
Proof.
  unfold clean_up. apply squeeze_id. apply single_spaced_no_newline.
  apply single_spaced_strip. apply collapse_single_spaced.
Qed.

Lemma spaces_cons (c : char) (s : str) :
  spaces (c :: s) = if (32 =? c)%N then S (spaces s) else spaces s.
Proof. unfold spaces. cbn [filter]. now destruct (32 =? c)%N. Qed.

(** In a string with single spaces only, the words are one more than the
    spaces. *)
Lemma words_spaces (s : str) :
  single_spaced s = true -> s = [] \/ ends_ok s = true ->
  words_from true s = spaces s
  /\ (starts_ok s = true -> words_from false s = S (spaces s)).
Proof.
  induction s as [|c s IH]; intros H E.
  - split; [reflexivity|discriminate].
  - rewrite single_spaced_cons in H.
    apply andb_true_iff in H as [H1 H3]. apply andb_true_iff in H1 as [H1 H2].
    assert (E' : s = [] \/ ends_ok s = true).
    { destruct s as [|d s]; [now left|right].
      destruct E as [E|E]; [discriminate|].
      now rewrite ends_ok_cons in E by discriminate. }
    destruct (IH H3 E') as [A B]. cbn [words_from]. rewrite spaces_cons.
    destruct (isspace c) eqn:W.
    + cbn [negb orb] in H1. apply N.eqb_eq in H1. subst c.
      rewrite N.eqb_refl. split; [|intros S0; simpl in S0; discriminate].
      destruct s as [|d s].
      * destruct E as [E|E]; discriminate.
      * apply B. cbn [andb] in H2. exact H2.
    + assert (N32 : (32 =? c)%N = false).
      { destruct (32 =? c)%N eqn:Q; [|reflexivity].
        apply N.eqb_eq in Q. subst c. discriminate. }
      rewrite N32. split; [exact A|]. intros _. now rewrite A.
Qed.

(** The fields of an article that is returned. *)
Lemma extracted_fields (w : world) (now : str) (soup : node) (url : str)
    (a : article_data) :
  extract_article_content w now soup url = Some a ->
  title a = title_of soup /\ title a <> []
  /\ content a = strip (collapse (raw_content soup))
  /\ (100 <= len (content a))%Z
  /\ word_count a = words (content a)
  /\ RiktpunktArticle.url a = url.
Proof.
  unfold extract_article_content. rewrite clean_up_eq.
  set (c := strip (collapse (raw_content soup))).
  destruct (negb (truthy (title_of soup)) || (len c <? 100)%Z) eqn:G;
    [discriminate|].
  apply orb_false_iff in G as [T L]. apply negb_false_iff in T.
  apply Z.ltb_ge in L. intros H. injection H as <-.
  cbn [title content word_count RiktpunktArticle.url].
  repeat split; auto. now apply truthy_true.
Qed.

(** ** The date *)





End ArticleMore.

Import ArticleNotions ArticleMore.

(** X21: an article [extract_article_content] returns.  Its title is not
    empty and its content has at least a hundred characters; the content
    is on one line, with no white space but single spaces between its
    words and none at either end, so that the word count is the number of
    spaces and one; the address is the one asked for. *)
Theorem extracted_article_shape (w : world) (now : str) (soup : node)
    (url : str) (a : RiktpunktArticle.article_data) :
  RiktpunktArticle.extract_article_content w now soup url = Some a ->
  RiktpunktArticle.title a <> []
  /\ (100 <= len (RiktpunktArticle.content a))%Z
  /\ single_spaced (RiktpunktArticle.content a) = true
  /\ strip (RiktpunktArticle.content a) = RiktpunktArticle.content a
  /\ ~ In 10%N (RiktpunktArticle.content a)
  /\ RiktpunktArticle.word_count a
     = S (spaces (RiktpunktArticle.content a))
  /\ RiktpunktArticle.url a = url.
Proof.
  intros H.
  destruct (extracted_fields w now soup url a H) as [_ [NT [C [L [W U]]]]].
  rewrite W. clear W. revert L. rewrite C.
  set (c := strip (RiktpunktArticle.collapse
                     (RiktpunktArticle.raw_content soup))).
  intros L.
  assert (S1 : single_spaced c = true)
    by (apply single_spaced_strip, collapse_single_spaced).
  assert (NE : c <> []).
  { intros E. rewrite E in L. unfold len in L. simpl in L. lia. }
  destruct (PyFacts.strip_clean _ NE) as [C1 C2]. fold c in C1, C2.
  split; [exact NT|]. split; [exact L|]. split; [exact S1|].
  split; [now apply PyFacts.strip_id|].
  split; [now apply single_spaced_no_newline|]. split; [|exact U].
  now apply (words_spaces c S1 (or_intror C2)).
Qed.

(** X22: the second substitution of the clean-up never changes anything.
    After white space was replaced by single spaces and the ends were
    trimmed no newline is left for [\n\s*\n] to match, so the cleaned
    content is the trimmed result of the first substitution, whatever the
    page held; the blank lines put between paragraphs do not come
    through. *)
Theorem clean_up_one_line (content : str) :
  RiktpunktArticle.clean_up content
  = strip (RiktpunktArticle.collapse content)
  /\ ~ In 10%N (RiktpunktArticle.clean_up content)
  /\ single_spaced (RiktpunktArticle.clean_up content) = true.
Proof.
  assert (S1 : single_spaced (strip (RiktpunktArticle.collapse content))
               = true)
    by (apply single_spaced_strip, collapse_single_spaced).
  rewrite clean_up_eq. split; [reflexivity|]. split; [|exact S1].
  now apply single_spaced_no_newline.
Qed.


Lemma extracted_article_shape_witness :
  let w := Sample.world_of MoreSample.riktpunkt_site Sample.always in
  exists a,
    RiktpunktArticle.extract_article_content w (py "2024-05-01T09:00:00")
      MoreSample.riktpunkt_page MoreSample.article_address = Some a
    /\ RiktpunktArticle.title a = py "Strejk i hamnen"
    /\ RiktpunktArticle.word_count a = 25
    /\ RiktpunktArticle.word_count a
       = S (spaces (RiktpunktArticle.content a)).
Proof.
  intros w. eexists. split; [reflexivity|].
  split; [reflexivity|]. split; [reflexivity|].
  exact (proj1 (proj2 (proj2 (proj2 (proj2 (proj2
           (extracted_article_shape w (py "2024-05-01T09:00:00")
              MoreSample.riktpunkt_page MoreSample.article_address _
              eq_refl))))))).
Defined.


(* ================================================================== *)
(** * Further properties: the files the scraper saves *)
(* ================================================================== *)

Module SaveMore.
Import ScrapeRiktpunkt RiktpunktArticle ArticleNotions ListerNotions.
Import RunNotions RunMoreNotions RunMore.

Lemma decimal02_digits (n : nat) :
  Forall (fun c => is_digit c = true) (decimal02 n).
Proof.
  unfold decimal02. destruct (n <? 10); [|apply decimal_digits].
  constructor; [reflexivity|apply decimal_digits].
Qed.

(** The name of the file tells the index of the article. *)
Lemma tts_filename_index (i j : nat) (a b : article_data) :
  tts_filename i a = tts_filename j b -> i = j.
Proof.
  unfold tts_filename. intros E. apply app_inv_head in E.
  apply digits_stop in E; try apply decimal02_digits; try reflexivity.
  rewrite <- (number_decimal02 i), <- (number_decimal02 j). now rewrite E.
Qed.

Lemma tts_filename_folder (i : nat) (a : article_data) :
  tts_filename i a <> py "scraped_news.json"
  /\ tts_filename i a <> py "scraped_news.txt".
Proof. unfold tts_filename. split; discriminate. Qed.

Lemma numbered_map_paths (i : nat) (articles : list article_data) :
  map path_of (map tts_file (numbered i articles))
  = map (fun ia : nat * article_data => tts_filename (fst ia) (snd ia))
      (numbered i articles).
Proof. rewrite map_map. reflexivity. Qed.

(** The loop writes the files of a run of the articles from the first
    on, all of them when it ends well. *)
Lemma tts_loop_files (w : world) (articles : list article_data) :
  forall i,
  exists written_for,
    fst (tts_loop w i articles) = map tts_file (numbered i written_for)
    /\ (snd (tts_loop w i articles) = Returned tt -> written_for = articles)
    /\ (forall e, snd (tts_loop w i articles) = Raised e -> e = OSError).
Proof.
  induction articles as [|a articles IH]; intros i.
  - exists []. repeat split; discriminate.
  - cbn [tts_loop]. cbv zeta. destruct (writable w (tts_filename i a)).
    + destruct (IH (S i)) as [done [F [R E]]].
      destruct (tts_loop w (S i) articles) as [files result].
      cbn [fst snd] in *. exists (a :: done). rewrite F.
      split; [reflexivity|]. split; [|exact E].
      intros H. now rewrite (R H).
    + exists []. split; [reflexivity|]. split; [discriminate|].
      intros e H. now injection H as <-.
Qed.

Lemma tts_paths_nodup (i : nat) (articles : list article_data) :
  NoDup (map path_of (map tts_file (numbered i articles))).
Proof.
  rewrite numbered_map_paths. apply nodup_by_index.
  - intros [x a] [y b]. apply tts_filename_index.
  - apply numbered_nodup.
Qed.

Lemma tts_paths_fresh (path : str) (i : nat) (articles : list article_data) :
  path = py "scraped_news.json" \/ path = py "scraped_news.txt" ->
  ~ In path (map path_of (map tts_file (numbered i articles))).
Proof.
  intros P Hin. rewrite numbered_map_paths in Hin.
  apply in_map_iff in Hin as [[j a] [E _]]. cbn [fst snd] in E.
  destruct (tts_filename_folder j a) as [N1 N2].
  destruct P as [P|P]; rewrite P in E; contradiction.
Qed.

(** Saving ends well or with [OSError]. *)
Lemma save_results_raises (w : world) (articles : list article_data)
    (e : exn) :
  snd (save_results w articles) = Raised e -> e = OSError.
Proof.
  unfold save_results.
  destruct (writable w (py "scraped_news.json")); cbn [negb];
    [|intros H; now injection H as <-].
  destruct (writable w (py "scraped_news.txt")); cbn [negb];
    [|intros H; now injection H as <-].
  destruct (writable w (py "articles_for_tts")); cbn [negb];
    [|intros H; now injection H as <-].
  destruct (tts_loop_files w articles 1) as [done [_ [_ E]]].
  destruct (tts_loop w 1 articles) as [fs res]. exact (E e).
Qed.

(** The loop over the addresses with [extract_article_content] in its
    place. *)
Lemma articles_loop_collect (w : world) (now : str) (urls : list str) :
  forall news_articles,
  articles_loop
    (fun soup url => Returned (extract_article_content w now soup url))
    w urls news_articles
  = news_articles ++ collect (article_at w now) urls.
Proof.
  induction urls as [|u urls IH]; intros acc; [now rewrite app_nil_r|].
  cbn [articles_loop collect]. unfold article_at at 1.
  destruct (NewsTtsAppEnhanced.fetch w u) as [soup|e]; cbn [bind].
  - destruct (extract_article_content w now soup u) as [d|].
    + rewrite IH, <- app_assoc. reflexivity.
    + apply IH.
  - apply IH.
Qed.

End SaveMore.

Import SaveMore.

(** X24: [sanitize_filename] keeps the length of the name and leaves none
    of the characters it is to remove; a name without any of them comes
    back as it is, and sanitizing twice is sanitizing once. *)
Theorem sanitize_filename_safe (filename : str) :
  List.length (RiktpunktArticle.sanitize_filename filename)
  = List.length filename
  /\ Forall (fun c => RiktpunktArticle.is_invalid c = false)
       (RiktpunktArticle.sanitize_filename filename)
  /\ (Forall (fun c => RiktpunktArticle.is_invalid c = false) filename ->
      RiktpunktArticle.sanitize_filename filename = filename)
  /\ RiktpunktArticle.sanitize_filename
       (RiktpunktArticle.sanitize_filename filename)
     = RiktpunktArticle.sanitize_filename filename.
Proof.
  unfold RiktpunktArticle.sanitize_filename.
  assert (F : Forall (fun c => RiktpunktArticle.is_invalid c = false)
                (map (fun c => if RiktpunktArticle.is_invalid c
                               then 95%N else c) filename)).
  { apply Forall_map. apply Forall_forall. intros c _.
    destruct (RiktpunktArticle.is_invalid c) eqn:E; [reflexivity|exact E]. }
  assert (Id : forall s,
             Forall (fun c => RiktpunktArticle.is_invalid c = false) s ->
             map (fun c => if RiktpunktArticle.is_invalid c
                           then 95%N else c) s = s).
  { intros s Fs. induction Fs as [|c s Hc _ IH]; [reflexivity|].
    simpl. now rewrite Hc, IH. }
  split; [apply length_map|]. split; [exact F|].
  split; [apply Id|now apply Id].
Qed.

(** X25: the files [save_results] writes.  No path is written twice: the
    files for the speech script carry the number of their article.  When
    it ends well the files are the JSON dump, the report, and one text
    file for each article, in order; it can end otherwise only with
    [OSError]. *)
Theorem saved_files (w : world)
    (articles : list RiktpunktArticle.article_data) :
  let files := fst (RiktpunktArticle.save_results w articles) in
  let result := snd (RiktpunktArticle.save_results w articles) in
  NoDup (map RiktpunktArticle.path_of files)
  /\ (forall e, result = Raised e -> e = OSError)
  /\ (result = Returned tt ->
      files
      = RiktpunktArticle.JsonFile (py "scraped_news.json") articles
        :: RiktpunktArticle.TextFile (py "scraped_news.txt")
             (RiktpunktArticle.report articles)
        :: map tts_file (numbered 1 articles)).
Proof.
  intros files result. unfold files, result, RiktpunktArticle.save_results.
  destruct (writable w (py "scraped_news.json")); cbn [negb];
    [|repeat split; [constructor|intros e H; now injection H as <-
                    |discriminate]].
  destruct (writable w (py "scraped_news.txt")); cbn [negb];
    [|repeat split; [repeat constructor; auto
                    |intros e H; now injection H as <-|discriminate]].
  destruct (writable w (py "articles_for_tts")); cbn [negb].
  - destruct (tts_loop_files w articles 1) as [done [F [R E]]].
    destruct (RiktpunktArticle.tts_loop w 1 articles) as [fs res].
    cbn [fst snd] in *. subst fs. split; [|split].
    + cbn [map RiktpunktArticle.path_of].
      constructor; [|constructor; [|apply tts_paths_nodup]].
      * intros [H|H]; [discriminate|].
        revert H. apply tts_paths_fresh. now left.
      * apply tts_paths_fresh. now right.
    + exact E.
    + intros H. now rewrite (R H).
  - repeat split; [|intros e H; now injection H as <-|discriminate].
    cbn [map RiktpunktArticle.path_of]. repeat constructor; auto.
    intros [H|[]]. discriminate.
Qed.

(** X26: the scraper of riktpunkt.nu as a whole, once its main page is
    fetched.  It returns the articles of the first ten addresses
    collected from the main page, in order, leaving out those whose page
    cannot be fetched or parsed and those the extraction turns down; but
    when the results cannot be saved it raises [OSError] and returns
    nothing. *)
Theorem scrape_articles (w : world) (now : str) (soup : node) :
  NewsTtsAppEnhanced.fetch w ScrapeRiktpunkt.base_url = Returned soup ->
  let found :=
    collect (article_at w now)
      (firstn 10
         (ScrapeRiktpunkt.urls_loop w (find_all_href (py "a") soup) [])) in
  RiktpunktArticle.scrape w now
  = match snd (RiktpunktArticle.save_results w found) with
    | Returned _ => Returned found
    | Raised _ => Raised OSError
    end.
Proof.
  intros G found.
  unfold RiktpunktArticle.scrape, ScrapeRiktpunkt.scrape_news.
  rewrite G. cbn [bind]. rewrite articles_loop_collect, app_nil_l.
  fold found.
  pose proof (save_results_raises w found) as E.
  destruct (snd (RiktpunktArticle.save_results w found)) as [[]|e];
    [reflexivity|].
  now rewrite (E e eq_refl).
Qed.

Lemma scrape_articles_witness :
  let w := Sample.world_of MoreSample.riktpunkt_site Sample.always in
  map RiktpunktArticle.title
    (catch (RiktpunktArticle.scrape w (py "2024-05-01T09:00:00"))
       (fun _ => []))
  = [py "Strejk i hamnen"]
  /\ RiktpunktArticle.scrape (MoreSample.locked w) (py "2024-05-01T09:00:00")
     = Raised OSError.
Proof.
  intros w. split.
  - rewrite (scrape_articles w (py "2024-05-01T09:00:00") _ eq_refl).
    reflexivity.
  - rewrite (scrape_articles (MoreSample.locked w)
               (py "2024-05-01T09:00:00") _ eq_refl).
    reflexivity.
Defined.

Lemma sanitize_filename_safe_witness :
  RiktpunktArticle.sanitize_filename (py "Vem vinner: facket/bolaget?")
  = py "Vem vinner_ facket_bolaget_"
  /\ RiktpunktArticle.sanitize_filename (py "Strejk i hamnen")
     = py "Strejk i hamnen".
Proof.
  split; [reflexivity|].
  apply (proj1 (proj2 (proj2 (sanitize_filename_safe
                                (py "Strejk i hamnen"))))).
  repeat constructor.
Defined.

Lemma saved_files_witness :
  let w := Sample.world_of MoreSample.riktpunkt_site Sample.always in
  let a := {| RiktpunktArticle.title := py "Vem vinner: facket/bolaget?";
              RiktpunktArticle.category := py "FACKLIGT";
              RiktpunktArticle.date := py "2024-05";
              RiktpunktArticle.url := MoreSample.article_address;
              RiktpunktArticle.content := py "Text.";
              RiktpunktArticle.word_count := 1;
              RiktpunktArticle.scraped_at := py "2024-05-01T09:00:00" |} in
  map RiktpunktArticle.path_of
    (fst (RiktpunktArticle.save_results w [a; a]))
  = [ py "scraped_news.json"; py "scraped_news.txt";
      py "articles_for_tts/article_01_2024-05_Vem vinner_ facket_bolaget_.txt";
      py "articles_for_tts/article_02_2024-05_Vem vinner_ facket_bolaget_.txt" ].
Proof.
  intros w a.
  rewrite (proj2 (proj2 (saved_files w [a; a])) eq_refl). reflexivity.
Defined.

(* ================================================================== *)
(** * Further properties: the playlist *)
(* ================================================================== *)

Module PlaylistMore.
Import Playlist ArticleNotions.

Lemma str_ltb_asym (a : str) :
  forall b, str_ltb a b = true -> str_ltb b a = false.
Proof.
  induction a as [|x a IH]; intros [|y b] H; try reflexivity;
    try discriminate.
  simpl in *. destruct (x <? y)%N eqn:L1.
  - apply N.ltb_lt in L1.
    destruct (y <? x)%N eqn:L2; [apply N.ltb_lt in L2; lia|reflexivity].
  - destruct (y <? x)%N eqn:L2; [discriminate|]. now apply IH.
Qed.

Lemma insert_perm (f : audio_file) (l : list audio_file) :
  Permutation (f :: l) (insert f l).
Proof.
  induction l as [|g l IH]; [apply Permutation_refl|]. simpl.
  destruct (str_ltb (name g) (name f)); [|apply Permutation_refl].
  eapply Permutation_trans; [apply perm_swap|]. now apply perm_skip.
Qed.

Lemma sorted_perm (files : list audio_file) :
  Permutation files (sorted files).
Proof.
  induction files as [|f files IH]; [constructor|]. simpl.
  eapply Permutation_trans; [|apply insert_perm]. now apply perm_skip.
Qed.

Lemma insert_sorted (f : audio_file) (l : list audio_file) :
  Sorted name_le l -> Sorted name_le (insert f l).
Proof.
  induction l as [|g l IH]; intros S; simpl.
  - repeat constructor.
  - destruct (str_ltb (name g) (name f)) eqn:E.
    + inversion S as [|? ? Sl Hd]; subst. constructor; [now apply IH|].
      destruct l as [|h l]; simpl.
      * constructor. unfold name_le. now apply str_ltb_asym.
      * destruct (str_ltb (name h) (name f)); constructor.
        -- now inversion Hd.
        -- unfold name_le. now apply str_ltb_asym.
    + constructor; [exact S|]. constructor. exact E.
Qed.

Lemma sorted_sorted (files : list audio_file) :
  Sorted name_le (sorted files).
Proof.
  induction files as [|f files IH]; [constructor|]. simpl.
  now apply insert_sorted.
Qed.

End PlaylistMore.

Import PlaylistMore.

(** X27: the playlist.  Without the folder, or without an audio file in
    it, nothing is written.  Otherwise the playlist is the header line
    and, for every audio file of the folder exactly once and in ascending
    order of the names, the line [#EXTINF:-1,] with the stem and the line
    with the name. *)
Theorem playlist_entries (w : world) (audio_folder : str) :
  Playlist.create_playlist w audio_folder None = Returned None
  /\ Playlist.create_playlist w audio_folder (Some []) = Returned None
  /\ (forall files path text,
      Playlist.create_playlist w audio_folder (Some files)
      = Returned (Some (path, text)) ->
      exists ordered,
        Permutation files ordered
        /\ Sorted name_le ordered
        /\ text = py "#EXTM3U" ++ newline
                  ++ flat_map Playlist.entry ordered).
Proof.
  split; [reflexivity|]. split; [reflexivity|].
  intros files path text. unfold Playlist.create_playlist.
  pose proof (sorted_perm files) as P.
  pose proof (sorted_sorted files) as S.
  destruct (Playlist.sorted files) as [|f ordered]; [discriminate|].
  destruct (writable w _); [|discriminate].
  intros H. injection H as _ <-. now exists (f :: ordered).
Qed.

Lemma playlist_entries_witness :
  let w := Sample.world_of [] Sample.always in
  let b := {| Playlist.name := py "b.mp3"; Playlist.stem := py "b" |} in
  let a2 := {| Playlist.name := py "a_part02.mp3";
               Playlist.stem := py "a_part02" |} in
  let a1 := {| Playlist.name := py "a_part01.mp3";
               Playlist.stem := py "a_part01" |} in
  Playlist.create_playlist w (py "audio_news") (Some [b; a2; a1])
  = Returned
      (Some (py "audio_news/news_playlist.m3u",
             py "#EXTM3U" ++ newline
             ++ flat_map Playlist.entry [a1; a2; b]))
  /\ exists ordered,
       Permutation [b; a2; a1] ordered
       /\ Sorted name_le ordered
       /\ py "#EXTM3U" ++ newline ++ flat_map Playlist.entry [a1; a2; b]
          = py "#EXTM3U" ++ newline ++ flat_map Playlist.entry ordered.
Proof.
  intros w b a2 a1. split; [reflexivity|].
  exact (proj2 (proj2 (playlist_entries w (py "audio_news")))
           [b; a2; a1] _ _ eq_refl).
Defined.

(* ================================================================== *)
(** * Further properties: the title of an article page *)
(* ================================================================== *)

Module TitleMore.
Import RiktpunktArticle PyNotions PyFacts ChunkerFacts.

Lemma after_line_suffix (s : str) : exists m, s = m ++ after_line s.
Proof.
  induction s as [|c s [m IH]]; [now exists []|]. cbn [after_line].
  destruct (c =? 10)%N; [now exists []|].
  exists (c :: m). simpl. now rewrite <- IH.
Qed.

(** A match leaves the end of the string, or the newline that ends it. *)
Lemma site_name_here_suffix (s r : str) :
  site_name_here s = Some r -> at_end r = true /\ exists m, s = m ++ r.
Proof.
  unfold site_name_here. cbv zeta.
  destruct (lstrip_decomp s) as [a [Ea _]].
  destruct (lstrip s) as [|c rest]; [discriminate|].
  destruct (lstrip_decomp rest) as [b [Eb _]].
  destruct (is_bar c && startswith (lstrip rest) (py "RiktpunKt"));
    [|discriminate].
  destruct (after_line_suffix (skipn 9 (lstrip rest))) as [m Em].
  remember (after_line (skipn 9 (lstrip rest))) as y eqn:Ey.
  destruct (at_end y) eqn:E; [|discriminate].
  intros H. injection H as <-. split; [exact E|].
  exists (a ++ c :: b ++ firstn 9 (lstrip rest) ++ m).
  rewrite <- !app_assoc, <- app_comm_cons, <- !app_assoc, <- Em.
  rewrite firstn_skipn, <- Eb. exact Ea.
Qed.

Lemma ends_ok_app_nonempty (m r : str) :
  r <> [] -> ends_ok (m ++ r) = ends_ok r.
Proof.
  intros NE. induction m as [|c m IH]; [reflexivity|]. simpl app.
  rewrite ends_ok_cons; [exact IH|]. now destruct m, r.
Qed.

(** In a string that does not end in white space a match goes to the
    end. *)
Lemma site_name_here_to_end (s r : str) :
  s = [] \/ ends_ok s = true -> site_name_here s = Some r -> r = [].
Proof.
  intros E H. apply site_name_here_suffix in H as [A [m ->]].
  destruct r as [|c [|d r]]; [reflexivity| |discriminate].
  apply N.eqb_eq in A. subst c.
  destruct E as [E|E]; [now destruct m|].
  rewrite ends_ok_app_nonempty in E by discriminate. discriminate.
Qed.

Lemma site_name_here_space (c : char) (s : str) :
  isspace c = true -> site_name_here (c :: s) = site_name_here s.
Proof. intros W. unfold site_name_here. cbn [lstrip]. now rewrite W. Qed.

Lemma cut_site_name_cons (c : char) (rest : str) :
  cut_site_name (c :: rest)
  = match site_name_here (c :: rest) with
    | Some remainder => remainder
    | None => c :: cut_site_name rest
    end.
Proof. reflexivity. Qed.

Lemma cut_site_name_nil (s : str) :
  s = [] \/ ends_ok s = true ->
  cut_site_name s = [] -> s = [] \/ site_name_here s = Some [].
Proof.
  intros E. destruct s as [|c s]; [now left|]. rewrite cut_site_name_cons.
  destruct (site_name_here (c :: s)) as [r|] eqn:H; [|discriminate].
  intros ->. now right.
Qed.

Lemma cut_site_name_ends (s : str) :
  s = [] \/ ends_ok s = true ->
  cut_site_name s = [] \/ ends_ok (cut_site_name s) = true.
Proof.
  induction s as [|c s IH]; intros E; [now left|].
  rewrite cut_site_name_cons.
  destruct (site_name_here (c :: s)) as [r|] eqn:H.
  - left. exact (site_name_here_to_end _ _ E H).
  - right.
    assert (E' : s = [] \/ ends_ok s = true).
    { destruct s as [|d s]; [now left|right].
      destruct E as [E|E]; [discriminate|].
      now rewrite ends_ok_cons in E by discriminate. }
    destruct (IH E') as [Z|Z].
    + rewrite Z. destruct (cut_site_name_nil _ E' Z) as [->|M].
      * destruct E as [E|E]; [discriminate|exact E].
      * destruct (isspace c) eqn:W.
        -- rewrite (site_name_here_space c s W) in H. congruence.
        -- unfold ends_ok. simpl. now rewrite W.
    + rewrite ends_ok_cons; [exact Z|].
      intros Q. rewrite Q in Z. discriminate.
Qed.

Lemma cut_site_name_starts (s : str) :
  s = [] \/ (starts_ok s = true /\ ends_ok s = true) ->
  cut_site_name s = [] \/ starts_ok (cut_site_name s) = true.
Proof.
  intros [->|[S E]]; [now left|]. destruct s as [|c s]; [now left|].
  rewrite cut_site_name_cons.
  destruct (site_name_here (c :: s)) as [r|] eqn:H.
  - left. exact (site_name_here_to_end _ _ (or_intror E) H).
  - right. exact S.
Qed.

Lemma strip_cases (s : str) :
  strip s = [] \/ (starts_ok (strip s) = true /\ ends_ok (strip s) = true).
Proof.
  destruct (strip s) as [|c r] eqn:E; [now left|right].
  rewrite <- E. apply strip_clean. rewrite E. discriminate.
Qed.

(** The title is empty, or has no white space at either end. *)
Lemma title_of_clean (soup : node) :
  title_of soup = []
  \/ (starts_ok (title_of soup) = true /\ ends_ok (title_of soup) = true).
Proof.
  unfold title_of. destruct (find (py "h1") soup) as [h|].
  - apply strip_cases.
  - destruct (find (py "title") soup) as [t|]; [|now left].
    destruct (strip_cases (text t)) as [E|[S E]].
    + rewrite E. now left.
    + destruct (cut_site_name_starts _ (or_intror (conj S E))) as [Z|S'];
        [now left|].
      destruct (cut_site_name_ends _ (or_intror E)) as [Z|E'];
        [now left|right; auto].
Qed.

End TitleMore.

Import TitleMore.

(** X28: the title of an article page has no white space at either end,
    whether it comes from the first [h1] or, cut before the name of the
    site, from the [title] of the page: taking the site name away leaves
    no space behind. *)
Theorem title_trimmed (soup : node) :
  strip (RiktpunktArticle.title_of soup) = RiktpunktArticle.title_of soup.
Proof.
  destruct (title_of_clean soup) as [E|[S E]].
  - rewrite E. reflexivity.
  - now apply PyFacts.strip_id.
Qed.

(* ================================================================== *)
(** * Further properties: from the scraper to the speech script *)
(* ================================================================== *)

Module PipelineMore.
Import PyNotions PyFacts ChunkerFacts RunNotions RunFacts.
Import ArticleNotions ArticleMore TitleMore ElevenlabsMore.

(** The text saved for an extracted article is trimmed as it stands. *)
Lemma tts_text_trimmed (w : world) (now : str) (soup : node) (url : str)
    (a : RiktpunktArticle.article_data) :
  RiktpunktArticle.extract_article_content w now soup url = Some a ->
  RiktpunktArticle.tts_text a <> []
  /\ strip (RiktpunktArticle.tts_text a) = RiktpunktArticle.tts_text a.
Proof.
  intros H.
  destruct (extracted_fields w now soup url a H) as [T [NT [C [L _]]]].
  assert (NC : RiktpunktArticle.content a <> []).
  { intros E. rewrite E in L. unfold len in L. simpl in L. lia. }
  assert (ST : starts_ok (RiktpunktArticle.title a) = true).
  { destruct (title_of_clean soup) as [E|[S _]]; [congruence|].
    now rewrite T. }
  assert (EC : ends_ok (RiktpunktArticle.content a) = true).
  { rewrite C in NC |- *. now apply strip_clean. }
  unfold RiktpunktArticle.tts_text. split.
  - intros E. apply app_eq_nil in E as [E _]. contradiction.
  - apply strip_id.
    + now apply starts_ok_app.
    + apply ends_ok_app. apply ends_ok_app. now apply ends_ok_app.
Qed.

(** ** Reading the saved text back *)

Lemma universal_newlines_cons (c : char) (rest : str) :
  Elevenlabs.universal_newlines (c :: rest)
  = if (c =? 13)%N then
      match rest with
      | [] => [10%N]
      | d :: rest' =>
          if (d =? 10)%N then 10%N :: Elevenlabs.universal_newlines rest'
          else 10%N :: Elevenlabs.universal_newlines rest
      end
    else c :: Elevenlabs.universal_newlines rest.
Proof. reflexivity. Qed.

Lemma universal_newlines_nonempty (s : str) :
  s <> [] -> Elevenlabs.universal_newlines s <> [].
Proof.
  destruct s as [|c rest]; [congruence|]. intros _.
  rewrite universal_newlines_cons.
  destruct (c =? 13)%N; [|discriminate].
  destruct rest as [|d rest']; [discriminate|].
  destruct (d =? 10)%N; discriminate.
Qed.

Lemma universal_newlines_starts (s : str) :
  starts_ok s = true -> starts_ok (Elevenlabs.universal_newlines s) = true.
Proof.
  destruct s as [|c rest]; [discriminate|]. intros H.
  rewrite universal_newlines_cons.
  destruct (c =? 13)%N eqn:E; [|exact H].
  apply N.eqb_eq in E. subst c. discriminate.
Qed.

Lemma universal_newlines_ends_bounded (n : nat) :
  forall s, List.length s <= n -> ends_ok s = true ->
  ends_ok (Elevenlabs.universal_newlines s) = true.
Proof.
  induction n as [|n IH]; intros s L H.
  - destruct s; [discriminate|simpl in L; lia].
  - destruct s as [|c rest]; [discriminate|]. simpl in L.
    rewrite universal_newlines_cons.
    destruct (c =? 13)%N eqn:E.
    + apply N.eqb_eq in E. subst c.
      destruct rest as [|d rest']; [discriminate|].
      assert (NR : d :: rest' <> []) by discriminate.
      rewrite (@ends_ok_cons 13%N (d :: rest') NR) in H.
      cbv iota. destruct (d =? 10)%N eqn:D.
      * apply N.eqb_eq in D. subst d.
        destruct rest' as [|e rest'']; [discriminate|].
        assert (NR' : e :: rest'' <> []) by discriminate.
        rewrite (@ends_ok_cons 10%N (e :: rest'') NR') in H.
        refine (eq_trans (@ends_ok_cons 10%N _
                            (universal_newlines_nonempty _ NR')) _).
        apply IH; [simpl in L |- *; lia|exact H].
      * refine (eq_trans (@ends_ok_cons 10%N _
                            (universal_newlines_nonempty _ NR)) _).
        apply IH; [simpl in L |- *; lia|exact H].
    + destruct rest as [|d rest']; [exact H|].
      assert (NR : d :: rest' <> []) by discriminate.
      rewrite (@ends_ok_cons c (d :: rest') NR) in H.
      refine (eq_trans (@ends_ok_cons c _
                          (universal_newlines_nonempty _ NR)) _).
      apply IH; [simpl in L |- *; lia|exact H].
Qed.

Lemma universal_newlines_ends (s : str) :
  ends_ok s = true -> ends_ok (Elevenlabs.universal_newlines s) = true.
Proof. exact (universal_newlines_ends_bounded (List.length s) s (le_n _)). Qed.

(** A text without carriage return is read back as it was written. *)
Lemma universal_newlines_id (s : str) :
  ~ In 13%N s -> Elevenlabs.universal_newlines s = s.
Proof.
  induction s as [|c rest IH]; [reflexivity|]. intros H.
  rewrite universal_newlines_cons.
  destruct (c =? 13)%N eqn:E.
  - apply N.eqb_eq in E. subst c. elim H. now left.
  - rewrite IH; [reflexivity|]. intros I. apply H. now right.
Qed.

Lemma single_spaced_no_return (s : str) :
  single_spaced s = true -> ~ In 13%N s.
Proof.
  induction s as [|c s IH]; [auto|]. rewrite single_spaced_cons.
  intros H. apply andb_true_iff in H as [H1 H3].
  apply andb_true_iff in H1 as [H1 _].
  intros [E|I]; [|exact (IH H3 I)]. subst c. discriminate.
Qed.

(** The content of an extracted article holds no carriage return. *)
Lemma content_no_return (w : world) (now : str) (soup : node) (url : str)
    (a : RiktpunktArticle.article_data) :
  RiktpunktArticle.extract_article_content w now soup url = Some a ->
  ~ In 13%N (RiktpunktArticle.content a).
Proof.
  intros H.
  destruct (extracted_fields w now soup url a H) as [_ [_ [C _]]].
  rewrite C. apply single_spaced_no_return, single_spaced_strip.
  apply collapse_single_spaced.
Qed.

(** The text read back is trimmed as it stands. *)
Lemma read_back_trimmed (w : world) (now : str) (soup : node) (url : str)
    (a : RiktpunktArticle.article_data) :
  RiktpunktArticle.extract_article_content w now soup url = Some a ->
  let text := Elevenlabs.universal_newlines (RiktpunktArticle.tts_text a) in
  text <> [] /\ strip text = text.
Proof.
  intros H text.
  destruct (tts_text_trimmed w now soup url a H) as [NE S].
  destruct (strip_clean (RiktpunktArticle.tts_text a)) as [SO EO];
    [now rewrite S|].
  rewrite S in SO, EO. split.
  - now apply universal_newlines_nonempty.
  - apply strip_id.
    + now apply universal_newlines_starts.
    + now apply universal_newlines_ends.
Qed.

End PipelineMore.

Import PipelineMore.

(** X29: from the scraper to the speech script.  The text file saved for
    an extracted article (title, blank line, content), read back in text
    mode, never counts as empty in [process_news_articles]: once the
    output folder is there it leads to at least one request to the speech
    service, and when the text read is within [max_length], to exactly
    one, for that text.  The text read is the text saved with every
    carriage return, and every carriage return with its line feed, turned
    into a line feed; only the title can hold one, and without one the
    text read is the text saved. *)
Theorem saved_article_is_spoken (w : world) (now : str) (soup : node)
    (url : str) (a : RiktpunktArticle.article_data)
    (file_stem output_folder : str) (max_length : Z) :
  RiktpunktArticle.extract_article_content w now soup url = Some a ->
  folder_ok w output_folder = true ->
  let text := Elevenlabs.universal_newlines (RiktpunktArticle.tts_text a) in
  let f := {| Elevenlabs.stem := file_stem; Elevenlabs.read := Some text |} in
  let run :=
    Elevenlabs.process_news_articles w (Some [f]) output_folder max_length in
  speech_calls (trace run) <> []
  /\ ((len text <= max_length)%Z ->
      speech_calls (trace run)
      = [(text, path_join output_folder (file_stem ++ py ".mp3"))])
  /\ ~ In 13%N (RiktpunktArticle.content a)
  /\ (~ In 13%N (RiktpunktArticle.title a) ->
      text = RiktpunktArticle.tts_text a).
Proof.
  intros H F text f run. unfold run.
  rewrite process_news_articles_calls, F. cbn [flat_map].
  rewrite app_nil_r, file_requests_eq. cbn [Elevenlabs.read Elevenlabs.stem f].
  destruct (read_back_trimmed w now soup url a H) as [NE S]. fold text in NE, S.
  pose proof (content_no_return w now soup url a H) as NC.
  pose proof (ChunkerFacts.split_text_of_trimmed text max_length) as P.
  rewrite S in *.
  apply PyFacts.truthy_true in NE as T. rewrite T. cbn [negb].
  assert (Q : ~ In 13%N (RiktpunktArticle.title a) ->
              text = RiktpunktArticle.tts_text a).
  { intros NT. apply universal_newlines_id.
    unfold RiktpunktArticle.tts_text. intros I.
    apply in_app_or in I as [I|I]; [exact (NT I)|].
    apply in_app_or in I as [I|I]; [destruct I as [I|[]]; discriminate|].
    apply in_app_or in I as [I|I]; [destruct I as [I|[]]; discriminate|].
    exact (NC I). }
  destruct (len text >? max_length)%Z eqn:L.
  - split; [|split; [|split; [exact NC|exact Q]]].
    + specialize (P NE).
      destruct (split_text text max_length) as [|part parts]; [now elim P|].
      rewrite part_requests_cons. discriminate.
    + intros Le. apply Z.gtb_lt in L. lia.
  - split; [discriminate|]. split; [reflexivity|]. split; [exact NC|exact Q].
Qed.

Lemma saved_article_is_spoken_witness :
  let w := Sample.world_of MoreSample.riktpunkt_site Sample.always in
  exists a,
    RiktpunktArticle.extract_article_content w (py "2024-05-01T09:00:00")
      MoreSample.riktpunkt_page MoreSample.article_address = Some a
    /\ speech_calls
         (trace
            (Elevenlabs.process_news_articles w
               (Some [ {| Elevenlabs.stem :=
                            py "article_01_2024-05_Strejk i hamnen";
                          Elevenlabs.read :=
                            Some (Elevenlabs.universal_newlines
                                    (RiktpunktArticle.tts_text a)) |} ])
               (py "audio_news") 5000))
       = [(Elevenlabs.universal_newlines (RiktpunktArticle.tts_text a),
           py "audio_news/article_01_2024-05_Strejk i hamnen.mp3")]
    /\ Elevenlabs.universal_newlines (RiktpunktArticle.tts_text a)
       = RiktpunktArticle.tts_text a.
Proof.
  intros w. eexists. split; [reflexivity|].
  destruct (saved_article_is_spoken w (py "2024-05-01T09:00:00")
              MoreSample.riktpunkt_page MoreSample.article_address _
              (py "article_01_2024-05_Strejk i hamnen")
              (py "audio_news") 5000 eq_refl eq_refl) as [_ [One [_ Same]]].
  split.
  - apply One. vm_compute. discriminate.
  - apply Same. vm_compute.
    intros I. repeat (destruct I as [I|I]; [discriminate|]). exact I.
Defined.
